(** * GCAdapter: the GameCube controller adapter driver

    A shallow embedding of [Source/Core/InputCommon/GCAdapter.cpp] and the
    properties its specification states about it.

    The source is compiled in one of two ways.  The main part of the
    embedding follows the build in which
    [GCADAPTER_USE_LIBUSB_IMPLEMENTATION] is true ([ANDROID] undefined): the
    file-scope statics of the translation unit are the fields of one record,
    [State], and every function of the source is a function on [State].
    Module [Android] follows the other build for [Reset] and [Input], where
    the two builds differ in what a call changes.

    What a function makes visible outside the process (USB transfers, the
    detection callback, event signals, thread creation and joins) is appended
    to the history field [s_trace].  Log statements are not modelled.

    Fixed-width integers are [Z] with their conversions written out ([u8],
    [u16], [u64]); [std::array<T, N>] is a [list] read with [!!!] and written
    with [<[i:=v]>].  Indexing a [std::array] outside its bounds is undefined
    in the source; the properties that read an entry back are stated for
    channels [0..3] and arrays of their declared length. *)

From Stdlib Require Import ZArith Bool List Lia.
From stdpp Require Import base numbers list.

Local Open Scope Z_scope.

(** ** Fixed-width integers *)

Definition u8 (x : Z) : Z := x mod 2 ^ 8.
Definition u16 (x : Z) : Z := x mod 2 ^ 16.
Definition u64 (x : Z) : Z := x mod 2 ^ 64.

Definition is_u8 (x : Z) : Prop := 0 <= x < 256.

(** ** Constants of headers that are not part of the translation unit

    [GCPadStatus.h] (the [PAD_*] masks), [SI_Device.h]
    ([SIDEVICE_WIIU_ADAPTER]) and [libusb.h] are included by the source but
    are not under [src/].  Their constants are parameters of the
    development. *)

Class Headers := {
  PAD_BUTTON_LEFT : Z;
  PAD_BUTTON_RIGHT : Z;
  PAD_BUTTON_DOWN : Z;
  PAD_BUTTON_UP : Z;
  PAD_TRIGGER_Z : Z;
  PAD_TRIGGER_R : Z;
  PAD_TRIGGER_L : Z;
  PAD_BUTTON_A : Z;
  PAD_BUTTON_B : Z;
  PAD_BUTTON_X : Z;
  PAD_BUTTON_Y : Z;
  PAD_BUTTON_START : Z;
  PAD_GET_ORIGIN : Z;
  PAD_ERR_STATUS : Z;
  SIDEVICE_WIIU_ADAPTER : Z;
  LIBUSB_DT_HID : Z;
  LIBUSB_ENDPOINT_IN : Z;
  LIBUSB_ERROR_ACCESS : Z;
  LIBUSB_ERROR_NOT_FOUND : Z;
  LIBUSB_ERROR_NOT_SUPPORTED : Z
}.

(** The values the project's headers and libusb 1.0 give to these names;
    used to run the model on concrete inputs. *)
Definition dolphin_headers : Headers := {|
  PAD_BUTTON_LEFT := 0x0001;
  PAD_BUTTON_RIGHT := 0x0002;
  PAD_BUTTON_DOWN := 0x0004;
  PAD_BUTTON_UP := 0x0008;
  PAD_TRIGGER_Z := 0x0010;
  PAD_TRIGGER_R := 0x0020;
  PAD_TRIGGER_L := 0x0040;
  PAD_BUTTON_A := 0x0100;
  PAD_BUTTON_B := 0x0200;
  PAD_BUTTON_X := 0x0400;
  PAD_BUTTON_Y := 0x0800;
  PAD_BUTTON_START := 0x1000;
  PAD_GET_ORIGIN := 0x2000;
  PAD_ERR_STATUS := 0x8000;
  SIDEVICE_WIIU_ADAPTER := 12;
  LIBUSB_DT_HID := 0x21;
  LIBUSB_ENDPOINT_IN := 0x80;
  LIBUSB_ERROR_ACCESS := -3;
  LIBUSB_ERROR_NOT_FOUND := -5;
  LIBUSB_ERROR_NOT_SUPPORTED := -12
|}.

(** ** Data model *)

(** [enum { NO_ADAPTER_DETECTED = 0, ADAPTER_DETECTED = 1 }]; a negative
    [s_status] holds a libusb error code. *)
Definition NO_ADAPTER_DETECTED : Z := 0.
Definition ADAPTER_DETECTED : Z := 1.

(** [enum class ControllerType : u8].  [Input] stores the result of a
    [static_cast] from a nibble, so the tracked value ranges over the
    underlying type, not only over the three enumerators. *)
Module ControllerType.
Definition t : Type := Z.
Definition None : t := 0.
Definition Wired : t := 1.
Definition Wireless : t := 2.
End ControllerType.

Definition MAX_SI_CHANNELS : nat := 4.

Definition CONTROLER_INPUT_PAYLOAD_EXPECTED_SIZE : Z := 37.
Definition CONTROLER_OUTPUT_INIT_PAYLOAD_SIZE : Z := 1.
Definition CONTROLER_OUTPUT_RUMBLE_PAYLOAD_SIZE : Z := 5.

(** Modelled from the spec: [GCPadStatus] is declared in
    [InputCommon/GCPadStatus.h], which is not under [src/].  The record has
    the seven members [Input] assigns; [GCPadStatus pad = {}] is the
    "zeroed/neutral state" of the specification. *)
Record GCPadStatus := mkPad {
  button : Z;
  stickX : Z;
  stickY : Z;
  substickX : Z;
  substickY : Z;
  triggerLeft : Z;
  triggerRight : Z
}.

Definition GCPadStatus_default : GCPadStatus := mkPad 0 0 0 0 0 0 0.

(** The threads the driver starts. *)
Inductive Thread := ReadThread | WriteThread | ScanThread.

(** An opened device is identified by the number libusb gives it. *)
Definition libusb_device_handle : Type := nat.

(** What the driver does that is visible outside its own variables. *)
Inductive Event :=
| InterruptTransferOut (endpoint : Z) (data : list Z)
| ControlTransfer
| UsbOpen (dev : nat)
| UsbClose
| DetachKernelDriver
| ClaimInterface
| ReleaseInterface
| DetectCallback
| RumbleDataAvailable
| ThreadStart (t : Thread)
| ThreadJoin (t : Thread)
| AddConfigChangedCallback.

Set Primitive Projections.

(** The file-scope variables.  [s_init_mutex] is [true] while another thread
    holds the mutex; [s_detect_callback] is [true] when a callback is
    registered; [s_libusb_context] is [Some valid] once a context exists. *)
Record State := mkState {
  s_status : Z;
  s_handle : option libusb_device_handle;
  s_controller_type : list ControllerType.t;
  s_controller_rumble : list Z;
  s_controller_payload : list Z;
  s_controller_payload_swap : list Z;
  s_controller_payload_size : Z;
  s_adapter_thread_running : bool;
  s_rumble_data_available : bool;
  s_init_mutex : bool;
  s_adapter_detect_thread_running : bool;
  s_detect_callback : bool;
  s_libusb_context : option bool;
  s_endpoint_in : Z;
  s_endpoint_out : Z;
  s_last_init : Z;
  s_config_callback_id : option nat;
  s_config_si_device_type : list Z;
  s_config_rumble_enabled : list bool;
  s_trace : list Event
}.

Definition set_status (v : Z) (s : State) : State :=
  let '(mkState _ hd ct cr cp cw sz tr da im dr cb lc ei eo li ci sd re tc) := s in
  mkState v hd ct cr cp cw sz tr da im dr cb lc ei eo li ci sd re tc.

Definition set_handle (v : option libusb_device_handle) (s : State) : State :=
  let '(mkState st _ ct cr cp cw sz tr da im dr cb lc ei eo li ci sd re tc) := s in
  mkState st v ct cr cp cw sz tr da im dr cb lc ei eo li ci sd re tc.

Definition set_controller_type (v : list ControllerType.t) (s : State) : State :=
  let '(mkState st hd _ cr cp cw sz tr da im dr cb lc ei eo li ci sd re tc) := s in
  mkState st hd v cr cp cw sz tr da im dr cb lc ei eo li ci sd re tc.

Definition set_controller_rumble (v : list Z) (s : State) : State :=
  let '(mkState st hd ct _ cp cw sz tr da im dr cb lc ei eo li ci sd re tc) := s in
  mkState st hd ct v cp cw sz tr da im dr cb lc ei eo li ci sd re tc.

Definition set_controller_payload (v w : list Z) (n : Z) (s : State) : State :=
  let '(mkState st hd ct cr _ _ _ tr da im dr cb lc ei eo li ci sd re tc) := s in
  mkState st hd ct cr v w n tr da im dr cb lc ei eo li ci sd re tc.

Definition set_adapter_thread_running (v : bool) (s : State) : State :=
  let '(mkState st hd ct cr cp cw sz _ da im dr cb lc ei eo li ci sd re tc) := s in
  mkState st hd ct cr cp cw sz v da im dr cb lc ei eo li ci sd re tc.

Definition set_rumble_data_available (v : bool) (s : State) : State :=
  let '(mkState st hd ct cr cp cw sz tr _ im dr cb lc ei eo li ci sd re tc) := s in
  mkState st hd ct cr cp cw sz tr v im dr cb lc ei eo li ci sd re tc.

Definition set_adapter_detect_thread_running (v : bool) (s : State) : State :=
  let '(mkState st hd ct cr cp cw sz tr da im _ cb lc ei eo li ci sd re tc) := s in
  mkState st hd ct cr cp cw sz tr da im v cb lc ei eo li ci sd re tc.

Definition set_detect_callback (v : bool) (s : State) : State :=
  let '(mkState st hd ct cr cp cw sz tr da im dr _ lc ei eo li ci sd re tc) := s in
  mkState st hd ct cr cp cw sz tr da im dr v lc ei eo li ci sd re tc.

Definition set_libusb_context (v : option bool) (s : State) : State :=
  let '(mkState st hd ct cr cp cw sz tr da im dr cb _ ei eo li ci sd re tc) := s in
  mkState st hd ct cr cp cw sz tr da im dr cb v ei eo li ci sd re tc.

Definition set_endpoint_in (v : Z) (s : State) : State :=
  let '(mkState st hd ct cr cp cw sz tr da im dr cb lc _ eo li ci sd re tc) := s in
  mkState st hd ct cr cp cw sz tr da im dr cb lc v eo li ci sd re tc.

Definition set_endpoint_out (v : Z) (s : State) : State :=
  let '(mkState st hd ct cr cp cw sz tr da im dr cb lc ei _ li ci sd re tc) := s in
  mkState st hd ct cr cp cw sz tr da im dr cb lc ei v li ci sd re tc.

Definition set_last_init (v : Z) (s : State) : State :=
  let '(mkState st hd ct cr cp cw sz tr da im dr cb lc ei eo _ ci sd re tc) := s in
  mkState st hd ct cr cp cw sz tr da im dr cb lc ei eo v ci sd re tc.

Definition set_config_callback_id (v : option nat) (s : State) : State :=
  let '(mkState st hd ct cr cp cw sz tr da im dr cb lc ei eo li _ sd re tc) := s in
  mkState st hd ct cr cp cw sz tr da im dr cb lc ei eo li v sd re tc.

Definition set_config_si_device_type (v : list Z) (s : State) : State :=
  let '(mkState st hd ct cr cp cw sz tr da im dr cb lc ei eo li ci _ re tc) := s in
  mkState st hd ct cr cp cw sz tr da im dr cb lc ei eo li ci v re tc.

Definition set_config_rumble_enabled (v : list bool) (s : State) : State :=
  let '(mkState st hd ct cr cp cw sz tr da im dr cb lc ei eo li ci sd _ tc) := s in
  mkState st hd ct cr cp cw sz tr da im dr cb lc ei eo li ci sd v tc.

(** Appends one event to the history. *)
Definition emit (e : Event) (s : State) : State :=
  let '(mkState st hd ct cr cp cw sz tr da im dr cb lc ei eo li ci sd re tc) := s in
  mkState st hd ct cr cp cw sz tr da im dr cb lc ei eo li ci sd re (tc ++ [e]).

Unset Primitive Projections.

(** The state of the statics when the program starts. *)
Definition initial_state : State :=
  {| s_status := NO_ADAPTER_DETECTED;
     s_handle := None;
     s_controller_type := replicate MAX_SI_CHANNELS ControllerType.None;
     s_controller_rumble := replicate MAX_SI_CHANNELS 0;
     s_controller_payload := replicate 37 0;
     s_controller_payload_swap := replicate 37 0;
     s_controller_payload_size := 0;
     s_adapter_thread_running := false;
     s_rumble_data_available := false;
     s_init_mutex := false;
     s_adapter_detect_thread_running := false;
     s_detect_callback := false;
     s_libusb_context := None;
     s_endpoint_in := 0;
     s_endpoint_out := 0;
     s_last_init := 0;
     s_config_callback_id := None;
     s_config_si_device_type := replicate MAX_SI_CHANNELS 0;
     s_config_rumble_enabled := replicate MAX_SI_CHANNELS false;
     s_trace := [] |}.

Definition is_nullptr {A} (p : option A) : bool :=
  match p with Some _ => false | None => true end.

(** [Common::Event::Set] on [s_rumble_data_available]. *)
Definition rumble_data_available_Set (s : State) : State :=
  emit RumbleDataAvailable (set_rumble_data_available true s).

Section GCAdapter.
Context `{H : Headers}.

(** ** Accessors *)

(** [func] is [true] for a callable, [false] for an empty [std::function]. *)
Definition SetAdapterCallback (func : bool) (s : State) : State :=
  set_detect_callback func s.

Definition UseAdapter (s : State) : bool :=
  existsb (fun device_type => device_type =? SIDEVICE_WIIU_ADAPTER)
          (s_config_si_device_type s).

Definition DeviceConnected (chan : nat) (s : State) : bool :=
  negb (s_controller_type s !!! chan =? ControllerType.None).

Definition ResetDeviceType (chan : nat) (s : State) : State :=
  set_controller_type (<[chan := ControllerType.None]> (s_controller_type s)) s.

(** ** Input *)

(** [b & (1 << k)] used as a condition. *)
Definition bit_set (b : Z) (k : Z) : bool := negb (Z.land b (Z.shiftl 1 k) =? 0).

(** [if (c) pad.button |= mask;] on the [u16] member. *)
Definition or_button (c : bool) (mask : Z) (pad : GCPadStatus) : GCPadStatus :=
  match pad with
  | mkPad button stickX stickY substickX substickY triggerLeft triggerRight =>
      mkPad (if c then u16 (Z.lor button mask) else button)
            stickX stickY substickX substickY triggerLeft triggerRight
  end.

Definition payload_valid (s : State) : bool :=
  (s_controller_payload_size s =? CONTROLER_INPUT_PAYLOAD_EXPECTED_SIZE)
  && (s_controller_payload s !!! 0%nat =? LIBUSB_DT_HID).

Definition Input (wants_determinism : bool) (chan : nat) (s : State)
  : GCPadStatus * State :=
  if negb (UseAdapter s) then (GCPadStatus_default, s)
  else if is_nullptr (s_handle s) || negb (s_status s =? ADAPTER_DETECTED)
  then (GCPadStatus_default, s)
  else
    let controller_payload_copy := s_controller_payload s in
    let payload_size := s_controller_payload_size s in
    let pad := GCPadStatus_default in
    if negb (payload_size =? CONTROLER_INPUT_PAYLOAD_EXPECTED_SIZE)
       || negb (controller_payload_copy !!! 0%nat =? LIBUSB_DT_HID)
    then (pad, s)
    else
      let type := u8 (Z.shiftr (controller_payload_copy !!! (1 + 9 * chan)%nat) 4) in
      let get_origin :=
        negb (type =? ControllerType.None)
        && (s_controller_type s !!! chan =? ControllerType.None) in
      let s := set_controller_type (<[chan := type]> (s_controller_type s)) s in
      if negb (s_controller_type s !!! chan =? ControllerType.None) then
        let b1 := controller_payload_copy !!! (1 + 9 * chan + 1)%nat in
        let b2 := controller_payload_copy !!! (1 + 9 * chan + 2)%nat in
        let pad := or_button (bit_set b1 0) PAD_BUTTON_A pad in
        let pad := or_button (bit_set b1 1) PAD_BUTTON_B pad in
        let pad := or_button (bit_set b1 2) PAD_BUTTON_X pad in
        let pad := or_button (bit_set b1 3) PAD_BUTTON_Y pad in
        let pad := or_button (bit_set b1 4) PAD_BUTTON_LEFT pad in
        let pad := or_button (bit_set b1 5) PAD_BUTTON_RIGHT pad in
        let pad := or_button (bit_set b1 6) PAD_BUTTON_DOWN pad in
        let pad := or_button (bit_set b1 7) PAD_BUTTON_UP pad in
        let pad := or_button (bit_set b2 0) PAD_BUTTON_START pad in
        let pad := or_button (bit_set b2 1) PAD_TRIGGER_Z pad in
        let pad := or_button (bit_set b2 2) PAD_TRIGGER_R pad in
        let pad := or_button (bit_set b2 3) PAD_TRIGGER_L pad in
        let pad := or_button get_origin PAD_GET_ORIGIN pad in
        let pad :=
          mkPad (button pad)
                (controller_payload_copy !!! (1 + 9 * chan + 3)%nat)
                (controller_payload_copy !!! (1 + 9 * chan + 4)%nat)
                (controller_payload_copy !!! (1 + 9 * chan + 5)%nat)
                (controller_payload_copy !!! (1 + 9 * chan + 6)%nat)
                (controller_payload_copy !!! (1 + 9 * chan + 7)%nat)
                (controller_payload_copy !!! (1 + 9 * chan + 8)%nat) in
        (pad, s)
      else if negb wants_determinism then
        (mkPad (u16 PAD_ERR_STATUS) (stickX pad) (stickY pad) (substickX pad)
               (substickY pad) (triggerLeft pad) (triggerRight pad), s)
      else (pad, s).

(** ** Output *)

Definition Output (chan : nat) (rumble_command : Z) (s : State) : State :=
  if negb (UseAdapter s) || negb (s_config_rumble_enabled s !!! chan) then s
  else if is_nullptr (s_handle s) then s
  else if negb (rumble_command =? s_controller_rumble s !!! chan)
          && negb (s_controller_type s !!! chan =? ControllerType.Wireless)
  then
    let s := set_controller_rumble (<[chan := rumble_command]> (s_controller_rumble s)) s in
    rumble_data_available_Set s
  else s.

(** ** The write thread *)

(** The payload [Write] and [ResetRumbleLockNeeded] build from the staged
    bytes. *)
Definition rumble_payload (s : State) : list Z :=
  [0x11; s_controller_rumble s !!! 0%nat; s_controller_rumble s !!! 1%nat;
   s_controller_rumble s !!! 2%nat; s_controller_rumble s !!! 3%nat].

(** One pass of the loop of [Write], taken when [s_rumble_data_available] is
    set: [Wait] consumes the signal; the result is [false] when the thread
    returns. *)
Definition Write_iteration (s : State) : bool * State :=
  let s := set_rumble_data_available false s in
  if negb (s_adapter_thread_running s) then (false, s)
  else (true, emit (InterruptTransferOut (s_endpoint_out s) (rumble_payload s)) s).

(** ** Reset *)

(** [s_controller_type.fill(ControllerType::None)]. *)
Definition fill {A} (v : A) (a : list A) : list A := (fun _ => v) <$> a.

(** [lock.try_lock()] fails when another thread holds [s_init_mutex]; the
    lock taken here is released on return.  The two [join] calls wait for the
    read and write threads.  The write thread is let through [Wait] by the
    signal [Reset] has just given, so the second [join] returns after that
    last pass of [Write]: the signal is consumed and, the running flag being
    cleared, the thread returns without writing. *)
Definition Reset (s : State) : State :=
  if s_init_mutex s then s
  else if negb (s_status s =? ADAPTER_DETECTED) then s
  else
    let s :=
      if s_adapter_thread_running s then
        let s := set_adapter_thread_running false s in
        let s := rumble_data_available_Set s in
        let s := emit (ThreadJoin ReadThread) s in
        let s := snd (Write_iteration s) in
        emit (ThreadJoin WriteThread) s
      else s in
    let s := set_controller_type (fill ControllerType.None (s_controller_type s)) s in
    let s := set_status NO_ADAPTER_DETECTED s in
    let s :=
      if negb (is_nullptr (s_handle s)) then
        let s := emit ReleaseInterface s in
        let s := emit UsbClose s in
        set_handle None s
      else s in
    if s_detect_callback s then emit DetectCallback s else s.

(** ** Init *)

(** Modelled from the spec: [Core::State] is declared in [Core/Core.h], which
    is not under [src/].  [Init] tells [Uninitialized] and [Starting] from
    every other state ("actively running" in the specification); [Active]
    stands for those. *)
Inductive CoreState := Uninitialized | Starting | Active.

(** What [Init] reads from the rest of the emulator: [Core::GetState()],
    [CoreTiming::GetTicks()] (a [u64]), [SystemTimers::GetTicksPerSecond()]
    (a [u32]), whether the new libusb context is valid, the id
    [Config::AddConfigChangedCallback] returns, and the configuration store. *)
Record InitEnv := mkInitEnv {
  core_state : CoreState;
  ticks : Z;
  ticks_per_second : Z;
  context_valid : bool;
  new_callback_id : nat;
  config_si_device : nat -> Z;
  config_adapter_rumble : nat -> bool
}.

Definition RefreshConfig (env : InitEnv) (s : State) : State :=
  foldl (fun s i =>
           let s := set_config_si_device_type
                      (<[i := config_si_device env i]> (s_config_si_device_type s)) s in
           set_config_rumble_enabled
             (<[i := config_adapter_rumble env i]> (s_config_rumble_enabled s)) s)
        s (seq 0 MAX_SI_CHANNELS).

(** [s_libusb_context->IsValid()]. *)
Definition context_IsValid (s : State) : bool :=
  match s_libusb_context s with Some valid => valid | None => false end.

Definition StartScanThread (s : State) : State :=
  if s_adapter_detect_thread_running s then s
  else if negb (context_IsValid s) then s
  else
    let s := set_adapter_detect_thread_running true s in
    emit (ThreadStart ScanThread) s.

Definition core_active (st : CoreState) : bool :=
  match st with Uninitialized | Starting => false | Active => true end.

(** [Init] returns at the rate limit exactly when this holds. *)
Definition init_rate_limited (env : InitEnv) (s : State) : bool :=
  core_active (core_state env) && (u64 (ticks env - s_last_init s) <? ticks_per_second env).

Definition Init (env : InitEnv) (s : State) : State :=
  if negb (is_nullptr (s_handle s)) then s
  else
    let s := set_libusb_context (Some (context_valid env)) s in
    if core_active (core_state env)
       && (u64 (ticks env - s_last_init s) <? ticks_per_second env)
    then s
    else
      let s := if core_active (core_state env) then set_last_init (ticks env) s else s in
      let s := set_status NO_ADAPTER_DETECTED s in
      let s :=
        if is_nullptr (s_config_callback_id s) then
          emit AddConfigChangedCallback
               (set_config_callback_id (Some (new_callback_id env)) s)
        else s in
      let s := RefreshConfig env s in
      if UseAdapter s then StartScanThread s else s.

(** ** Rumble reset *)

Definition ResetRumbleLockNeeded (s : State) : State :=
  if negb (UseAdapter s)
     || (is_nullptr (s_handle s) || negb (s_status s =? ADAPTER_DETECTED))
  then s
  else
    let s := set_controller_rumble (fill 0 (s_controller_rumble s)) s in
    emit (InterruptTransferOut (s_endpoint_out s) (rumble_payload s)) s.

Definition ResetRumble (s : State) : State :=
  if s_init_mutex s then s else ResetRumbleLockNeeded s.

(** ** Device session *)

(** What libusb reports for one device of the bus: the result of
    [libusb_get_device_descriptor] and the two descriptor fields read, the
    results of the calls [CheckDeviceAccess] makes on it, and the endpoint
    addresses of its configuration descriptor (interfaces, then alternate
    settings, then endpoints). *)
Record libusb_device := mkDevice {
  dev_id : nat;
  get_device_descriptor_ret : Z;
  idVendor : Z;
  idProduct : Z;
  open_ret : Z;
  kernel_driver_active_ret : Z;
  detach_kernel_driver_ret : Z;
  control_transfer_ret : Z;
  claim_interface_ret : Z;
  config_endpoints : list (list (list Z))
}.

(** Whether the build is for macOS ([__APPLE__]), where the kernel driver is
    never detached. *)
Definition CheckDeviceAccess (apple : bool) (device : libusb_device) (s : State)
  : bool * State :=
  let ret := get_device_descriptor_ret device in
  if negb (ret =? 0) then (false, s)
  else if negb (idVendor device =? 0x057e) || negb (idProduct device =? 0x0337)
  then (false, s)
  else
    (* from here on [status_guard] stores [ret] in [s_status] on every
       return that does not dismiss it *)
    let ret := open_ret device in
    let s := if ret =? 0 then set_handle (Some (dev_id device)) (emit (UsbOpen (dev_id device)) s)
             else s in
    if ret =? LIBUSB_ERROR_ACCESS then (false, set_status ret s)
    else if negb (ret =? 0) then (false, set_status ret s)
    else
      let ret := kernel_driver_active_ret device in
      let '(ret, detach_failed, s) :=
        if ret =? 1 then
          if apple then (ret, false, s)
          else
            let ret := detach_kernel_driver_ret device in
            (ret,
             (ret <? 0) && negb (ret =? LIBUSB_ERROR_NOT_FOUND)
             && negb (ret =? LIBUSB_ERROR_NOT_SUPPORTED),
             emit DetachKernelDriver s)
        else (ret, false, s) in
      let s := emit ControlTransfer s in
      if detach_failed then
        let s := emit UsbClose s in
        let s := set_handle None s in
        (false, set_status ret s)
      else
        let ret := claim_interface_ret device in
        let s := emit ClaimInterface s in
        if negb (ret =? 0) then
          let s := emit UsbClose s in
          let s := set_handle None s in
          (false, set_status ret s)
        else (true, s).

(** The three nested loops of [AddGCAdapter] over the configuration
    descriptor: every endpoint address is stored in [s_endpoint_in] or in
    [s_endpoint_out] according to its direction bit. *)
Definition resolve_endpoints (device : libusb_device) (s : State) : State :=
  foldl (fun s interfaceContainer =>
    foldl (fun s interface =>
      foldl (fun s bEndpointAddress =>
               if negb (Z.land bEndpointAddress LIBUSB_ENDPOINT_IN =? 0)
               then set_endpoint_in bEndpointAddress s
               else set_endpoint_out bEndpointAddress s)
            s interface)
      s interfaceContainer)
    s (config_endpoints device).

Definition init_payload : list Z := [0x13].

Definition AddGCAdapter (device : libusb_device) (s : State) : State :=
  let s := resolve_endpoints device s in
  let s := emit (InterruptTransferOut (s_endpoint_out s) init_payload) s in
  let s := set_adapter_thread_running true s in
  let s := emit (ThreadStart ReadThread) s in
  let s := emit (ThreadStart WriteThread) s in
  let s := set_status ADAPTER_DETECTED s in
  let s := if s_detect_callback s then emit DetectCallback s else s in
  ResetRumbleLockNeeded s.

(** Modelled from the spec: [LibusbUtils::Context::GetDeviceList] is defined
    in [Core/LibusbUtils.cpp], which is not under [src/]; it is the
    "enumerate" capability of the specification: the callback is run on the
    devices of the bus in turn until it returns [false]. *)
Fixpoint GetDeviceList (callback : libusb_device -> State -> bool * State)
         (devices : list libusb_device) (s : State) : State :=
  match devices with
  | [] => s
  | device :: rest =>
      let '(continue, s) := callback device s in
      if continue then GetDeviceList callback rest s else s
  end.

Definition Setup (apple : bool) (devices : list libusb_device) (s : State) : State :=
  let prev_status := s_status s in
  let s := if s_status s <? 0 then set_status NO_ADAPTER_DETECTED s else s in
  let s := set_controller_type (fill ControllerType.None (s_controller_type s)) s in
  let s := set_controller_rumble (fill 0 (s_controller_rumble s)) s in
  let s :=
    GetDeviceList
      (fun device s =>
         let '(ok, s) := CheckDeviceAccess apple device s in
         if ok then (false, AddGCAdapter device s) else (true, s))
      devices s in
  if negb (s_status s =? ADAPTER_DETECTED) && negb (prev_status =? s_status s)
     && s_detect_callback s
  then emit DetectCallback s
  else s.

(** ** The read thread *)

(** One pass of the loop of [Read]: the transfer fills
    [s_controller_payload_swap] with [received] and reports [payload_size];
    the two buffers are then swapped under the lock. *)
Definition Read_iteration (received : list Z) (payload_size : Z) (s : State) : State :=
  let swap := received in
  set_controller_payload swap (s_controller_payload s) payload_size s.

(** ** Runs of an open session

    What can happen, in any order and on any thread, between a successful
    claim and the next scan pass. *)
Inductive session_step : State -> State -> Prop :=
| step_Write s :
    s_rumble_data_available s = true ->
    session_step s (snd (Write_iteration s))
| step_Read s received payload_size :
    session_step s (Read_iteration received payload_size s)
| step_Input s wants_determinism chan :
    session_step s (snd (Input wants_determinism chan s))
| step_Output s chan rumble_command :
    is_u8 rumble_command ->
    session_step s (Output chan rumble_command s)
| step_ResetRumble s :
    session_step s (ResetRumble s)
| step_ResetDeviceType s chan :
    session_step s (ResetDeviceType chan s)
| step_Init s env :
    session_step s (Init env s)
| step_Reset s :
    session_step s (Reset s).

Inductive session_run : State -> State -> Prop :=
| run_refl s : session_run s s
| run_step s1 s2 s3 : session_run s1 s2 -> session_step s2 s3 -> session_run s1 s3.

(** The payloads written to an endpoint, in order. *)
Definition interrupt_writes (tr : list Event) : list (Z * list Z) :=
  omap (fun e => match e with
                 | InterruptTransferOut endpoint data => Some (endpoint, data)
                 | _ => None
                 end) tr.

Definition count_event (p : Event -> bool) (tr : list Event) : nat :=
  length (filter (fun e => p e = true) tr).

Definition is_DetectCallback (e : Event) : bool :=
  match e with DetectCallback => true | _ => false end.

Definition is_RumbleDataAvailable (e : Event) : bool :=
  match e with RumbleDataAvailable => true | _ => false end.

(** ** Predicates used in the statements *)

(** The arrays have their declared lengths and hold [u8] values. *)
Record state_wf (s : State) : Prop := {
  wf_type_length : length (s_controller_type s) = MAX_SI_CHANNELS;
  wf_rumble_length : length (s_controller_rumble s) = MAX_SI_CHANNELS;
  wf_rumble_u8 : Forall is_u8 (s_controller_rumble s);
  wf_payload_length : length (s_controller_payload s) = 37%nat;
  wf_payload_u8 : Forall is_u8 (s_controller_payload s)
}.

(** The guards [Input] passes before it copies the payload. *)
Definition adapter_active (s : State) : Prop :=
  UseAdapter s = true /\ s_handle s <> None /\ s_status s = ADAPTER_DETECTED.

(** The controller type [Input] decodes for a channel. *)
Definition decoded_type (chan : nat) (s : State) : ControllerType.t :=
  u8 (Z.shiftr (s_controller_payload s !!! (1 + 9 * chan)%nat) 4).

(** A flag of [pad.button] is raised. *)
Definition pressed (mask : Z) (pad : GCPadStatus) : bool :=
  negb (Z.land (button pad) mask =? 0).

Definition button_masks : list Z :=
  [PAD_BUTTON_A; PAD_BUTTON_B; PAD_BUTTON_X; PAD_BUTTON_Y;
   PAD_BUTTON_LEFT; PAD_BUTTON_RIGHT; PAD_BUTTON_DOWN; PAD_BUTTON_UP;
   PAD_BUTTON_START; PAD_TRIGGER_Z; PAD_TRIGGER_R; PAD_TRIGGER_L].

Definition pad_masks : list Z := button_masks ++ [PAD_GET_ORIGIN; PAD_ERR_STATUS].

Fixpoint pairwise_disjoint (l : list Z) : bool :=
  match l with
  | [] => true
  | m :: l => forallb (fun m' => Z.land m m' =? 0) l && pairwise_disjoint l
  end.

(** What the statements about flags need of the absent header: the fourteen
    masks are non-zero [u16] values with no bit in common. *)
Definition pad_masks_ok : bool :=
  forallb (fun m => (0 <? m) && (m <? 2 ^ 16)) pad_masks && pairwise_disjoint pad_masks.

(** The pad state [Input] builds for a port with a controller: the body of
    the branch [if (s_controller_type[chan] != ControllerType::None)], as a
    function of the copied payload and of [get_origin]. *)
Definition connected_pad (chan : nat) (get_origin : bool) (controller_payload_copy : list Z)
  : GCPadStatus :=
  let pad := GCPadStatus_default in
  let b1 := controller_payload_copy !!! (1 + 9 * chan + 1)%nat in
  let b2 := controller_payload_copy !!! (1 + 9 * chan + 2)%nat in
  let pad := or_button (bit_set b1 0) PAD_BUTTON_A pad in
  let pad := or_button (bit_set b1 1) PAD_BUTTON_B pad in
  let pad := or_button (bit_set b1 2) PAD_BUTTON_X pad in
  let pad := or_button (bit_set b1 3) PAD_BUTTON_Y pad in
  let pad := or_button (bit_set b1 4) PAD_BUTTON_LEFT pad in
  let pad := or_button (bit_set b1 5) PAD_BUTTON_RIGHT pad in
  let pad := or_button (bit_set b1 6) PAD_BUTTON_DOWN pad in
  let pad := or_button (bit_set b1 7) PAD_BUTTON_UP pad in
  let pad := or_button (bit_set b2 0) PAD_BUTTON_START pad in
  let pad := or_button (bit_set b2 1) PAD_TRIGGER_Z pad in
  let pad := or_button (bit_set b2 2) PAD_TRIGGER_R pad in
  let pad := or_button (bit_set b2 3) PAD_TRIGGER_L pad in
  let pad := or_button get_origin PAD_GET_ORIGIN pad in
  mkPad (button pad)
        (controller_payload_copy !!! (1 + 9 * chan + 3)%nat)
        (controller_payload_copy !!! (1 + 9 * chan + 4)%nat)
        (controller_payload_copy !!! (1 + 9 * chan + 5)%nat)
        (controller_payload_copy !!! (1 + 9 * chan + 6)%nat)
        (controller_payload_copy !!! (1 + 9 * chan + 7)%nat)
        (controller_payload_copy !!! (1 + 9 * chan + 8)%nat).

(** The pad state of the branch taken for a port without a controller. *)
Definition error_pad (wants_determinism : bool) : GCPadStatus :=
  if negb wants_determinism then mkPad (u16 PAD_ERR_STATUS) 0 0 0 0 0 0
  else GCPadStatus_default.

(** A session is open: the device handle is not null. *)
Definition session_open (s : State) : Prop := s_handle s <> None.

(** The handle is open exactly when the status is [ADAPTER_DETECTED];
    [AddGCAdapter] and [Reset] set and clear the two together. *)
Definition coherent (s : State) : Prop :=
  s_handle s <> None <-> s_status s = ADAPTER_DETECTED.

Definition is_rumble_write (endpoint : Z) (w : Z * list Z) : Prop :=
  exists a b c d, is_u8 a /\ is_u8 b /\ is_u8 c /\ is_u8 d /\ w = (endpoint, [0x11; a; b; c; d]).

(** Two states that differ at most in [s_endpoint_in] and [s_endpoint_out]. *)
Definition only_endpoints_differ (s s' : State) : Prop :=
  s' = set_endpoint_in (s_endpoint_in s') (set_endpoint_out (s_endpoint_out s') s).

(** The staged rumble bytes are four [u8] values. *)
Definition rumble_ok (s : State) : Prop :=
  length (s_controller_rumble s) = MAX_SI_CHANNELS /\ Forall is_u8 (s_controller_rumble s).

(** What one step of a session does to the output endpoint: it keeps the
    endpoint address and the shape of the staged bytes, and writes nothing
    or one rumble payload. *)
Definition writes_at_most_rumble (s s' : State) : Prop :=
  s_endpoint_out s' = s_endpoint_out s
  /\ rumble_ok s'
  /\ (interrupt_writes (s_trace s') = interrupt_writes (s_trace s)
      \/ exists w, is_rumble_write (s_endpoint_out s) w
                   /\ interrupt_writes (s_trace s') = interrupt_writes (s_trace s) ++ [w]).

End GCAdapter.

(** ** The Android build

    With [ANDROID] defined the libusb variables are replaced by [s_detected]
    and [s_fd], [Input] validates the size of the payload only, and on a
    payload of another size it calls [Reset].  The module embeds [Reset] and
    [Input] of that build over the variables they use; the decoding of a port
    record is the text shared by both builds. *)
Module Android.

Record State := mkState {
  s_detected : bool;
  s_fd : Z;
  s_controller_type : list ControllerType.t;
  s_controller_rumble : list Z;
  s_controller_payload : list Z;
  s_controller_payload_size : Z;
  s_read_adapter_thread_running : bool;
  s_config_si_device_type : list Z;
  s_trace : list Event
}.

Definition UseAdapter `{H : Headers} (s : State) : bool :=
  existsb (fun device_type => device_type =? SIDEVICE_WIIU_ADAPTER)
          (s_config_si_device_type s).

Definition DeviceConnected (chan : nat) (s : State) : bool :=
  negb (s_controller_type s !!! chan =? ControllerType.None).

(** The read thread, when it ends, clears [s_fd] and [s_detected] itself;
    [Reset] assigns the same values after the join. *)
Definition Reset (s : State) : State :=
  if negb (s_detected s) then s
  else
    let '(running, tr) :=
      if s_read_adapter_thread_running s
      then (false, s_trace s ++ [ThreadJoin ReadThread])
      else (s_read_adapter_thread_running s, s_trace s) in
    {| s_detected := false;
       s_fd := 0;
       s_controller_type := fill ControllerType.None (s_controller_type s);
       s_controller_rumble := s_controller_rumble s;
       s_controller_payload := s_controller_payload s;
       s_controller_payload_size := s_controller_payload_size s;
       s_read_adapter_thread_running := running;
       s_config_si_device_type := s_config_si_device_type s;
       s_trace := tr |}.

Definition Input `{H : Headers} (wants_determinism : bool) (chan : nat) (s : State)
  : GCPadStatus * State :=
  if negb (UseAdapter s) then (GCPadStatus_default, s)
  else if negb (s_detected s) || (s_fd s =? 0) then (GCPadStatus_default, s)
  else
    let controller_payload_copy := s_controller_payload s in
    let payload_size := s_controller_payload_size s in
    let pad := GCPadStatus_default in
    if negb (payload_size =? CONTROLER_INPUT_PAYLOAD_EXPECTED_SIZE) then (pad, Reset s)
    else
      let type := u8 (Z.shiftr (controller_payload_copy !!! (1 + 9 * chan)%nat) 4) in
      let get_origin :=
        negb (type =? ControllerType.None)
        && (s_controller_type s !!! chan =? ControllerType.None) in
      let s :=
        {| s_detected := s_detected s;
           s_fd := s_fd s;
           s_controller_type := <[chan := type]> (s_controller_type s);
           s_controller_rumble := s_controller_rumble s;
           s_controller_payload := s_controller_payload s;
           s_controller_payload_size := s_controller_payload_size s;
           s_read_adapter_thread_running := s_read_adapter_thread_running s;
           s_config_si_device_type := s_config_si_device_type s;
           s_trace := s_trace s |} in
      if negb (s_controller_type s !!! chan =? ControllerType.None)
      then (connected_pad chan get_origin controller_payload_copy, s)
      else (error_pad wants_determinism, s).

(** A read thread is running on an opened adapter, ports 0 and 1 are tracked
    as wired, and the last read delivered [size] bytes. *)
Definition two_wired_session (size : Z) : State :=
  {| s_detected := true;
     s_fd := 5;
     s_controller_type :=
       [ControllerType.Wired; ControllerType.Wired; ControllerType.None; ControllerType.None];
     s_controller_rumble := [0; 0; 0; 0];
     s_controller_payload := replicate 37 0;
     s_controller_payload_size := size;
     s_read_adapter_thread_running := true;
     s_config_si_device_type := [12; 0; 0; 0];
     s_trace := [] |}.

End Android.

(** ** Detection status, scanning, hotplug and shutdown

    The functions of the libusb build that the sections above leave out. *)

(** [IsDetected].  [error_message] tells whether the caller passes a place
    for the message; the second component is what is stored there: nothing,
    [nullptr] ([Some None]), or the text [libusb_strerror] gives for the
    code held by [s_status] ([Some (Some code)]). *)
Definition IsDetected (error_message : bool) (s : State) : bool * option (option Z) :=
  if 0 <=? s_status s then
    (s_status s =? ADAPTER_DETECTED, if error_message then Some None else None)
  else
    (false, if error_message then Some (Some (s_status s)) else None).

Section Lifecycle.
Context `{H : Headers}.

(** One pass of the loop of [ScanThreadFunc], up to the wait that ends it.
    The [lock_guard] on [s_init_mutex] makes the pass wait until the mutex is
    free. *)
Definition ScanThreadFunc_iteration (apple : bool) (devices : list libusb_device)
           (s : State) : State :=
  if is_nullptr (s_handle s) then Setup apple devices s else s.

(** The two events [HotplugCallback] is registered for. *)
Inductive libusb_hotplug_event :=
| LIBUSB_HOTPLUG_EVENT_DEVICE_ARRIVED
| LIBUSB_HOTPLUG_EVENT_DEVICE_LEFT.

(** Calls into the hotplug interface of libusb and into the configuration
    store that [s_trace] has no event for. *)
Inductive ExternalCall :=
| HotplugRegisterCallback
| HotplugDeregisterCallback
| RemoveConfigChangedCallback (id : nat).

(** The variables of [State] together with those only the scan thread, the
    hotplug callback and [Shutdown] use: the event [s_hotplug_event] and the
    flag [s_libusb_hotplug_enabled]; [s_calls] is the history of the calls
    above. *)
Record Driver := mkDriver {
  statics : State;
  s_hotplug_event : bool;
  s_libusb_hotplug_enabled : bool;
  s_calls : list ExternalCall
}.

(** Runs a function of [State] on the statics. *)
Definition on_statics (f : State -> State) (d : Driver) : Driver :=
  mkDriver (f (statics d)) (s_hotplug_event d) (s_libusb_hotplug_enabled d) (s_calls d).

(** [s_hotplug_event.Set()]. *)
Definition hotplug_event_Set (d : Driver) : Driver :=
  mkDriver (statics d) true (s_libusb_hotplug_enabled d) (s_calls d).


Definition call (c : ExternalCall) (d : Driver) : Driver :=
  mkDriver (statics d) (s_hotplug_event d) (s_libusb_hotplug_enabled d) (s_calls d ++ [c]).

(** [libusb_get_device(s_handle) == dev]. *)
Definition handle_is_device (s : State) (dev : nat) : bool :=
  match s_handle s with Some h => Nat.eqb h dev | None => false end.

Definition HotplugCallback (dev : nat) (event : libusb_hotplug_event) (d : Driver) : Driver :=
  match event with
  | LIBUSB_HOTPLUG_EVENT_DEVICE_ARRIVED =>
      if is_nullptr (s_handle (statics d)) then hotplug_event_Set d else d
  | LIBUSB_HOTPLUG_EVENT_DEVICE_LEFT =>
      let d :=
        if negb (is_nullptr (s_handle (statics d))) && handle_is_device (statics d) dev
        then on_statics Reset d
        else d in
      if s_status (statics d) <? 0 then
        let d := on_statics (set_status NO_ADAPTER_DETECTED) d in
        if s_detect_callback (statics d) then on_statics (emit DetectCallback) d else d
      else d
  end.


(** [s_hotplug_event.Wait()] returning: the signal is consumed. *)
Definition hotplug_event_Wait (d : Driver) : Driver :=
  mkDriver (statics d) false (s_libusb_hotplug_enabled d) (s_calls d).

(** [join] waits for the scan thread to leave its loop.  With hotplug
    detection in use the thread is let through [s_hotplug_event.Wait()] by
    the signal given here, which it consumes; otherwise it sleeps and the
    signal stays. *)
Definition StopScanThread (d : Driver) : Driver :=
  if s_adapter_detect_thread_running (statics d) then
    let d := on_statics (set_adapter_detect_thread_running false) d in
    let d := hotplug_event_Set d in
    let d := if s_libusb_hotplug_enabled d then hotplug_event_Wait d else d in
    on_statics (emit (ThreadJoin ScanThread)) d
  else d.

(** [Shutdown].  The source dereferences [s_libusb_context], so a call
    before any [Init] is undefined there; [context_IsValid] answers [false]
    for it. *)
Definition Shutdown (d : Driver) : Driver :=
  let d := StopScanThread d in
  let d :=
    if context_IsValid (statics d) && s_libusb_hotplug_enabled d
    then call HotplugDeregisterCallback d
    else d in
  let d := on_statics Reset d in
  let d := on_statics (set_libusb_context None) d in
  let d := on_statics (set_status NO_ADAPTER_DETECTED) d in
  match s_config_callback_id (statics d) with
  | Some id =>
      let d := call (RemoveConfigChangedCallback id) d in
      on_statics (set_config_callback_id None) d
  | None => d
  end.

(** What libusb promises of the calls [CheckDeviceAccess] makes: they return
    zero or a negative error code, except [libusb_kernel_driver_active],
    which may also return one. *)
Definition libusb_codes_ok (device : libusb_device) : Prop :=
  open_ret device <= 0 /\ detach_kernel_driver_ret device <= 0
  /\ claim_interface_ret device <= 0.

(** The device is the adapter as far as its descriptor tells. *)
Definition is_adapter (device : libusb_device) : bool :=
  (get_device_descriptor_ret device =? 0)
  && (idVendor device =? 0x057e) && (idProduct device =? 0x0337).

(** [detach_failed] of [CheckDeviceAccess], as a function of what libusb
    answers. *)
Definition detach_fails (apple : bool) (device : libusb_device) : bool :=
  (kernel_driver_active_ret device =? 1) && negb apple
  && (detach_kernel_driver_ret device <? 0)
  && negb (detach_kernel_driver_ret device =? LIBUSB_ERROR_NOT_FOUND)
  && negb (detach_kernel_driver_ret device =? LIBUSB_ERROR_NOT_SUPPORTED).

(** The endpoint addresses of a configuration descriptor, in the order the
    loops of [AddGCAdapter] visit them. *)
Definition endpoint_addresses (device : libusb_device) : list Z :=
  concat (concat (config_endpoints device)).

(** [Setup] up to the enumeration of the bus. *)
Definition Setup_begin (s : State) : State :=
  let s := if s_status s <? 0 then set_status NO_ADAPTER_DETECTED s else s in
  let s := set_controller_type (fill ControllerType.None (s_controller_type s)) s in
  set_controller_rumble (fill 0 (s_controller_rumble s)) s.

(** The callback [Setup] passes to [GetDeviceList]. *)
Definition Setup_callback (apple : bool) (device : libusb_device) (s : State) : bool * State :=
  let '(ok, s) := CheckDeviceAccess apple device s in
  if ok then (false, AddGCAdapter device s) else (true, s).

(** The addresses [AddGCAdapter] takes for output endpoints and for input
    endpoints, in the order it visits them. *)
Definition out_endpoints (device : libusb_device) : list Z :=
  filter (fun bEndpointAddress => Z.land bEndpointAddress LIBUSB_ENDPOINT_IN = 0)
         (endpoint_addresses device).

Definition in_endpoints (device : libusb_device) : list Z :=
  filter (fun bEndpointAddress => Z.land bEndpointAddress LIBUSB_ENDPOINT_IN <> 0)
         (endpoint_addresses device).

(** The code a failed probe of the adapter leaves in [s_status]: that of the
    last libusb call made. *)
Definition probe_error (apple : bool) (device : libusb_device) : Z :=
  if negb (open_ret device =? 0) then open_ret device
  else if detach_fails apple device then detach_kernel_driver_ret device
       else claim_interface_ret device.

(** What the loop of [RefreshConfig] leaves in the two configuration
    arrays. *)
Definition config_si_snapshot (env : InitEnv) (l : list Z) : list Z :=
  foldl (fun l i => <[i := config_si_device env i]> l) l (seq 0 MAX_SI_CHANNELS).

Definition config_rumble_snapshot (env : InitEnv) (l : list bool) : list bool :=
  foldl (fun l i => <[i := config_adapter_rumble env i]> l) l (seq 0 MAX_SI_CHANNELS).

(** Whether the configuration store assigns the adapter to some port. *)
Definition config_uses_adapter (env : InitEnv) : bool :=
  existsb (fun i => config_si_device env i =? SIDEVICE_WIIU_ADAPTER) (seq 0 MAX_SI_CHANNELS).

(** A series of calls of [Output], in order. *)
Definition Output_all (commands : list (nat * Z)) (s : State) : State :=
  foldl (fun s command => Output (fst command) (snd command) s) s commands.

Definition is_UsbOpen (e : Event) : bool :=
  match e with UsbOpen _ => true | _ => false end.

Definition is_UsbClose (e : Event) : bool :=
  match e with UsbClose => true | _ => false end.

Definition is_ThreadStart_ScanThread (e : Event) : bool :=
  match e with ThreadStart ScanThread => true | _ => false end.

Definition is_AddConfigChangedCallback (e : Event) : bool :=
  match e with AddConfigChangedCallback => true | _ => false end.

End Lifecycle.

(** ** Concrete inputs *)

(** A payload with header [0x21] whose four port records are given. *)
Definition make_payload (p0 p1 p2 p3 : list Z) : list Z := 0x21 :: p0 ++ p1 ++ p2 ++ p3.

Definition empty_port : list Z := replicate 9 0.

(** Port record: wired controller, button byte 1 = [0x01] (A), sticks at
    [0x80], triggers at [0x20] and [0x30]. *)
Definition wired_A_port : list Z := [0x10; 0x01; 0x00; 0x80; 0x81; 0x82; 0x83; 0x20; 0x30].

(** Port 0 configured for the adapter with rumble enabled, a claimed session,
    and the payload [payload] of recorded size [size] delivered by the read
    thread. *)
Definition claimed_session (payload : list Z) (size : Z) : State :=
  {| s_status := ADAPTER_DETECTED;
     s_handle := Some 1%nat;
     s_controller_type := replicate MAX_SI_CHANNELS ControllerType.None;
     s_controller_rumble := replicate MAX_SI_CHANNELS 0;
     s_controller_payload := payload;
     s_controller_payload_swap := replicate 37 0;
     s_controller_payload_size := size;
     s_adapter_thread_running := true;
     s_rumble_data_available := false;
     s_init_mutex := false;
     s_adapter_detect_thread_running := true;
     s_detect_callback := true;
     s_libusb_context := Some true;
     s_endpoint_in := 0x81;
     s_endpoint_out := 0x02;
     s_last_init := 0;
     s_config_callback_id := Some 0%nat;
     s_config_si_device_type := [12; 0; 0; 0];
     s_config_rumble_enabled := [true; false; false; false];
     s_trace := [] |}.

Definition wired_A_session : State :=
  claimed_session (make_payload wired_A_port empty_port empty_port empty_port) 37.

(** The same session with nothing plugged into the adapter. *)
Definition no_controller_session : State :=
  claimed_session (make_payload empty_port empty_port empty_port empty_port) 37.

(** Port 0 configured for the adapter with rumble enabled, but no session
    claimed: no device handle, status not detected. *)
Definition configured_without_session : State :=
  set_adapter_thread_running false
    (set_status NO_ADAPTER_DETECTED (set_handle None no_controller_session)).

(** A claimed session in which port 0 is tracked as [Wired];
    [init_mutex_held] tells whether another thread holds [s_init_mutex]. *)
Definition tracked_session (init_mutex_held : bool) : State :=
  {| s_status := ADAPTER_DETECTED;
     s_handle := Some 1%nat;
     s_controller_type :=
       [ControllerType.Wired; ControllerType.None; ControllerType.None; ControllerType.None];
     s_controller_rumble := replicate MAX_SI_CHANNELS 0;
     s_controller_payload := make_payload wired_A_port empty_port empty_port empty_port;
     s_controller_payload_swap := replicate 37 0;
     s_controller_payload_size := 37;
     s_adapter_thread_running := true;
     s_rumble_data_available := false;
     s_init_mutex := init_mutex_held;
     s_adapter_detect_thread_running := true;
     s_detect_callback := true;
     s_libusb_context := Some true;
     s_endpoint_in := 0x81;
     s_endpoint_out := 0x02;
     s_last_init := 0;
     s_config_callback_id := Some 0%nat;
     s_config_si_device_type := [12; 0; 0; 0];
     s_config_rumble_enabled := [true; false; false; false];
     s_trace := [] |}.

(** A mouse on the bus: the descriptor reads but is not the adapter's. *)
Definition other_vendor_device : libusb_device :=
  {| dev_id := 7; get_device_descriptor_ret := 0; idVendor := 0x046d; idProduct := 0x0337;
     open_ret := 0; kernel_driver_active_ret := 0; detach_kernel_driver_ret := 0;
     control_transfer_ret := 0; claim_interface_ret := 0; config_endpoints := [] |}.

(** The adapter: one interface, one alternate setting, endpoints [0x81] (in)
    and [0x02] (out); every libusb call succeeds. *)
Definition adapter_device : libusb_device :=
  {| dev_id := 1; get_device_descriptor_ret := 0; idVendor := 0x057e; idProduct := 0x0337;
     open_ret := 0; kernel_driver_active_ret := 0; detach_kernel_driver_ret := 0;
     control_transfer_ret := 0; claim_interface_ret := 0;
     config_endpoints := [[[0x81; 0x02]]] |}.

(** The emulator running, [t] ticks on the clock, 486 MHz. *)
Definition running_env (t : Z) : InitEnv :=
  {| core_state := Active; ticks := t; ticks_per_second := 486000000;
     context_valid := true; new_callback_id := 3;
     config_si_device := fun i => match i with O => 12 | _ => 0 end;
     config_adapter_rumble := fun i => match i with O => true | _ => false end |}.

(** The adapter while another program holds its interface:
    [libusb_claim_interface] answers [LIBUSB_ERROR_BUSY]. *)
Definition busy_adapter_device : libusb_device :=
  {| dev_id := 2; get_device_descriptor_ret := 0; idVendor := 0x057e; idProduct := 0x0337;
     open_ret := 0; kernel_driver_active_ret := 0; detach_kernel_driver_ret := 0;
     control_transfer_ret := 0; claim_interface_ret := -6;
     config_endpoints := [[[0x81; 0x02]]] |}.

(** No session, and the status left by a probe that ended with
    [LIBUSB_ERROR_ACCESS] (-3). *)
Definition failed_probe_state : State := set_status (-3) configured_without_session.



(** The emulator not started yet: [Init] is not rate limited. *)
Definition starting_env : InitEnv :=
  {| core_state := Uninitialized; ticks := 0; ticks_per_second := 486000000;
     context_valid := true; new_callback_id := 4;
     config_si_device := fun i => match i with O => 12 | _ => 0 end;
     config_adapter_rumble := fun i => match i with O => true | _ => false end |}.

(** The driver with a claimed session, the scan thread running and hotplug
    detection in use. *)
Definition running_driver : Driver :=
  {| statics := tracked_session false; s_hotplug_event := false;
     s_libusb_hotplug_enabled := true; s_calls := [HotplugRegisterCallback] |}.

(** The same driver while another thread holds [s_init_mutex]. *)
Definition contended_driver : Driver :=
  {| statics := tracked_session true; s_hotplug_event := false;
     s_libusb_hotplug_enabled := true; s_calls := [HotplugRegisterCallback] |}.

(** The driver with no session after a probe that failed with -3. *)
Definition failed_probe_driver : Driver :=
  {| statics := failed_probe_state; s_hotplug_event := false;
     s_libusb_hotplug_enabled := true; s_calls := [HotplugRegisterCallback] |}.

(** ** Tactics *)

(** Splits on every condition of the goal, outermost first. *)
Ltac case_ifs :=
  repeat match goal with
         | |- context [if ?c then _ else _] => destruct c
         end.

(** Computes setters and projections of [State], innermost first. *)
Ltac state_cbv :=
  cbv beta iota zeta delta
      [set_status set_handle set_controller_type set_controller_rumble
       set_controller_payload set_adapter_thread_running set_rumble_data_available
       set_adapter_detect_thread_running set_detect_callback set_libusb_context
       set_endpoint_in set_endpoint_out set_last_init set_config_callback_id
       set_config_si_device_type set_config_rumble_enabled emit
       rumble_data_available_Set is_nullptr negb
       RefreshConfig foldl seq MAX_SI_CHANNELS
       s_status s_handle s_controller_type s_controller_rumble s_controller_payload
       s_controller_payload_swap s_controller_payload_size s_adapter_thread_running
       s_rumble_data_available s_init_mutex s_adapter_detect_thread_running
       s_detect_callback s_libusb_context s_endpoint_in s_endpoint_out s_last_init
       s_config_callback_id s_config_si_device_type s_config_rumble_enabled s_trace].

(** Proves [state_wf] of a concrete state. *)
Ltac solve_state_wf :=
  constructor; first [reflexivity | repeat constructor; unfold is_u8; lia].

(** ** Arrays *)

Section Arrays.

Lemma insert_lookup_total_id {A} `{Inhabited A} (l : list A) (i : nat) :
  <[i := l !!! i]> l = l.
Proof.
  destruct (l !! i) as [x|] eqn:E.
  - rewrite (list_lookup_total_correct _ _ _ E). by apply list_insert_id.
  - apply list_insert_ge. by apply lookup_ge_None.
Qed.

Lemma fill_lookup_total {A} `{Inhabited A} (v : A) (l : list A) (i : nat) :
  (i < length l)%nat -> fill v l !!! i = v.
Proof.
  intros Hi. unfold fill. rewrite list_lookup_total_fmap by done. done.
Qed.

Lemma fill_length {A} (v : A) (l : list A) : length (fill v l) = length l.
Proof. unfold fill. apply length_fmap. Qed.

End Arrays.

(** ** Input: what a call may change *)

Section InputFrame.
Context `{H : Headers}.

(** [Input] returns the state it was given or that state with one entry of
    [s_controller_type] rewritten. *)
Lemma Input_state wants_determinism chan s :
  snd (Input wants_determinism chan s) = s \/
  snd (Input wants_determinism chan s) =
    set_controller_type (<[chan := decoded_type chan s]> (s_controller_type s)) s.
Proof.
  unfold Input, decoded_type.
  destruct (negb (UseAdapter s)); [by left |].
  destruct (is_nullptr (s_handle s) || negb (s_status s =? ADAPTER_DETECTED)); [by left |].
  match goal with
  | |- context [if ?c then (GCPadStatus_default, s) else _] => destruct c; [by left |]
  end.
  cbv zeta.
  match goal with
  | |- context [if ?c then _ else _] => destruct c; [right; reflexivity |]
  end.
  destruct (negb wants_determinism); right; reflexivity.
Qed.

(** In the libusb build a call to [Input] for a channel changes, among the
    driver's variables, at most the entry of that channel in the tracked
    controller types. *)
Lemma Input_frame wants_determinism chan s :
  let s' := snd (Input wants_determinism chan s) in
  (exists type, s' = set_controller_type (<[chan := type]> (s_controller_type s)) s)
  /\ (forall other, other <> chan ->
        s_controller_type s' !!! other = s_controller_type s !!! other)
  /\ s_controller_rumble s' = s_controller_rumble s
  /\ s_controller_payload s' = s_controller_payload s
  /\ s_controller_payload_size s' = s_controller_payload_size s.
Proof.
  intros s'. subst s'.
  destruct (Input_state wants_determinism chan s) as [E | E]; rewrite E.
  - split; [| by repeat split].
    exists (s_controller_type s !!! chan). by rewrite insert_lookup_total_id.
  - split; [by eexists |]. simpl. repeat split; try reflexivity.
    intros other Hne. by apply list_lookup_total_insert_ne.
Qed.

(** In the Android build [Input] returns the state it was given, that state
    after [Reset], or that state with one entry of the controller types
    rewritten; the second only for a payload of another size than 37. *)
Lemma Android_Input_state wants_determinism chan (s : Android.State) :
  let s' := snd (Android.Input wants_determinism chan s) in
  s' = s
  \/ (Android.s_controller_payload_size s <> 37 /\ s' = Android.Reset s)
  \/ (Android.s_controller_payload_size s = 37
      /\ Android.s_controller_type s'
         = <[chan := u8 (Z.shiftr (Android.s_controller_payload s !!! (1 + 9 * chan)%nat) 4)]>
             (Android.s_controller_type s)
      /\ Android.s_controller_rumble s' = Android.s_controller_rumble s
      /\ Android.s_controller_payload s' = Android.s_controller_payload s
      /\ Android.s_controller_payload_size s' = Android.s_controller_payload_size s).
Proof.
  unfold Android.Input.
  destruct (negb (Android.UseAdapter s)); [by left |].
  destruct (negb (Android.s_detected s) || (Android.s_fd s =? 0)); [by left |].
  destruct (Z.eqb_spec (Android.s_controller_payload_size s)
              CONTROLER_INPUT_PAYLOAD_EXPECTED_SIZE) as [E | E]; cbn [negb].
  - right; right. cbv zeta. split; [exact E |].
    match goal with
    | |- context [if ?c then _ else _] => destruct c
    end; cbn [snd]; repeat split; reflexivity.
  - right; left. by split.
Qed.

Lemma Android_Reset_frame (s : Android.State) :
  Android.s_controller_rumble (Android.Reset s) = Android.s_controller_rumble s
  /\ Android.s_controller_payload (Android.Reset s) = Android.s_controller_payload s
  /\ Android.s_controller_payload_size (Android.Reset s) = Android.s_controller_payload_size s.
Proof.
  unfold Android.Reset. destruct (negb (Android.s_detected s)); [done |].
  by destruct (Android.s_read_adapter_thread_running s).
Qed.

Lemma Android_Reset_types (s : Android.State) :
  Android.Reset s = s
  \/ Android.s_controller_type (Android.Reset s)
     = fill ControllerType.None (Android.s_controller_type s).
Proof.
  unfold Android.Reset. destruct (negb (Android.s_detected s)); [by left | right].
  by destruct (Android.s_read_adapter_thread_running s).
Qed.

(** C10, as the code has it.  In both builds a call to [Input] leaves the
    four staged rumble bytes and the input buffer with its recorded size as
    they were.  In the libusb build it changes at most the tracked controller
    type of its own channel.  In the Android build the same holds for a
    payload of 37 bytes; for a payload of another size [Input] leaves the
    state or calls [Reset], which sets the type of every channel to [None]. *)
Theorem Input_changes_only_controller_types wants_determinism chan :
  (forall s,
     let s' := snd (Input wants_determinism chan s) in
     (exists type, s' = set_controller_type (<[chan := type]> (s_controller_type s)) s)
     /\ (forall other, other <> chan ->
           s_controller_type s' !!! other = s_controller_type s !!! other)
     /\ s_controller_rumble s' = s_controller_rumble s
     /\ s_controller_payload s' = s_controller_payload s
     /\ s_controller_payload_size s' = s_controller_payload_size s)
  /\ (forall s : Android.State,
        let s' := snd (Android.Input wants_determinism chan s) in
        Android.s_controller_rumble s' = Android.s_controller_rumble s
        /\ Android.s_controller_payload s' = Android.s_controller_payload s
        /\ Android.s_controller_payload_size s' = Android.s_controller_payload_size s
        /\ (Android.s_controller_payload_size s = 37 ->
            forall other, other <> chan ->
              Android.s_controller_type s' !!! other = Android.s_controller_type s !!! other)
        /\ (Android.s_controller_payload_size s <> 37 ->
            s' = s
            \/ s' = Android.Reset s
               /\ Android.s_controller_type s'
                  = fill ControllerType.None (Android.s_controller_type s))).
Proof.
  split; [intros s; apply Input_frame |].
  intros s s'. subst s'.
  destruct (Android_Input_state wants_determinism chan s)
    as [E | [[Hsz E] | (Hsz & Hty & Hr & Hp & Hs)]].
  - rewrite E. repeat split; try reflexivity. intros _. by left.
  - rewrite E. destruct (Android_Reset_frame s) as (Hr & Hp & Hs).
    split; [exact Hr | split; [exact Hp | split; [exact Hs | split]]].
    + intros Hx. by destruct Hsz.
    + intros _. destruct (Android_Reset_types s) as [Hid | Hfill];
        [left; exact Hid | right; by split].
  - split; [exact Hr | split; [exact Hp | split; [exact Hs | split]]].
    + intros _ other Hne. rewrite Hty. by apply list_lookup_total_insert_ne.
    + intros Hx. by destruct Hx.
Qed.

End InputFrame.

(** [Input 2] in the Android build, on a payload of 37 bytes and on one of
    36 bytes. *)
Lemma Input_changes_only_controller_types_witness :
  let a := Android.two_wired_session 37 in
  let b := Android.two_wired_session 36 in
  (forall other, other <> 2%nat ->
     Android.s_controller_type (snd (@Android.Input dolphin_headers false 2 a)) !!! other
     = Android.s_controller_type a !!! other)
  /\ (snd (@Android.Input dolphin_headers false 2 b) = b
      \/ snd (@Android.Input dolphin_headers false 2 b) = Android.Reset b
         /\ Android.s_controller_type (snd (@Android.Input dolphin_headers false 2 b))
            = fill ControllerType.None (Android.s_controller_type b)).
Proof.
  intros a b. split.
  - apply (proj2 (@Input_changes_only_controller_types dolphin_headers false 2) a).
    reflexivity.
  - apply (proj2 (@Input_changes_only_controller_types dolphin_headers false 2) b).
    discriminate.
Defined.

(** C10 as stated fails in the Android build: ports 0 and 1 are tracked as
    wired and a payload of 36 bytes has been read; [Input 2] changes the
    entries of channels 0 and 1 to [None]. *)
Lemma Android_Input_changes_other_channels :
  let b := Android.two_wired_session 36 in
  let b' := snd (@Android.Input dolphin_headers false 2 b) in
  Android.s_controller_type b !!! 0%nat = ControllerType.Wired
  /\ Android.s_controller_type b' !!! 0%nat = ControllerType.None
  /\ Android.s_controller_type b !!! 1%nat = ControllerType.Wired
  /\ Android.s_controller_type b' !!! 1%nat = ControllerType.None.
Proof.
  intros b b'. repeat split; reflexivity.
Qed.

(** ** Input: a payload that fails validation *)

Section InputInvalid.
Context `{H : Headers}.

(** In the libusb build, when the copied payload fails validation (recorded
    size other than 37, or a header byte other than the HID marker), [Input]
    returns the neutral pad state and leaves every variable as it was. *)
Lemma Input_invalid_payload wants_determinism chan s :
  payload_valid s = false ->
  Input wants_determinism chan s = (GCPadStatus_default, s).
Proof.
  intros Hv. unfold Input. unfold payload_valid in Hv.
  destruct (negb (UseAdapter s)); [done |].
  destruct (is_nullptr (s_handle s) || negb (s_status s =? ADAPTER_DETECTED)); [done |].
  apply andb_false_iff in Hv as [-> | ->]; cbn [negb orb]; [done |].
  by rewrite orb_true_r.
Qed.

(** C2, as the code has it.  When the copied payload fails validation,
    [Input] returns the neutral pad state in both builds and no port becomes
    connected.  In the libusb build every variable, the tracked controller
    types among them, is left as it was.  In the Android build, where only
    the size is validated, [Input] leaves the state or calls [Reset], after
    which the tracked type of every port is [None]. *)
Theorem Input_invalid_payload_neutral wants_determinism chan :
  (forall s,
     payload_valid s = false ->
     Input wants_determinism chan s = (GCPadStatus_default, s)
     /\ forall port,
          DeviceConnected port (snd (Input wants_determinism chan s))
          = DeviceConnected port s)
  /\ (forall s : Android.State,
        Android.s_controller_payload_size s <> 37 ->
        let s' := snd (Android.Input wants_determinism chan s) in
        fst (Android.Input wants_determinism chan s) = GCPadStatus_default
        /\ (s' = s
            \/ s' = Android.Reset s
               /\ Android.s_controller_type s'
                  = fill ControllerType.None (Android.s_controller_type s))
        /\ forall port,
             (port < length (Android.s_controller_type s))%nat ->
             Android.DeviceConnected port s' = true ->
             Android.DeviceConnected port s = true).
Proof.
  split.
  - intros s Hv. by rewrite (Input_invalid_payload _ _ _ Hv).
  - intros s Hsz s'.
    assert (Hpad : fst (Android.Input wants_determinism chan s) = GCPadStatus_default).
    { unfold Android.Input.
      destruct (negb (Android.UseAdapter s)); [done |].
      destruct (negb (Android.s_detected s) || (Android.s_fd s =? 0)); [done |].
      destruct (Z.eqb_spec (Android.s_controller_payload_size s)
                  CONTROLER_INPUT_PAYLOAD_EXPECTED_SIZE) as [E | E]; [by destruct Hsz | done]. }
    assert (Hst : s' = s
                  \/ s' = Android.Reset s
                     /\ Android.s_controller_type s'
                        = fill ControllerType.None (Android.s_controller_type s)).
    { subst s'.
      destruct (Android_Input_state wants_determinism chan s) as [E | [[_ E] | (Hx & _)]].
      - by left.
      - rewrite E. destruct (Android_Reset_types s) as [Hid | Hfill];
          [left; exact Hid | right; by split].
      - by destruct Hsz. }
    split; [exact Hpad | split; [exact Hst |]].
    intros port Hport. destruct Hst as [-> | [_ Hty]]; [done |].
    unfold Android.DeviceConnected. rewrite Hty.
    rewrite fill_lookup_total by done. discriminate.
Qed.

End InputInvalid.

(** The scenario of the specification in the libusb build, a payload of
    length 10, and the same in the Android build with two ports tracked. *)
Lemma Input_invalid_payload_neutral_witness :
  let s := claimed_session (make_payload wired_A_port empty_port empty_port empty_port) 10 in
  let a := Android.two_wired_session 10 in
  (@Input dolphin_headers false 0 s = (GCPadStatus_default, s)
   /\ forall port,
        DeviceConnected port (snd (@Input dolphin_headers false 0 s))
        = DeviceConnected port s)
  /\ (fst (@Android.Input dolphin_headers false 0 a) = GCPadStatus_default
      /\ (snd (@Android.Input dolphin_headers false 0 a) = a
          \/ snd (@Android.Input dolphin_headers false 0 a) = Android.Reset a
             /\ Android.s_controller_type (snd (@Android.Input dolphin_headers false 0 a))
                = fill ControllerType.None (Android.s_controller_type a))
      /\ forall port,
           (port < length (Android.s_controller_type a))%nat ->
           Android.DeviceConnected port (snd (@Android.Input dolphin_headers false 0 a)) = true ->
           Android.DeviceConnected port a = true).
Proof.
  intros s a. split.
  - apply (proj1 (@Input_invalid_payload_neutral dolphin_headers false 0) s). reflexivity.
  - apply (proj2 (@Input_invalid_payload_neutral dolphin_headers false 0) a). discriminate.
Defined.

(** C2 as stated fails in the Android build: ports 0 and 1 are tracked as
    wired and a payload of 10 bytes has been read; [Input 0] fails
    validation and changes the tracked type of both ports to [None]. *)
Lemma Android_Input_invalid_payload_resets_types :
  let a := Android.two_wired_session 10 in
  let a' := snd (@Android.Input dolphin_headers false 0 a) in
  Android.s_controller_payload_size a <> 37
  /\ Android.s_controller_type a
     = [ControllerType.Wired; ControllerType.Wired; ControllerType.None; ControllerType.None]
  /\ Android.s_controller_type a'
     = [ControllerType.None; ControllerType.None; ControllerType.None; ControllerType.None]
  /\ Android.s_controller_type a' <> Android.s_controller_type a.
Proof.
  intros a a'. split; [discriminate |]. repeat split; discriminate.
Qed.

(** ** Probing a candidate device *)

Section Probe.
Context `{H : Headers}.

(** C8: for a device whose descriptor cannot be read, or whose vendor and
    product are not exactly [0x057e] and [0x0337], [CheckDeviceAccess]
    returns [false] and leaves every variable (device handle, adapter
    status, controller types, rumble bytes and the rest) as it was, without
    any call on the device. *)
Theorem CheckDeviceAccess_rejects_other_devices apple device s :
  get_device_descriptor_ret device <> 0
  \/ idVendor device <> 0x057e \/ idProduct device <> 0x0337 ->
  CheckDeviceAccess apple device s = (false, s).
Proof.
  intros Hd. unfold CheckDeviceAccess.
  destruct (Z.eqb_spec (get_device_descriptor_ret device) 0) as [Hr | Hr]; simpl; [| done].
  destruct (Z.eqb_spec (idVendor device) 0x057e) as [Hv | Hv]; simpl; [| done].
  destruct (Z.eqb_spec (idProduct device) 0x0337) as [Hp | Hp]; simpl; [| done].
  exfalso. destruct Hd as [Hd | [Hd | Hd]]; auto.
Qed.

End Probe.

Lemma CheckDeviceAccess_rejects_other_devices_witness :
  (get_device_descriptor_ret other_vendor_device <> 0
   \/ idVendor other_vendor_device <> 0x057e \/ idProduct other_vendor_device <> 0x0337)
  /\ @CheckDeviceAccess dolphin_headers false other_vendor_device wired_A_session
     = (false, wired_A_session).
Proof.
  assert (Hd : get_device_descriptor_ret other_vendor_device <> 0
               \/ idVendor other_vendor_device <> 0x057e
               \/ idProduct other_vendor_device <> 0x0337).
  { right; left. simpl. lia. }
  split; [exact Hd |].
  exact (@CheckDeviceAccess_rejects_other_devices dolphin_headers false
           other_vendor_device wired_A_session Hd).
Defined.

(** ** Init *)

Section InitProperties.
Context `{H : Headers}.

Lemma RefreshConfig_other_fields env s :
  s_last_init (RefreshConfig env s) = s_last_init s
  /\ s_handle (RefreshConfig env s) = s_handle s.
Proof. by split. Qed.

Lemma StartScanThread_other_fields s :
  s_last_init (StartScanThread s) = s_last_init s
  /\ s_handle (StartScanThread s) = s_handle s.
Proof.
  unfold StartScanThread.
  destruct (s_adapter_detect_thread_running s); [done |].
  by destruct (negb (context_IsValid s)).
Qed.

(** [Init] past its first guard. *)
Lemma Init_no_session env s :
  s_handle s = None ->
  Init env s =
    let s := set_libusb_context (Some (context_valid env)) s in
    if init_rate_limited env s then s
    else
      let s := if core_active (core_state env) then set_last_init (ticks env) s else s in
      let s := set_status NO_ADAPTER_DETECTED s in
      let s :=
        if is_nullptr (s_config_callback_id s) then
          emit AddConfigChangedCallback
               (set_config_callback_id (Some (new_callback_id env)) s)
        else s in
      let s := RefreshConfig env s in
      if UseAdapter s then StartScanThread s else s.
Proof. intros Hh. unfold Init. by rewrite Hh. Qed.

(** An [Init] that is not suppressed while the core is active records the
    current tick count and opens no session. *)
Lemma Init_records_ticks env s :
  s_handle s = None ->
  core_active (core_state env) = true ->
  init_rate_limited env s = false ->
  s_last_init (Init env s) = ticks env /\ s_handle (Init env s) = None.
Proof.
  intros Hh Ha Hl. rewrite (Init_no_session env s Hh). cbv zeta.
  change (init_rate_limited env (set_libusb_context (Some (context_valid env)) s))
    with (init_rate_limited env s).
  rewrite Hl, Ha. unfold StartScanThread.
  case_ifs; (split; [reflexivity | exact Hh]).
Qed.

(** C9: [Init] with a session open changes nothing.  With no session open
    and the core active, a call less than [GetTicksPerSecond()] ticks after
    the tick count recorded by the last [Init] that went through returns
    at the rate limit: it has made a fresh libusb context and nothing else,
    so the configuration callback is not subscribed, the configuration
    snapshot is not refreshed, the scan thread is not started, and status
    and recorded tick count stay.  In particular a call that follows an
    [Init] that went through, within that many ticks, is suppressed. *)
Theorem Init_idempotent_and_rate_limited env s :
  (s_handle s <> None -> Init env s = s)
  /\ (s_handle s = None -> init_rate_limited env s = true ->
      Init env s = set_libusb_context (Some (context_valid env)) s
      /\ s_config_callback_id (Init env s) = s_config_callback_id s
      /\ s_config_si_device_type (Init env s) = s_config_si_device_type s
      /\ s_config_rumble_enabled (Init env s) = s_config_rumble_enabled s
      /\ s_adapter_detect_thread_running (Init env s) = s_adapter_detect_thread_running s
      /\ s_status (Init env s) = s_status s
      /\ s_last_init (Init env s) = s_last_init s
      /\ s_trace (Init env s) = s_trace s)
  /\ (forall env',
        s_handle s = None ->
        core_active (core_state env) = true ->
        init_rate_limited env s = false ->
        core_active (core_state env') = true ->
        0 <= ticks env <= ticks env' ->
        ticks env' < ticks env + ticks_per_second env' ->
        ticks env' < 2 ^ 64 ->
        init_rate_limited env' (Init env s) = true
        /\ Init env' (Init env s)
           = set_libusb_context (Some (context_valid env')) (Init env s)).
Proof.
  assert (Hlim : forall e t, s_handle t = None -> init_rate_limited e t = true ->
                   Init e t = set_libusb_context (Some (context_valid e)) t).
  { intros e t Hh Hl. rewrite (Init_no_session e t Hh). cbv zeta.
    change (init_rate_limited e (set_libusb_context (Some (context_valid e)) t))
      with (init_rate_limited e t).
    by rewrite Hl. }
  split; [| split].
  - intros Hh. unfold Init. by destruct (s_handle s).
  - intros Hh Hl. by rewrite (Hlim env s Hh Hl).
  - intros env' Hh Ha Hl Ha' Ht Hw Hm.
    destruct (Init_records_ticks env s Hh Ha Hl) as [Hlast Hnull].
    assert (Hl' : init_rate_limited env' (Init env s) = true).
    { unfold init_rate_limited. rewrite Ha', Hlast. simpl.
      apply Z.ltb_lt. unfold u64. rewrite Z.mod_small; lia. }
    split; [exact Hl' |]. by apply Hlim.
Qed.

End InitProperties.

(** The emulator is running; [Init] goes through at tick 500,000,000 and is
    called again 1,000,000 ticks later (about 2 ms). *)
Lemma Init_idempotent_and_rate_limited_witness :
  let env := running_env 500000000 in
  let env' := running_env 501000000 in
  let s := initial_state in
  (@Init dolphin_headers env wired_A_session = wired_A_session)
  /\ (@init_rate_limited env' (@Init dolphin_headers env s) = true
      /\ @Init dolphin_headers env' (@Init dolphin_headers env s)
         = set_libusb_context (Some true) (@Init dolphin_headers env s)).
Proof.
  intros env env' s. split.
  - apply (proj1 (@Init_idempotent_and_rate_limited dolphin_headers env wired_A_session)).
    intros E. discriminate E.
  - apply (proj2 (proj2 (@Init_idempotent_and_rate_limited dolphin_headers env s)) env');
      try reflexivity; simpl; lia.
Defined.

(** ** Input: decoding a valid payload *)

Section Decode.
Context `{H : Headers}.

Lemma land_u16 x m : 0 <= m < 2 ^ 16 -> Z.land (u16 x) m = Z.land x m.
Proof.
  intros Hm. unfold u16. rewrite <- Z.land_ones by lia.
  rewrite <- Z.land_assoc. f_equal.
  rewrite Z.land_comm, Z.land_ones by lia. apply Z.mod_small. lia.
Qed.

Lemma u16_lor a b : u16 (Z.lor a b) = Z.lor (u16 a) (u16 b).
Proof. unfold u16. rewrite <- !Z.land_ones by lia. apply Z.land_lor_distr_l. Qed.

Lemma u16_small x : 0 <= x < 2 ^ 16 -> u16 x = x.
Proof. intros Hx. apply Z.mod_small. lia. Qed.

Lemma bit_set_testbit b k : 0 <= k -> bit_set b k = Z.testbit b k.
Proof.
  intros Hk. unfold bit_set. rewrite Z.shiftl_1_l.
  destruct (Z.testbit b k) eqn:E.
  - destruct (Z.eqb_spec (Z.land b (2 ^ k)) 0) as [E0 | _]; [| done].
    assert (Hb : Z.testbit (Z.land b (2 ^ k)) k = true).
    { rewrite Z.land_spec, E, Z.pow2_bits_true by lia. done. }
    rewrite E0, Z.bits_0 in Hb. discriminate.
  - assert (E0 : Z.land b (2 ^ k) = 0).
    { apply Z.bits_inj'. intros n Hn.
      rewrite Z.land_spec, Z.bits_0, Z.pow2_bits_eqb by lia.
      destruct (Z.eqb_spec k n) as [-> | _]; [by rewrite E | apply andb_false_r]. }
    by rewrite E0.
Qed.

Lemma pressed_default m : pressed m GCPadStatus_default = false.
Proof. reflexivity. Qed.

Lemma pressed_or_button_other c mask m pad :
  0 <= m < 2 ^ 16 -> Z.land mask m = 0 ->
  pressed m (or_button c mask pad) = pressed m pad.
Proof.
  intros Hm Hd. destruct pad, c; [| done]. unfold pressed. simpl.
  by rewrite land_u16, Z.land_lor_distr_l, Hd, Z.lor_0_r.
Qed.

Lemma pressed_or_button_same c m pad :
  0 < m < 2 ^ 16 -> pressed m pad = false ->
  pressed m (or_button c m pad) = c.
Proof.
  intros Hm Hp. destruct pad, c; [| done]. unfold pressed in *. simpl in *.
  apply negb_false_iff, Z.eqb_eq in Hp.
  rewrite land_u16, Z.land_lor_distr_l, Hp, Z.land_diag, Z.lor_0_l by lia.
  destruct (Z.eqb_spec m 0); [lia | done].
Qed.

Lemma button_or_button_range c mask pad :
  0 <= button pad < 2 ^ 16 -> 0 <= button (or_button c mask pad) < 2 ^ 16.
Proof.
  intros Hb. destruct pad, c; [| done]. simpl. unfold u16. apply Z.mod_pos_bound. lia.
Qed.

(** Takes [pad_masks_ok] apart into its facts on the masks. *)
Ltac unpack_masks Hok :=
  unfold pad_masks_ok, pad_masks, button_masks in Hok; simpl in Hok;
  repeat match type of Hok with
         | (_ && _) = true => let Hx := fresh "Hm" in apply andb_prop in Hok as [Hx Hok]
         end;
  repeat match goal with
         | Hx : (_ && _) = true |- _ => let Hy := fresh "Hm" in apply andb_prop in Hx as [Hx Hy]
         | Hx : (_ =? 0) = true |- _ => apply Z.eqb_eq in Hx
         | Hx : (_ <? _) = true |- _ => apply Z.ltb_lt in Hx
         end.

Ltac mask_side := first [lia | assumption | (rewrite Z.land_comm; assumption)].

Ltac not_pressed :=
  repeat (rewrite pressed_or_button_other by mask_side); reflexivity.

Lemma pressed_mkPad m pad a b c d e f :
  pressed m (mkPad (button pad) a b c d e f) = pressed m pad.
Proof. reflexivity. Qed.

Ltac pressed_flag :=
  unfold connected_pad; cbv zeta; rewrite pressed_mkPad;
  repeat (rewrite pressed_or_button_other by mask_side);
  first [ rewrite pressed_or_button_same by first [lia | not_pressed];
          first [reflexivity | apply bit_set_testbit; lia]
        | not_pressed ].

(** The flags of the pad state built for a connected port. *)
Lemma connected_pad_flags chan get_origin payload :
  pad_masks_ok = true ->
  let pad := connected_pad chan get_origin payload in
  let b1 := payload !!! (1 + 9 * chan + 1)%nat in
  let b2 := payload !!! (1 + 9 * chan + 2)%nat in
  pressed PAD_BUTTON_A pad = Z.testbit b1 0
  /\ pressed PAD_BUTTON_B pad = Z.testbit b1 1
  /\ pressed PAD_BUTTON_X pad = Z.testbit b1 2
  /\ pressed PAD_BUTTON_Y pad = Z.testbit b1 3
  /\ pressed PAD_BUTTON_LEFT pad = Z.testbit b1 4
  /\ pressed PAD_BUTTON_RIGHT pad = Z.testbit b1 5
  /\ pressed PAD_BUTTON_DOWN pad = Z.testbit b1 6
  /\ pressed PAD_BUTTON_UP pad = Z.testbit b1 7
  /\ pressed PAD_BUTTON_START pad = Z.testbit b2 0
  /\ pressed PAD_TRIGGER_Z pad = Z.testbit b2 1
  /\ pressed PAD_TRIGGER_R pad = Z.testbit b2 2
  /\ pressed PAD_TRIGGER_L pad = Z.testbit b2 3
  /\ pressed PAD_GET_ORIGIN pad = get_origin
  /\ pressed PAD_ERR_STATUS pad = false.
Proof.
  intros Hok pad b1 b2. subst pad b1 b2. unpack_masks Hok.
  repeat split; pressed_flag.
Qed.

(** [Input] when one of its guards stops it. *)
Lemma Input_inactive wants_determinism chan s :
  UseAdapter s = false \/ s_handle s = None \/ s_status s <> ADAPTER_DETECTED
  \/ payload_valid s = false ->
  Input wants_determinism chan s = (GCPadStatus_default, s).
Proof.
  intros Hg. unfold Input.
  destruct (UseAdapter s) eqn:EU; cbn [negb]; [| reflexivity].
  destruct (s_handle s) eqn:Eh; cbn [is_nullptr orb]; [| reflexivity].
  destruct (Z.eqb_spec (s_status s) ADAPTER_DETECTED) as [Es | Es]; cbn [negb];
    [| reflexivity].
  destruct Hg as [Hg | [Hg | [Hg | Hg]]]; [discriminate Hg | discriminate Hg | tauto |].
  unfold payload_valid in Hg.
  apply andb_false_iff in Hg as [-> | ->]; cbn [negb orb]; [reflexivity |].
  rewrite orb_true_r. reflexivity.
Qed.

(** [Input] when it decodes: the tracked type of the channel becomes the
    decoded one, and the pad state is that of a connected port or that of a
    missing controller. *)
Lemma Input_active wants_determinism chan s :
  adapter_active s -> payload_valid s = true ->
  (chan < length (s_controller_type s))%nat ->
  Input wants_determinism chan s =
    (if negb (decoded_type chan s =? ControllerType.None) then
       connected_pad chan
         (negb (decoded_type chan s =? ControllerType.None)
          && (s_controller_type s !!! chan =? ControllerType.None))
         (s_controller_payload s)
     else error_pad wants_determinism,
     set_controller_type (<[chan := decoded_type chan s]> (s_controller_type s)) s).
Proof.
  intros (HU & Hh & Hs) Hv Hlen. unfold Input.
  rewrite HU, Hs. destruct (s_handle s) as [h|]; [| done].
  unfold payload_valid in Hv. apply andb_true_iff in Hv as [Hv1 Hv2].
  rewrite Hv1, Hv2, Z.eqb_refl. cbn [negb orb is_nullptr].
  cbv zeta.
  change (s_controller_type (set_controller_type ?l s)) with l.
  rewrite list_lookup_total_insert_eq by done.
  fold (decoded_type chan s).
  unfold error_pad.
  destruct (negb (decoded_type chan s =? ControllerType.None)); [reflexivity |].
  by destruct (negb wants_determinism).
Qed.

(** [Input] of the Android build when it decodes: the same pad state, from
    the same payload bytes, as in the libusb build. *)
Lemma Android_Input_active wants_determinism chan (s : Android.State) :
  Android.UseAdapter s = true -> Android.s_detected s = true -> Android.s_fd s <> 0 ->
  Android.s_controller_payload_size s = 37 ->
  (chan < length (Android.s_controller_type s))%nat ->
  let type := u8 (Z.shiftr (Android.s_controller_payload s !!! (1 + 9 * chan)%nat) 4) in
  fst (Android.Input wants_determinism chan s) =
    (if negb (type =? ControllerType.None) then
       connected_pad chan
         (negb (type =? ControllerType.None)
          && (Android.s_controller_type s !!! chan =? ControllerType.None))
         (Android.s_controller_payload s)
     else error_pad wants_determinism).
Proof.
  intros HU Hd Hfd Hsz Hlen type. unfold Android.Input.
  rewrite HU, Hd, Hsz. cbn [negb orb].
  destruct (Z.eqb_spec (Android.s_fd s) 0) as [E | _]; [by destruct Hfd |].
  change (37 =? CONTROLER_INPUT_PAYLOAD_EXPECTED_SIZE) with true. cbn [negb].
  cbv zeta. cbn [Android.s_controller_type].
  rewrite list_lookup_total_insert_eq by done. fold type.
  by destruct (negb (type =? ControllerType.None)).
Qed.

Lemma payload_lookup s i :
  state_wf s -> (i < 37)%nat ->
  s_controller_payload s !! i = Some (s_controller_payload s !!! i).
Proof.
  intros Hwf Hi. apply list_lookup_lookup_total_lt. by rewrite (wf_payload_length s Hwf).
Qed.

(** C1: for a port 0-3 of a valid 37-byte payload whose record has type
    [Wired], the pad state [Input] returns has exactly the flags of the set
    bits: bits 0-7 of the first button byte are A, B, X, Y, Left, Right,
    Down, Up, bits 0-3 of the second are Start, Z, R, L, the error flag is
    not raised, and the six bytes that follow are the stick, C-stick and
    trigger values; the port is reported connected afterwards. *)
Theorem Input_decodes_wired_port wants_determinism chan s :
  pad_masks_ok = true ->
  state_wf s ->
  (chan < MAX_SI_CHANNELS)%nat ->
  adapter_active s ->
  payload_valid s = true ->
  decoded_type chan s = ControllerType.Wired ->
  let pad := fst (Input wants_determinism chan s) in
  let b1 := s_controller_payload s !!! (1 + 9 * chan + 1)%nat in
  let b2 := s_controller_payload s !!! (1 + 9 * chan + 2)%nat in
  (pressed PAD_BUTTON_A pad = Z.testbit b1 0
   /\ pressed PAD_BUTTON_B pad = Z.testbit b1 1
   /\ pressed PAD_BUTTON_X pad = Z.testbit b1 2
   /\ pressed PAD_BUTTON_Y pad = Z.testbit b1 3
   /\ pressed PAD_BUTTON_LEFT pad = Z.testbit b1 4
   /\ pressed PAD_BUTTON_RIGHT pad = Z.testbit b1 5
   /\ pressed PAD_BUTTON_DOWN pad = Z.testbit b1 6
   /\ pressed PAD_BUTTON_UP pad = Z.testbit b1 7
   /\ pressed PAD_BUTTON_START pad = Z.testbit b2 0
   /\ pressed PAD_TRIGGER_Z pad = Z.testbit b2 1
   /\ pressed PAD_TRIGGER_R pad = Z.testbit b2 2
   /\ pressed PAD_TRIGGER_L pad = Z.testbit b2 3
   /\ pressed PAD_GET_ORIGIN pad = (s_controller_type s !!! chan =? ControllerType.None)
   /\ pressed PAD_ERR_STATUS pad = false)
  /\ (s_controller_payload s !! (1 + 9 * chan + 3)%nat = Some (stickX pad)
      /\ s_controller_payload s !! (1 + 9 * chan + 4)%nat = Some (stickY pad)
      /\ s_controller_payload s !! (1 + 9 * chan + 5)%nat = Some (substickX pad)
      /\ s_controller_payload s !! (1 + 9 * chan + 6)%nat = Some (substickY pad)
      /\ s_controller_payload s !! (1 + 9 * chan + 7)%nat = Some (triggerLeft pad)
      /\ s_controller_payload s !! (1 + 9 * chan + 8)%nat = Some (triggerRight pad))
  /\ DeviceConnected chan (snd (Input wants_determinism chan s)) = true.
Proof.
  intros Hok Hwf Hchan Hact Hv Hty pad b1 b2. subst pad b1 b2.
  assert (Hlen : (chan < length (s_controller_type s))%nat)
    by (by rewrite (wf_type_length s Hwf)).
  rewrite (Input_active _ _ _ Hact Hv Hlen), Hty. cbn [fst snd negb andb].
  change (ControllerType.Wired =? ControllerType.None) with false. cbn [negb andb].
  unfold MAX_SI_CHANNELS in Hchan.
  split; [apply (connected_pad_flags _ _ _ Hok) | split].
  - unfold connected_pad; cbn [stickX stickY substickX substickY triggerLeft triggerRight].
    repeat split; apply (payload_lookup s _ Hwf); lia.
  - unfold DeviceConnected.
    change (s_controller_type (set_controller_type ?l s)) with l.
    by rewrite list_lookup_total_insert_eq.
Qed.

(** C7: for a port of a valid payload whose decoded type is [None], [Input]
    outside determinism mode returns a pad state whose button member is
    [PAD_ERR_STATUS], so the error flag is raised and no button, trigger or
    origin flag is; in determinism mode it returns the neutral state. *)
Theorem Input_missing_controller_error_status wants_determinism chan s :
  pad_masks_ok = true ->
  state_wf s ->
  (chan < MAX_SI_CHANNELS)%nat ->
  adapter_active s ->
  payload_valid s = true ->
  decoded_type chan s = ControllerType.None ->
  let pad := fst (Input wants_determinism chan s) in
  (wants_determinism = false ->
     pad = mkPad PAD_ERR_STATUS 0 0 0 0 0 0
     /\ pressed PAD_ERR_STATUS pad = true
     /\ pressed PAD_GET_ORIGIN pad = false
     /\ Forall (fun m => pressed m pad = false) button_masks)
  /\ (wants_determinism = true -> pad = GCPadStatus_default).
Proof.
  intros Hok Hwf Hchan Hact Hv Hty pad. subst pad.
  assert (Hlen : (chan < length (s_controller_type s))%nat)
    by (by rewrite (wf_type_length s Hwf)).
  rewrite (Input_active _ _ _ Hact Hv Hlen), Hty. cbn [fst].
  change (ControllerType.None =? ControllerType.None) with true. cbn [negb].
  split; intros ->; [| reflexivity].
  unpack_masks Hok. unfold error_pad. cbn [negb].
  rewrite u16_small by lia.
  unfold button_masks, pressed. cbn [button].
  split; [reflexivity |]. split; [| split].
  - rewrite Z.land_diag. destruct (Z.eqb_spec PAD_ERR_STATUS 0); [lia | done].
  - replace (Z.land PAD_ERR_STATUS PAD_GET_ORIGIN) with 0 by (symmetry; mask_side). done.
  - repeat constructor;
      match goal with
      | |- negb (Z.land ?a ?b =? 0) = false =>
          replace (Z.land a b) with 0 by (symmetry; mask_side); reflexivity
      end.
Qed.

(** Raising the origin flag adds its bit to the button member and changes
    nothing else. *)
Lemma connected_pad_origin chan payload :
  pad_masks_ok = true ->
  button (connected_pad chan true payload)
  = Z.lor (button (connected_pad chan false payload)) PAD_GET_ORIGIN.
Proof.
  intros Hok. unpack_masks Hok. unfold connected_pad. cbv zeta.
  match goal with
  | |- context [or_button true PAD_GET_ORIGIN ?p] => set (Y := p)
  end.
  assert (HY : 0 <= button Y < 2 ^ 16).
  { subst Y. repeat apply button_or_button_range. simpl. lia. }
  clearbody Y. destruct Y as [b ? ? ? ? ? ?]. cbn [or_button button] in *.
  rewrite u16_lor, (u16_small PAD_GET_ORIGIN), (u16_small b) by lia.
  reflexivity.
Qed.

Lemma connected_pad_sticks chan o o' payload :
  (stickX (connected_pad chan o payload), stickY (connected_pad chan o payload),
   substickX (connected_pad chan o payload), substickY (connected_pad chan o payload),
   triggerLeft (connected_pad chan o payload), triggerRight (connected_pad chan o payload))
  = (stickX (connected_pad chan o' payload), stickY (connected_pad chan o' payload),
     substickX (connected_pad chan o' payload), substickY (connected_pad chan o' payload),
     triggerLeft (connected_pad chan o' payload), triggerRight (connected_pad chan o' payload)).
Proof. reflexivity. Qed.

Lemma error_pad_no_origin wants_determinism :
  pad_masks_ok = true -> pressed PAD_GET_ORIGIN (error_pad wants_determinism) = false.
Proof.
  intros Hok. unfold error_pad. destruct wants_determinism; [done |]. cbn [negb].
  unpack_masks Hok. unfold pressed. cbn [button]. rewrite u16_small by lia.
  replace (Z.land PAD_ERR_STATUS PAD_GET_ORIGIN) with 0 by (symmetry; mask_side). done.
Qed.

(** The state reached by a decoding [Input] is a fixed point of [Input]. *)
Lemma Input_active_again wants_determinism chan s :
  adapter_active s -> payload_valid s = true ->
  (chan < length (s_controller_type s))%nat ->
  let s1 := set_controller_type (<[chan := decoded_type chan s]> (s_controller_type s)) s in
  Input wants_determinism chan s1 =
    (if negb (decoded_type chan s =? ControllerType.None) then
       connected_pad chan false (s_controller_payload s)
     else error_pad wants_determinism, s1).
Proof.
  intros Hact Ev Hlen s1.
  assert (Hlen1 : (chan < length (s_controller_type s1))%nat).
  { subst s1. cbn. by rewrite length_insert. }
  rewrite (Input_active wants_determinism chan s1 Hact Ev Hlen1).
  change (decoded_type chan s1) with (decoded_type chan s).
  change (s_controller_payload s1) with (s_controller_payload s).
  change (s_controller_type s1) with (<[chan := decoded_type chan s]> (s_controller_type s)).
  rewrite list_lookup_total_insert_eq by done.
  rewrite list_insert_insert_eq.
  destruct (decoded_type chan s =? ControllerType.None); reflexivity.
Qed.

(** C3: two calls of [Input] for a port over the same buffer decode the
    same pad state, and the second does not raise the one-shot origin flag
    again.  The second call leaves the state as the first left it and never
    raises the origin flag; the two pad states are equal but for that flag,
    which is a bit of the button member (the same button state with the
    origin flag unset, as the scenario of the specification has it), hence
    equal when the first call did not raise it, and every later call returns
    what the second returned.  The origin flag is raised exactly by a call
    that decodes a type other than [None] while the tracked type of the port
    is [None]. *)
Theorem Input_twice_same_payload wants_determinism chan s :
  pad_masks_ok = true ->
  state_wf s ->
  (chan < MAX_SI_CHANNELS)%nat ->
  let pad1 := fst (Input wants_determinism chan s) in
  let s1 := snd (Input wants_determinism chan s) in
  let pad2 := fst (Input wants_determinism chan s1) in
  let s2 := snd (Input wants_determinism chan s1) in
  s2 = s1
  /\ Input wants_determinism chan s2 = (pad2, s2)
  /\ pressed PAD_GET_ORIGIN pad2 = false
  /\ button pad1
     = (if pressed PAD_GET_ORIGIN pad1 then Z.lor (button pad2) PAD_GET_ORIGIN
        else button pad2)
  /\ (stickX pad2, stickY pad2, substickX pad2, substickY pad2,
      triggerLeft pad2, triggerRight pad2)
     = (stickX pad1, stickY pad1, substickX pad1, substickY pad1,
        triggerLeft pad1, triggerRight pad1)
  /\ (pressed PAD_GET_ORIGIN pad1 = false -> pad2 = pad1)
  /\ (pressed PAD_GET_ORIGIN pad1 = true <->
      adapter_active s /\ payload_valid s = true
      /\ decoded_type chan s <> ControllerType.None
      /\ s_controller_type s !!! chan = ControllerType.None).
Proof.
  intros Hok Hwf Hchan pad1 s1 pad2 s2.
  assert (Hlen : (chan < length (s_controller_type s))%nat)
    by (by rewrite (wf_type_length s Hwf)).
  assert (Hdec : adapter_active s /\ payload_valid s = true
                 \/ Input wants_determinism chan s = (GCPadStatus_default, s)
                    /\ ~ (adapter_active s /\ payload_valid s = true)).
  { destruct (UseAdapter s) eqn:EU; cycle 1.
    { right. split; [apply Input_inactive; auto |]. intros [(HU & _) _]. congruence. }
    destruct (s_handle s) as [h|] eqn:Eh; cycle 1.
    { right. split; [apply Input_inactive; auto |]. intros [(_ & Hh & _) _]. congruence. }
    destruct (Z.eqb_spec (s_status s) ADAPTER_DETECTED) as [Es | Es]; cycle 1.
    { right. split; [apply Input_inactive; auto |]. intros [(_ & _ & Hs) _]. congruence. }
    destruct (payload_valid s) eqn:Ev; cycle 1.
    { right. split; [apply Input_inactive; auto |]. intros [_ Hv]. congruence. }
    left. repeat split; congruence. }
  destruct Hdec as [[Hact Ev] | [E Hn]].
  2:{ subst pad1 s1 pad2 s2. rewrite !E. cbn [fst snd]. rewrite !E. cbn [fst snd].
      split; [reflexivity |]. split; [exact E |]. split; [reflexivity |].
      split; [reflexivity |]. split; [reflexivity |]. split; [reflexivity |].
      split; [discriminate |]. intros (Ha & Hv & _). exfalso. apply Hn. by split. }
  pose proof (Input_active wants_determinism chan s Hact Ev Hlen) as E1.
  pose proof (Input_active_again wants_determinism chan s Hact Ev Hlen) as E2.
  cbv zeta in E2.
  subst pad1 s1 pad2 s2. rewrite E1. cbn [fst snd]. rewrite E2. cbn [fst snd].
  rewrite E2.
  split; [reflexivity |]. split; [reflexivity |].
  pose proof (connected_pad_flags chan false (s_controller_payload s) Hok)
    as (_&_&_&_&_&_&_&_&_&_&_&_& Ho2 & _).
  cbv zeta in Ho2.
  destruct (Z.eqb_spec (decoded_type chan s) ControllerType.None) as [Et | Et];
    cbn [negb andb].
  - rewrite (error_pad_no_origin _ Hok).
    split; [reflexivity |]. split; [reflexivity |]. split; [reflexivity |].
    split; [reflexivity |].
    split; [discriminate |]. intros (_ & _ & Hne & _). by destruct Hne.
  - pose proof (connected_pad_flags chan
                  (s_controller_type s !!! chan =? ControllerType.None)
                  (s_controller_payload s) Hok)
      as (_&_&_&_&_&_&_&_&_&_&_&_& Ho1 & _).
    cbv zeta in Ho1. rewrite Ho1.
    split; [exact Ho2 |].
    split.
    { destruct (s_controller_type s !!! chan =? ControllerType.None); [| reflexivity].
      by apply connected_pad_origin. }
    split; [apply connected_pad_sticks |].
    split; [by intros -> |].
    split.
    + intros Hz. apply Z.eqb_eq in Hz. exact (conj Hact (conj Ev (conj Et Hz))).
    + intros (_ & _ & _ & Hz). apply Z.eqb_eq. exact Hz.
Qed.
End Decode.

(** The scenario of the specification: port 0 wired, bit 0 of the first
    button byte set.  [Input 0] reports A and nothing else among the
    buttons, raises the origin flag, returns the stick bytes, and the port is
    connected afterwards. *)
Lemma Input_decodes_wired_port_witness :
  let r := @Input dolphin_headers false 0 wired_A_session in
  pressed (@PAD_BUTTON_A dolphin_headers) (fst r) = true
  /\ pressed (@PAD_BUTTON_B dolphin_headers) (fst r) = false
  /\ pressed (@PAD_BUTTON_START dolphin_headers) (fst r) = false
  /\ pressed (@PAD_GET_ORIGIN dolphin_headers) (fst r) = true
  /\ s_controller_payload wired_A_session !! 4%nat = Some (stickX (fst r))
  /\ DeviceConnected 0 (snd r) = true.
Proof.
  intros r.
  destruct (@Input_decodes_wired_port dolphin_headers false 0 wired_A_session)
    as ((HA & HB & _ & _ & _ & _ & _ & _ & HS & _ & _ & _ & HO & _) & (HX & _) & HC).
  - reflexivity.
  - solve_state_wf.
  - unfold MAX_SI_CHANNELS. lia.
  - split; [reflexivity | split; [discriminate | reflexivity]].
  - reflexivity.
  - reflexivity.
  - subst r. rewrite HA, HB, HS, HO. repeat split; try reflexivity; assumption.
Defined.

(** Port 1 of a payload with no controller, outside determinism mode. *)
Lemma Input_missing_controller_error_status_witness :
  let pad := fst (@Input dolphin_headers false 1 no_controller_session) in
  pad = mkPad 0x8000 0 0 0 0 0 0
  /\ pressed (@PAD_ERR_STATUS dolphin_headers) pad = true
  /\ pressed (@PAD_GET_ORIGIN dolphin_headers) pad = false
  /\ Forall (fun m => pressed m pad = false) (@button_masks dolphin_headers).
Proof.
  intros pad.
  apply (proj1 (@Input_missing_controller_error_status dolphin_headers false 1
                  no_controller_session
                  ltac:(reflexivity) ltac:(solve_state_wf)
                  ltac:(unfold MAX_SI_CHANNELS; lia)
                  ltac:(split; [reflexivity | split; [discriminate | reflexivity]])
                  ltac:(reflexivity) ltac:(reflexivity))).
  reflexivity.
Defined.

(** Two calls for port 0 in the scenario of the specification: the first
    raises the origin flag, the second does not, and they agree otherwise. *)
Lemma Input_twice_same_payload_witness :
  let pad1 := fst (@Input dolphin_headers false 0 wired_A_session) in
  let s1 := snd (@Input dolphin_headers false 0 wired_A_session) in
  let pad2 := fst (@Input dolphin_headers false 0 s1) in
  let s2 := snd (@Input dolphin_headers false 0 s1) in
  s2 = s1
  /\ @Input dolphin_headers false 0 s2 = (pad2, s2)
  /\ pressed (@PAD_GET_ORIGIN dolphin_headers) pad2 = false
  /\ button pad1
     = (if pressed (@PAD_GET_ORIGIN dolphin_headers) pad1
        then Z.lor (button pad2) (@PAD_GET_ORIGIN dolphin_headers)
        else button pad2).
Proof.
  intros pad1 s1 pad2 s2.
  destruct (@Input_twice_same_payload dolphin_headers false 0 wired_A_session)
    as (H1 & H2 & H3 & H4 & _).
  - reflexivity.
  - solve_state_wf.
  - unfold MAX_SI_CHANNELS. lia.
  - exact (conj H1 (conj H2 (conj H3 H4))).
Defined.

(** ** History of events *)

Section Trace.

Lemma count_event_snoc p tr e :
  count_event p (tr ++ [e]) = (count_event p tr + (if p e then 1 else 0))%nat.
Proof.
  unfold count_event. rewrite filter_app, length_app. f_equal.
  rewrite filter_cons. by destruct (p e).
Qed.

Lemma interrupt_writes_snoc tr e :
  interrupt_writes (tr ++ [e]) =
  interrupt_writes tr ++
    match e with InterruptTransferOut endpoint data => [(endpoint, data)] | _ => [] end.
Proof. unfold interrupt_writes. rewrite omap_app. f_equal. by destruct e. Qed.

End Trace.

(** ** Output *)

Section OutputProperties.
Context `{H : Headers}.

(** The state [Output] produces when it stages a command. *)
Lemma Output_staged chan rumble_command s :
  UseAdapter s = true ->
  s_config_rumble_enabled s !!! chan = true ->
  s_handle s <> None ->
  rumble_command <> s_controller_rumble s !!! chan ->
  s_controller_type s !!! chan <> ControllerType.Wireless ->
  Output chan rumble_command s =
    rumble_data_available_Set
      (set_controller_rumble (<[chan := rumble_command]> (s_controller_rumble s)) s).
Proof.
  intros HU He Hh Hc Ht. unfold Output. rewrite HU, He.
  destruct (s_handle s); [| done]. cbn [negb orb is_nullptr].
  destruct (Z.eqb_spec rumble_command (s_controller_rumble s !!! chan)); [done |].
  destruct (Z.eqb_spec (s_controller_type s !!! chan) ControllerType.Wireless); done.
Qed.

Lemma Output_skipped chan rumble_command s :
  UseAdapter s = false \/ s_config_rumble_enabled s !!! chan = false
  \/ s_handle s = None
  \/ rumble_command = s_controller_rumble s !!! chan
  \/ s_controller_type s !!! chan = ControllerType.Wireless ->
  Output chan rumble_command s = s.
Proof.
  intros Hs. unfold Output.
  destruct (UseAdapter s); [| done].
  destruct (s_config_rumble_enabled s !!! chan); [| done].
  destruct (s_handle s); [| done]. cbn [negb orb is_nullptr].
  destruct (Z.eqb_spec rumble_command (s_controller_rumble s !!! chan)); [done |].
  destruct (Z.eqb_spec (s_controller_type s !!! chan) ControllerType.Wireless); [done |].
  destruct Hs as [? | [? | [? | [? | ?]]]]; done.
Qed.

(** C4, as the code has it.  [Output] changes nothing when the adapter is not
    configured for use, rumble is not enabled for the port, no device handle
    is open, the command equals the byte staged for the port, or the tracked
    controller type of the port is [Wireless].  In every other case it
    stores the command as the staged byte of the port and signals the write
    thread once.  A second identical call changes nothing, so two
    consecutive identical calls stage one command and signal once, and the
    write thread, once running, sends one 5-byte payload that carries the
    command for the port. *)
Theorem Output_stages_once chan rumble_command s :
  (UseAdapter s = false \/ s_config_rumble_enabled s !!! chan = false
   \/ s_handle s = None
   \/ rumble_command = s_controller_rumble s !!! chan
   \/ s_controller_type s !!! chan = ControllerType.Wireless ->
   Output chan rumble_command s = s)
  /\ ((chan < length (s_controller_rumble s))%nat ->
      Output chan rumble_command (Output chan rumble_command s)
      = Output chan rumble_command s)
  /\ (UseAdapter s = true ->
      s_config_rumble_enabled s !!! chan = true ->
      s_handle s <> None ->
      rumble_command <> s_controller_rumble s !!! chan ->
      s_controller_type s !!! chan <> ControllerType.Wireless ->
      (chan < length (s_controller_rumble s))%nat ->
      let s1 := Output chan rumble_command s in
      let s2 := Output chan rumble_command s1 in
      s1 = rumble_data_available_Set
             (set_controller_rumble (<[chan := rumble_command]> (s_controller_rumble s)) s)
      /\ s2 = s1
      /\ s_controller_rumble s2 !!! chan = rumble_command
      /\ (forall other, other <> chan ->
            s_controller_rumble s2 !!! other = s_controller_rumble s !!! other)
      /\ s_rumble_data_available s2 = true
      /\ count_event is_RumbleDataAvailable (s_trace s2)
         = S (count_event is_RumbleDataAvailable (s_trace s))
      /\ (s_adapter_thread_running s = true ->
          let s3 := snd (Write_iteration s2) in
          interrupt_writes (s_trace s3)
          = interrupt_writes (s_trace s) ++ [(s_endpoint_out s, rumble_payload s2)]
          /\ s_rumble_data_available s3 = false)).
Proof.
  assert (Hidem : (chan < length (s_controller_rumble s))%nat ->
                  Output chan rumble_command (Output chan rumble_command s)
                  = Output chan rumble_command s).
  { intros Hlen.
    assert (Hskip : Output chan rumble_command s = s ->
                    Output chan rumble_command (Output chan rumble_command s)
                    = Output chan rumble_command s)
      by (intros E; by rewrite !E).
    destruct (UseAdapter s) eqn:HU;
      [| apply Hskip, Output_skipped; by left].
    destruct (s_config_rumble_enabled s !!! chan) eqn:He;
      [| apply Hskip, Output_skipped; right; by left].
    destruct (s_handle s) as [h|] eqn:Hh;
      [| apply Hskip, Output_skipped; right; right; by left].
    destruct (Z.eq_dec rumble_command (s_controller_rumble s !!! chan)) as [Hc | Hc];
      [apply Hskip, Output_skipped; right; right; right; by left |].
    destruct (Z.eq_dec (s_controller_type s !!! chan) ControllerType.Wireless) as [Ht | Ht];
      [apply Hskip, Output_skipped; right; right; right; by right |].
    rewrite (Output_staged chan rumble_command s) by (auto; congruence).
    apply Output_skipped. right; right; right; left.
    cbn. by rewrite list_lookup_total_insert_eq. }
  split; [apply Output_skipped |]. split; [exact Hidem |].
  intros HU He Hh Hc Ht Hlen s1 s2.
  assert (E1 : s1 = rumble_data_available_Set
                      (set_controller_rumble
                         (<[chan := rumble_command]> (s_controller_rumble s)) s))
    by (by apply Output_staged).
  assert (E2 : s2 = s1) by (by apply Hidem).
  split; [exact E1 |]. split; [exact E2 |].
  rewrite E2, E1.
  split; [cbn; by rewrite list_lookup_total_insert_eq |].
  split; [intros other Hne; cbn; by rewrite list_lookup_total_insert_ne |].
  split; [reflexivity |].
  split.
  { change (s_trace (rumble_data_available_Set ?x)) with (s_trace s ++ [RumbleDataAvailable]).
    rewrite count_event_snoc. cbn [is_RumbleDataAvailable]. lia. }
  intros Hrun s3. subst s3. unfold Write_iteration.
  change (s_adapter_thread_running (set_rumble_data_available false ?x))
    with (s_adapter_thread_running s).
  rewrite Hrun. cbn [negb snd]. split; [| reflexivity].
  change (s_trace (emit ?e (set_rumble_data_available false (rumble_data_available_Set ?x))))
    with ((s_trace s ++ [RumbleDataAvailable]) ++ [e]).
  rewrite !interrupt_writes_snoc, app_nil_r. reflexivity.
Qed.

End OutputProperties.

(** The scenario of the specification: [Output 0 5] twice in a claimed
    session.  One command is staged, the write thread is signalled once and
    sends one payload, [0x11 0x05 0x00 0x00 0x00]. *)
Lemma Output_stages_once_witness :
  let s := no_controller_session in
  let s2 := @Output dolphin_headers 0 5 (@Output dolphin_headers 0 5 s) in
  s_controller_rumble s2 = [5; 0; 0; 0]
  /\ count_event is_RumbleDataAvailable (s_trace s2) = 1%nat
  /\ interrupt_writes (s_trace (snd (Write_iteration s2))) = [(0x02, [0x11; 5; 0; 0; 0])]
  /\ s_rumble_data_available (snd (Write_iteration s2)) = false.
Proof.
  intros s s2.
  destruct (proj2 (proj2 (@Output_stages_once dolphin_headers 0 5 s)))
    as (_ & E2 & _ & _ & _ & Hcount & Hwrite).
  - reflexivity.
  - reflexivity.
  - discriminate.
  - discriminate.
  - discriminate.
  - simpl. lia.
  - destruct (Hwrite eq_refl) as [Hw Hav].
    split; [reflexivity |]. split; [exact Hcount |]. split; [exact Hw | exact Hav].
Defined.

(** C4 as stated fails: the adapter is configured for use, rumble is enabled
    for port 0, the command differs from the staged byte and the port is not
    wireless, yet with no device handle open [Output 0 5] stages nothing and
    signals nothing. *)
Lemma Output_without_session_stages_nothing :
  let s := configured_without_session in
  @UseAdapter dolphin_headers s = true
  /\ s_config_rumble_enabled s !!! 0%nat = true
  /\ 5 <> s_controller_rumble s !!! 0%nat
  /\ s_controller_type s !!! 0%nat <> ControllerType.Wireless
  /\ @Output dolphin_headers 0 5 s = s
  /\ s_controller_rumble (@Output dolphin_headers 0 5 s) !!! 0%nat <> 5
  /\ count_event is_RumbleDataAvailable (s_trace (@Output dolphin_headers 0 5 s)) = 0%nat.
Proof.
  intros s. repeat split; try reflexivity; discriminate.
Qed.

(** ** Reset *)

Section ResetProperties.

(** [Reset] past its two guards. *)
Lemma Reset_detected s :
  s_init_mutex s = false ->
  s_status s = ADAPTER_DETECTED ->
  count_event is_DetectCallback (s_trace (Reset s))
  = (count_event is_DetectCallback (s_trace s) + (if s_detect_callback s then 1 else 0))%nat
  /\ interrupt_writes (s_trace (Reset s)) = interrupt_writes (s_trace s)
  /\ s_controller_type (Reset s) = fill ControllerType.None (s_controller_type s)
  /\ s_status (Reset s) = NO_ADAPTER_DETECTED
  /\ s_handle (Reset s) = None
  /\ s_controller_rumble (Reset s) = s_controller_rumble s
  /\ s_endpoint_out (Reset s) = s_endpoint_out s.
Proof.
  intros Hm Hs. unfold Reset, Write_iteration. rewrite Hm, Hs, Z.eqb_refl. cbn [negb].
  destruct s as [st hd ct cr cp cw sz tr da im dr cb lc ei eo li ci sd re tc].
  change (im = false) in Hm.
  destruct tr, hd, cb; state_cbv; cbn [snd]; state_cbv;
    rewrite ?count_event_snoc, ?interrupt_writes_snoc, ?app_nil_r;
    cbn [is_DetectCallback]; repeat split; try assumption; lia.
Qed.

(** [Reset] when a guard stops it. *)
Lemma Reset_skipped s :
  s_init_mutex s = true \/ s_status s <> ADAPTER_DETECTED -> Reset s = s.
Proof.
  intros Hg. unfold Reset. destruct (s_init_mutex s); [done |].
  destruct (Z.eqb_spec (s_status s) ADAPTER_DETECTED); [| done].
  by destruct Hg.
Qed.

(** C5, as the code has it.  [Reset] goes by the status, not by the handle.
    While the status is not "detected" (no session has been claimed, or a
    [Reset] has completed) [Reset] changes nothing and does not run the
    callback; neither does it while another thread holds [s_init_mutex].
    With the status "detected" and [s_init_mutex] free, [Reset] leaves every
    port disconnected, the status not detected and the handle closed, and
    runs the registered callback, if there is one, exactly once; a [Reset]
    that follows changes nothing and runs no callback. *)
Theorem Reset_closes_session s :
  state_wf s ->
  (s_status s <> ADAPTER_DETECTED -> Reset s = s)
  /\ (s_init_mutex s = true -> Reset s = s)
  /\ (s_status s = ADAPTER_DETECTED -> s_init_mutex s = false ->
      (forall port, (port < MAX_SI_CHANNELS)%nat -> DeviceConnected port (Reset s) = false)
      /\ s_status (Reset s) = NO_ADAPTER_DETECTED
      /\ ~ session_open (Reset s)
      /\ count_event is_DetectCallback (s_trace (Reset s))
         = (count_event is_DetectCallback (s_trace s)
            + (if s_detect_callback s then 1 else 0))%nat
      /\ Reset (Reset s) = Reset s).
Proof.
  intros Hwf. unfold session_open. split; [| split].
  - intros Hn. apply Reset_skipped. by right.
  - intros Hm. apply Reset_skipped. by left.
  - intros Ho Hm.
    destruct (Reset_detected s Hm Ho) as (Hcb & _ & Hty & Hst & Hh & _ & _).
    split; [| split; [exact Hst | split; [rewrite Hh; intros Hx; by apply Hx | split; [exact Hcb |]]]].
    + intros port Hp. unfold DeviceConnected. rewrite Hty.
      rewrite fill_lookup_total; [reflexivity |].
      pose proof (wf_type_length s Hwf) as Hl. unfold ControllerType.t in *. lia.
    + apply Reset_skipped. right. rewrite Hst. discriminate.
Qed.

End ResetProperties.

(** A claimed session with port 0 tracked and [s_init_mutex] free, and the
    configured driver with no session. *)
Lemma Reset_closes_session_witness :
  Reset configured_without_session = configured_without_session
  /\ ((forall port, (port < MAX_SI_CHANNELS)%nat ->
         DeviceConnected port (Reset (tracked_session false)) = false)
      /\ s_status (Reset (tracked_session false)) = NO_ADAPTER_DETECTED
      /\ ~ session_open (Reset (tracked_session false))
      /\ count_event is_DetectCallback (s_trace (Reset (tracked_session false))) = 1%nat
      /\ Reset (Reset (tracked_session false)) = Reset (tracked_session false)).
Proof.
  split.
  - apply (proj1 (Reset_closes_session configured_without_session
                    ltac:(solve_state_wf))).
    discriminate.
  - apply (proj2 (proj2 (Reset_closes_session (tracked_session false)
                           ltac:(solve_state_wf)))).
    + reflexivity.
    + reflexivity.
Defined.

(** C5 as stated fails: a session is open and port 0 is tracked as wired,
    another thread holds [s_init_mutex]; [Reset] returns at [try_lock], and
    [DeviceConnected 0] still answers [true]. *)
Lemma Reset_skipped_when_mutex_held :
  let s := tracked_session true in
  session_open s
  /\ s_status s = ADAPTER_DETECTED
  /\ Reset s = s
  /\ DeviceConnected 0 (Reset s) = true.
Proof.
  intros s. split; [discriminate |]. repeat split; reflexivity.
Qed.

(** ** The output endpoint during a session *)

Section OutputEndpoint.
Context `{H : Headers}.

Lemma rumble_payload_is_rumble_write s :
  rumble_ok s -> is_rumble_write (s_endpoint_out s) (s_endpoint_out s, rumble_payload s).
Proof.
  intros [Hlen Hu8]. unfold rumble_payload.
  assert (Hb : forall i, (i < 4)%nat -> is_u8 (s_controller_rumble s !!! i)).
  { intros i Hi. apply (Forall_lookup_total_1 _ _ _ Hu8). unfold MAX_SI_CHANNELS in Hlen. lia. }
  eexists _, _, _, _. repeat split; try reflexivity; apply Hb; lia.
Qed.

Lemma writes_nothing s s' :
  rumble_ok s ->
  s_endpoint_out s' = s_endpoint_out s ->
  s_controller_rumble s' = s_controller_rumble s ->
  interrupt_writes (s_trace s') = interrupt_writes (s_trace s) ->
  writes_at_most_rumble s s'.
Proof.
  intros Hok He Hr Hw. unfold writes_at_most_rumble, rumble_ok. rewrite Hr.
  split; [exact He | split; [exact Hok | by left]].
Qed.

Lemma Write_iteration_effect s :
  rumble_ok s -> writes_at_most_rumble s (snd (Write_iteration s)).
Proof.
  intros Hok. unfold Write_iteration.
  change (s_adapter_thread_running (set_rumble_data_available false s))
    with (s_adapter_thread_running s).
  destruct (s_adapter_thread_running s); cbn [negb snd].
  - split; [reflexivity | split; [exact Hok | right]].
    exists (s_endpoint_out s, rumble_payload s).
    split; [by apply rumble_payload_is_rumble_write |].
    change (s_trace (emit ?e (set_rumble_data_available false s))) with (s_trace s ++ [e]).
    by rewrite interrupt_writes_snoc.
  - by apply writes_nothing.
Qed.

Lemma Input_effect wants_determinism chan s :
  rumble_ok s -> writes_at_most_rumble s (snd (Input wants_determinism chan s)).
Proof.
  intros Hok.
  destruct (Input_state wants_determinism chan s) as [-> | ->]; by apply writes_nothing.
Qed.

Lemma Output_effect chan rumble_command s :
  is_u8 rumble_command -> rumble_ok s ->
  writes_at_most_rumble s (Output chan rumble_command s).
Proof.
  intros Hc Hok. unfold Output. case_ifs; try (by apply writes_nothing).
  destruct Hok as [Hlen Hu8].
  split; [reflexivity | split; [| left]].
  - split; cbn.
    + by rewrite length_insert.
    + by apply Forall_insert.
  - change (s_trace (rumble_data_available_Set ?x)) with (s_trace s ++ [RumbleDataAvailable]).
    by rewrite interrupt_writes_snoc, app_nil_r.
Qed.

Lemma fill_zero_u8 (l : list Z) : Forall is_u8 (fill 0 l).
Proof.
  unfold fill. apply Forall_fmap, Forall_forall. intros x _. unfold is_u8. simpl. lia.
Qed.

Lemma ResetRumbleLockNeeded_effect s :
  rumble_ok s -> writes_at_most_rumble s (ResetRumbleLockNeeded s).
Proof.
  intros Hok. unfold ResetRumbleLockNeeded.
  destruct (negb (UseAdapter s)
            || (is_nullptr (s_handle s) || negb (s_status s =? ADAPTER_DETECTED)));
    [by apply writes_nothing |].
  destruct Hok as [Hlen Hu8].
  set (s' := set_controller_rumble (fill 0 (s_controller_rumble s)) s).
  assert (Hok' : rumble_ok s').
  { split; cbn; [by rewrite fill_length | apply fill_zero_u8]. }
  cbv zeta.
  split; [reflexivity | split; [exact Hok' | right]].
  exists (s_endpoint_out s', rumble_payload s').
  split; [by apply (rumble_payload_is_rumble_write s') |].
  change (s_trace (emit ?e s')) with (s_trace s ++ [e]).
  by rewrite interrupt_writes_snoc.
Qed.

Lemma ResetRumble_effect s :
  rumble_ok s -> writes_at_most_rumble s (ResetRumble s).
Proof.
  intros Hok. unfold ResetRumble.
  destruct (s_init_mutex s); [by apply writes_nothing |].
  by apply ResetRumbleLockNeeded_effect.
Qed.


Lemma Init_effect env s :
  rumble_ok s -> writes_at_most_rumble s (Init env s).
Proof.
  intros Hok. apply writes_nothing; [exact Hok | | |];
    unfold Init, StartScanThread; case_ifs; try reflexivity;
    destruct s; state_cbv; rewrite ?interrupt_writes_snoc, ?app_nil_r; reflexivity.
Qed.

Lemma Reset_effect s :
  rumble_ok s -> writes_at_most_rumble s (Reset s).
Proof.
  intros Hok.
  destruct (s_init_mutex s) eqn:Hm;
    [rewrite Reset_skipped by (by left); by apply writes_nothing |].
  destruct (Z.eq_dec (s_status s) ADAPTER_DETECTED) as [Hs | Hs];
    [| rewrite Reset_skipped by (by right); by apply writes_nothing].
  destruct (Reset_detected s Hm Hs) as (_ & Hw & _ & _ & _ & Hr & He).
  by apply writes_nothing.
Qed.

(** Every step of a session keeps the output endpoint and writes nothing or
    one rumble payload to it. *)
Lemma session_step_effect s s' :
  session_step s s' -> rumble_ok s -> writes_at_most_rumble s s'.
Proof.
  intros Hstep Hok. destruct Hstep.
  - by apply Write_iteration_effect.
  - by apply writes_nothing.
  - by apply Input_effect.
  - by apply Output_effect.
  - by apply ResetRumble_effect.
  - by apply writes_nothing.
  - by apply Init_effect.
  - by apply Reset_effect.
Qed.

(** The writes of a run: those of its first state followed by rumble
    payloads only. *)
Lemma session_run_writes s s' :
  session_run s s' -> rumble_ok s ->
  s_endpoint_out s' = s_endpoint_out s
  /\ rumble_ok s'
  /\ exists rumbles,
       interrupt_writes (s_trace s') = interrupt_writes (s_trace s) ++ rumbles
       /\ Forall (is_rumble_write (s_endpoint_out s)) rumbles.
Proof.
  intros Hrun Hok. induction Hrun as [s | s1 s2 s3 Hrun IH Hstep].
  - split; [reflexivity | split; [exact Hok |]]. exists []. by rewrite app_nil_r.
  - destruct (IH Hok) as (He & Hok2 & rumbles & Hw & Hall).
    destruct (session_step_effect s2 s3 Hstep Hok2) as (He3 & Hok3 & Hw3).
    split; [congruence | split; [exact Hok3 |]].
    destruct Hw3 as [Hw3 | (w & Hrw & Hw3)].
    + exists rumbles. split; [congruence | exact Hall].
    + exists (rumbles ++ [w]). split.
      * rewrite Hw3, Hw. by rewrite app_assoc.
      * apply Forall_app. split; [exact Hall |]. apply Forall_singleton. by rewrite <- He.
Qed.


(** [resolve_endpoints] assigns the two endpoint variables and nothing else. *)
Lemma only_endpoints_differ_refl s : only_endpoints_differ s s.
Proof. reflexivity. Qed.

Lemma only_endpoints_differ_trans s1 s2 s3 :
  only_endpoints_differ s1 s2 -> only_endpoints_differ s2 s3 -> only_endpoints_differ s1 s3.
Proof.
  unfold only_endpoints_differ. intros E12 E23. rewrite E23 at 1. rewrite E12 at 1.
  reflexivity.
Qed.

Lemma foldl_only_endpoints_differ {A} (f : State -> A -> State) (l : list A) :
  (forall s x, only_endpoints_differ s (f s x)) ->
  forall s, only_endpoints_differ s (foldl f s l).
Proof.
  intros Hf. induction l as [| x l IH]; intros s; simpl.
  - apply only_endpoints_differ_refl.
  - eapply only_endpoints_differ_trans; [apply Hf | apply IH].
Qed.

Lemma resolve_endpoints_frame device s :
  only_endpoints_differ s (resolve_endpoints device s).
Proof.
  unfold resolve_endpoints.
  apply foldl_only_endpoints_differ. intros s1 interfaceContainer.
  apply foldl_only_endpoints_differ. intros s2 interface.
  apply foldl_only_endpoints_differ. intros s3 bEndpointAddress.
  destruct (negb (Z.land bEndpointAddress LIBUSB_ENDPOINT_IN =? 0)); reflexivity.
Qed.

(** A successful [CheckDeviceAccess] opens the handle and writes nothing to
    an endpoint. *)
Lemma CheckDeviceAccess_success apple device s s1 :
  CheckDeviceAccess apple device s = (true, s1) ->
  s_handle s1 = Some (dev_id device)
  /\ s_controller_rumble s1 = s_controller_rumble s
  /\ interrupt_writes (s_trace s1) = interrupt_writes (s_trace s).
Proof.
  unfold CheckDeviceAccess. intros E.
  destruct (open_ret device =? 0); cbn [negb] in E.
  2:{ repeat match type of E with
             | context [if ?c then _ else _] => destruct c; cbn [negb] in E
             end; discriminate E. }
  repeat match type of E with
         | context [if ?c then _ else _] => destruct c; cbv beta iota zeta in E
         end;
    try discriminate E; inversion E; subst s1; clear E;
    destruct s; state_cbv; rewrite ?interrupt_writes_snoc, ?app_nil_r; done.
Qed.

(** [AddGCAdapter] writes the init payload first; after it, at most the
    rumble payload of [ResetRumbleLockNeeded]. *)
Lemma AddGCAdapter_writes device s :
  rumble_ok s ->
  let s' := AddGCAdapter device s in
  rumble_ok s'
  /\ exists rumbles,
       interrupt_writes (s_trace s')
       = interrupt_writes (s_trace s) ++ (s_endpoint_out s', init_payload) :: rumbles
       /\ Forall (is_rumble_write (s_endpoint_out s')) rumbles.
Proof.
  intros Hok s'. subst s'. unfold AddGCAdapter.
  pose proof (resolve_endpoints_frame device s) as Hr.
  set (r := resolve_endpoints device s) in *. cbv zeta.
  assert (Htr : s_trace r = s_trace s) by exact (f_equal s_trace Hr).
  assert (Hru : s_controller_rumble r = s_controller_rumble s)
    by exact (f_equal s_controller_rumble Hr).
  clearbody r. clear Hr.
  match goal with
  | |- context [ResetRumbleLockNeeded ?x] => set (a := x)
  end.
  assert (Hoka : rumble_ok a).
  { unfold rumble_ok.
    replace (s_controller_rumble a) with (s_controller_rumble s); [exact Hok |].
    rewrite <- Hru. subst a. by destruct (s_detect_callback _). }
  assert (Hwa : interrupt_writes (s_trace a)
                = interrupt_writes (s_trace s) ++ [(s_endpoint_out r, init_payload)]).
  { rewrite <- Htr. subst a.
    destruct (s_detect_callback _); destruct r; state_cbv;
      rewrite ?interrupt_writes_snoc, ?app_nil_r; reflexivity. }
  assert (Hea : s_endpoint_out a = s_endpoint_out r).
  { subst a. by destruct (s_detect_callback _). }
  destruct (ResetRumbleLockNeeded_effect a Hoka) as (He & Hok' & Hw).
  split; [exact Hok' |]. rewrite He, Hea.
  destruct Hw as [Hw | (w & Hrw & Hw)]; rewrite Hw, Hwa.
  - by exists [].
  - exists [w]. rewrite <- app_assoc. split; [reflexivity |].
    apply Forall_singleton. by rewrite <- Hea.
Qed.


Lemma is_rumble_write_shape endpoint w :
  is_rumble_write endpoint w ->
  fst w = endpoint /\ length (snd w) = 5%nat /\ snd w !! 0%nat = Some 0x11
  /\ snd w <> init_payload.
Proof.
  intros (a & b & c & d & _ & _ & _ & _ & ->). repeat split. discriminate.
Qed.

(** C6: after [CheckDeviceAccess] has claimed the adapter, [AddGCAdapter]
    and whatever the session does afterwards write to the output endpoint
    first the init payload, the single byte [0x13], and then rumble payloads
    only; each of these is five bytes, [0x11] followed by four [u8] command
    bytes, and none is an init payload.  A pass of the write thread sends
    [0x11] followed by the four staged bytes. *)
Theorem init_payload_precedes_rumble apple device s0 s1 s3 :
  state_wf s0 ->
  CheckDeviceAccess apple device s0 = (true, s1) ->
  session_run (AddGCAdapter device s1) s3 ->
  let endpoint := s_endpoint_out (AddGCAdapter device s1) in
  (exists rumbles,
     interrupt_writes (s_trace s3)
     = interrupt_writes (s_trace s0) ++ (endpoint, [0x13]) :: rumbles
     /\ Forall (is_rumble_write endpoint) rumbles
     /\ Forall (fun w => fst w = endpoint /\ length (snd w) = 5%nat
                         /\ snd w !! 0%nat = Some 0x11 /\ snd w <> [0x13]) rumbles)
  /\ (s_adapter_thread_running s3 = true ->
      interrupt_writes (s_trace (snd (Write_iteration s3)))
      = interrupt_writes (s_trace s3)
        ++ [(endpoint,
             [0x11; s_controller_rumble s3 !!! 0%nat; s_controller_rumble s3 !!! 1%nat;
              s_controller_rumble s3 !!! 2%nat; s_controller_rumble s3 !!! 3%nat])]).
Proof.
  intros Hwf Hclaim Hrun endpoint.
  destruct (CheckDeviceAccess_success _ _ _ _ Hclaim) as (_ & Hr1 & Hw1).
  assert (Hok1 : rumble_ok s1).
  { unfold rumble_ok. rewrite Hr1. split; [apply Hwf | apply Hwf]. }
  destruct (AddGCAdapter_writes device s1 Hok1) as (Hok2 & init_rumbles & Hw2 & Hall2).
  destruct (session_run_writes _ _ Hrun Hok2) as (He3 & Hok3 & rumbles & Hw3 & Hall3).
  fold endpoint in Hw2, Hall2, Hall3, He3.
  split.
  - exists (init_rumbles ++ rumbles).
    assert (Hall : Forall (is_rumble_write endpoint) (init_rumbles ++ rumbles))
      by (apply Forall_app; by split).
    split; [| split; [exact Hall |]].
    + rewrite Hw3, Hw2, Hw1, <- app_assoc. reflexivity.
    + eapply Forall_impl; [exact Hall |]. intros w Hw. by apply is_rumble_write_shape.
  - intros Hrunning. unfold Write_iteration.
    change (s_adapter_thread_running (set_rumble_data_available false s3))
      with (s_adapter_thread_running s3).
    rewrite Hrunning. cbn [negb snd].
    change (s_trace (emit ?e (set_rumble_data_available false s3))) with (s_trace s3 ++ [e]).
    rewrite interrupt_writes_snoc.
    change (s_endpoint_out (set_rumble_data_available false s3)) with (s_endpoint_out s3).
    rewrite He3. reflexivity.
Qed.

End OutputEndpoint.

(** The adapter is claimed from the configured driver; then [Output 0 5] and
    one pass of the write thread.  The endpoint [0x02] receives the init
    payload and then rumble payloads. *)
Lemma init_payload_precedes_rumble_witness :
  let s0 := configured_without_session in
  let s1 := snd (@CheckDeviceAccess dolphin_headers false adapter_device s0) in
  let s2 := @AddGCAdapter dolphin_headers adapter_device s1 in
  let s3 := snd (Write_iteration (@Output dolphin_headers 0 5 s2)) in
  exists rumbles,
    interrupt_writes (s_trace s3) = interrupt_writes (s_trace s0) ++ (0x02, [0x13]) :: rumbles
    /\ Forall (is_rumble_write 0x02) rumbles.
Proof.
  intros s0 s1 s2 s3.
  assert (Hrun : @session_run dolphin_headers s2 s3).
  { eapply run_step; [eapply run_step; [apply run_refl |] |].
    - apply (@step_Output dolphin_headers s2 0 5). unfold is_u8. lia.
    - apply (@step_Write dolphin_headers). vm_compute. reflexivity. }
  destruct (@init_payload_precedes_rumble dolphin_headers false adapter_device s0 s1 s3)
    as [(rumbles & Hw & Hall & _) _].
  - solve_state_wf.
  - vm_compute. reflexivity.
  - exact Hrun.
  - exists rumbles. split; [exact Hw | exact Hall].
Defined.

(** ** The session is open exactly when the status is detected *)

Section Coherence.
Context `{H : Headers}.

Lemma coherent_same s s' :
  s_handle s' = s_handle s -> s_status s' = s_status s -> coherent s -> coherent s'.
Proof. unfold coherent. by intros -> ->. Qed.

Lemma Init_coherent env s : coherent s -> coherent (Init env s).
Proof.
  intros Hco. destruct (s_handle s) as [h|] eqn:Hh.
  - unfold Init. by rewrite Hh.
  - assert (Hs : s_status s <> ADAPTER_DETECTED).
    { intros Hs. apply Hco in Hs. by rewrite Hh in Hs. }
    assert (Hh' : s_handle (Init env s) = None).
    { unfold Init, StartScanThread. rewrite Hh. cbn [is_nullptr negb]. case_ifs; exact Hh. }
    assert (Hs' : s_status (Init env s) <> ADAPTER_DETECTED).
    { unfold Init, StartScanThread. rewrite Hh. cbn [is_nullptr negb].
      case_ifs; first [exact Hs | discriminate]. }
    unfold coherent. split; intros Hx; [by rewrite Hh' in Hx | by destruct Hs'].
Qed.

Lemma Reset_coherent s : coherent s -> coherent (Reset s).
Proof.
  intros Hco.
  destruct (s_init_mutex s) eqn:Hm; [by rewrite Reset_skipped by (by left) |].
  destruct (Z.eq_dec (s_status s) ADAPTER_DETECTED) as [Hs | Hs];
    [| by rewrite Reset_skipped by (by right)].
  destruct (Reset_detected s Hm Hs) as (_ & _ & _ & Hst & Hh & _).
  unfold coherent. rewrite Hst, Hh. split; [by intros Hx | discriminate].
Qed.

(** No step of a session separates the handle from the status. *)
Lemma session_step_coherent s s' : session_step s s' -> coherent s -> coherent s'.
Proof.
  intros Hstep Hco. destruct Hstep.
  - apply (coherent_same s); [| | exact Hco];
      unfold Write_iteration; by destruct (negb _).
  - by apply (coherent_same s).
  - destruct (Input_state wants_determinism chan s) as [-> | ->];
      [exact Hco | by apply (coherent_same s)].
  - apply (coherent_same s); [| | exact Hco]; unfold Output; by case_ifs.
  - apply (coherent_same s); [| | exact Hco];
      unfold ResetRumble, ResetRumbleLockNeeded; by case_ifs.
  - by apply (coherent_same s).
  - by apply Init_coherent.
  - by apply Reset_coherent.
Qed.

(** A claimed adapter leaves the session open and the status detected. *)
Lemma claim_coherent apple device s s1 :
  CheckDeviceAccess apple device s = (true, s1) ->
  coherent (AddGCAdapter device s1) /\ session_open (AddGCAdapter device s1).
Proof.
  intros Hclaim.
  destruct (CheckDeviceAccess_success _ _ _ _ Hclaim) as (Hh & _ & _).
  pose proof (resolve_endpoints_frame device s1) as Hr.
  assert (Hhr : s_handle (resolve_endpoints device s1) = s_handle s1)
    by exact (f_equal s_handle Hr).
  assert (Hh2 : s_handle (AddGCAdapter device s1) = Some (dev_id device)).
  { rewrite <- Hh, <- Hhr. unfold AddGCAdapter, ResetRumbleLockNeeded. by case_ifs. }
  assert (Hs2 : s_status (AddGCAdapter device s1) = ADAPTER_DETECTED).
  { unfold AddGCAdapter, ResetRumbleLockNeeded. by case_ifs. }
  unfold coherent, session_open. rewrite Hh2, Hs2. by split.
Qed.

(** [Setup] on a bus whose first device is the adapter: the device is
    claimed, [AddGCAdapter] runs on it, the rest of the bus is not probed and
    [Setup] itself runs no callback. *)
Lemma Setup_claims_first_adapter apple device rest s s1 :
  let s_a := if s_status s <? 0 then set_status NO_ADAPTER_DETECTED s else s in
  let s_b := set_controller_type (fill ControllerType.None (s_controller_type s_a)) s_a in
  let s_c := set_controller_rumble (fill 0 (s_controller_rumble s_b)) s_b in
  CheckDeviceAccess apple device s_c = (true, s1) ->
  Setup apple (device :: rest) s = AddGCAdapter device s1.
Proof.
  intros s_a s_b s_c Hclaim. subst s_a s_b s_c. unfold Setup. cbv zeta.
  cbn [GetDeviceList]. rewrite Hclaim.
  destruct (claim_coherent _ _ _ _ Hclaim) as [Hco Hopen].
  assert (Hs : s_status (AddGCAdapter device s1) = ADAPTER_DETECTED) by (by apply Hco).
  by rewrite Hs.
Qed.

End Coherence.


(** ** Probing and claiming: every outcome *)

Section ProbeOutcomes.
Context `{H : Headers}.

Lemma CheckDeviceAccess_result apple device s :
  LIBUSB_ERROR_ACCESS <> 0 ->
  fst (CheckDeviceAccess apple device s)
  = is_adapter device && (open_ret device =? 0)
    && negb (detach_fails apple device) && (claim_interface_ret device =? 0).
Proof.
  intros Hacc. unfold CheckDeviceAccess, is_adapter, detach_fails.
  destruct (Z.eqb_spec (get_device_descriptor_ret device) 0); cbn [negb andb orb fst snd];
    [| reflexivity].
  destruct (Z.eqb_spec (idVendor device) 1406); cbn [negb andb orb fst snd];
    [| reflexivity].
  destruct (Z.eqb_spec (idProduct device) 823); cbn [negb andb orb fst snd];
    [| reflexivity].
  destruct (Z.eqb_spec (open_ret device) 0) as [E0 | E0]; cbn [negb andb orb fst snd].
  2:{ by destruct (open_ret device =? LIBUSB_ERROR_ACCESS). }
  destruct (Z.eqb_spec (open_ret device) LIBUSB_ERROR_ACCESS) as [Ea | Ea];
    [congruence |].
  destruct (Z.eqb_spec (kernel_driver_active_ret device) 1); cbn [negb andb orb fst snd].
  - destruct apple; cbn [negb andb orb fst snd].
    + by destruct (Z.eqb_spec (claim_interface_ret device) 0).
    + destruct ((detach_kernel_driver_ret device <? 0)
                && negb (detach_kernel_driver_ret device =? LIBUSB_ERROR_NOT_FOUND)
                && negb (detach_kernel_driver_ret device =? LIBUSB_ERROR_NOT_SUPPORTED));
        cbn [negb andb orb fst snd]; [reflexivity |].
      by destruct (Z.eqb_spec (claim_interface_ret device) 0).
  - by destruct (Z.eqb_spec (claim_interface_ret device) 0).
Qed.

(** A device that is not the adapter is left alone. *)
Lemma CheckDeviceAccess_not_adapter apple device s :
  is_adapter device = false -> CheckDeviceAccess apple device s = (false, s).
Proof.
  unfold CheckDeviceAccess, is_adapter. intros Hna.
  destruct (get_device_descriptor_ret device =? 0); cbn [negb andb] in *; [| reflexivity].
  destruct (idVendor device =? 1406); cbn [negb andb orb] in *; [| reflexivity].
  by rewrite Hna.
Qed.

(** What a successful probe leaves besides the open handle. *)
Lemma CheckDeviceAccess_success_state apple device s s1 :
  CheckDeviceAccess apple device s = (true, s1) ->
  s_status s1 = s_status s
  /\ s_detect_callback s1 = s_detect_callback s
  /\ s_controller_type s1 = s_controller_type s
  /\ count_event is_UsbOpen (s_trace s1) = S (count_event is_UsbOpen (s_trace s))
  /\ count_event is_UsbClose (s_trace s1) = count_event is_UsbClose (s_trace s)
  /\ count_event is_DetectCallback (s_trace s1) = count_event is_DetectCallback (s_trace s).
Proof.
  unfold CheckDeviceAccess. intros E.
  destruct (open_ret device =? 0); cbn [negb] in E.
  2:{ repeat match type of E with
             | context [if ?c then _ else _] => destruct c; cbn [negb] in E
             end; discriminate E. }
  repeat match type of E with
         | context [if ?c then _ else _] => destruct c; cbv beta iota zeta in E
         end;
    try discriminate E; inversion E; subst s1; clear E;
    destruct s; state_cbv; rewrite ?count_event_snoc, ?app_nil_r;
    cbn [is_UsbOpen is_UsbClose is_DetectCallback]; repeat split; lia.
Qed.

Lemma CheckDeviceAccess_failure_state apple device s :
  LIBUSB_ERROR_ACCESS <> 0 ->
  is_adapter device = true ->
  fst (CheckDeviceAccess apple device s) = false ->
  let s' := snd (CheckDeviceAccess apple device s) in
  let opened := if (open_ret device =? 0)%Z then 1%nat else 0%nat in
  s_status s' = probe_error apple device
  /\ probe_error apple device <> 0
  /\ s_handle s' = (if open_ret device =? 0 then None else s_handle s)
  /\ count_event is_UsbOpen (s_trace s') = (count_event is_UsbOpen (s_trace s) + opened)%nat
  /\ count_event is_UsbClose (s_trace s') = (count_event is_UsbClose (s_trace s) + opened)%nat
  /\ count_event is_DetectCallback (s_trace s') = count_event is_DetectCallback (s_trace s)
  /\ interrupt_writes (s_trace s') = interrupt_writes (s_trace s)
  /\ s_controller_type s' = s_controller_type s
  /\ s_controller_rumble s' = s_controller_rumble s
  /\ s_detect_callback s' = s_detect_callback s.
Proof.
  intros Hacc Had Hf s' opened. subst s' opened. revert Hf Had.
  unfold CheckDeviceAccess, is_adapter, probe_error, detach_fails.
  destruct (Z.eqb_spec (get_device_descriptor_ret device) 0); cbn [negb andb orb fst snd];
    [| discriminate].
  destruct (Z.eqb_spec (idVendor device) 1406); cbn [negb andb orb fst snd];
    [| discriminate].
  destruct (Z.eqb_spec (idProduct device) 823); cbn [negb andb orb fst snd];
    [| discriminate].
  intros Hf _.
  destruct (Z.eqb_spec (open_ret device) 0) as [E0 | E0]; cbn [negb andb orb fst snd] in *.
  2:{ destruct (open_ret device =? LIBUSB_ERROR_ACCESS); cbn [snd];
        repeat split; try reflexivity; try exact E0; rewrite Nat.add_0_r; reflexivity. }
  destruct (Z.eqb_spec (open_ret device) LIBUSB_ERROR_ACCESS) as [Ea | Ea];
    [congruence |].
  destruct s as [st hd ct cr cp cw sz tr da im dr cb lc ei eo li ci sd re tc].
  destruct (Z.eqb_spec (kernel_driver_active_ret device) 1);
    cbn [negb andb orb fst snd] in *.
  - destruct apple; cbn [negb andb orb fst snd] in *.
    + destruct (Z.eqb_spec (claim_interface_ret device) 0);
        cbn [negb andb orb fst snd] in *; [discriminate Hf |]. clear Hf.
      state_cbv. rewrite ?count_event_snoc, ?interrupt_writes_snoc, ?app_nil_r.
      cbn [is_UsbOpen is_UsbClose is_DetectCallback].
      repeat split; try reflexivity; try assumption; lia.
    + destruct (Z.ltb_spec (detach_kernel_driver_ret device) 0) as [Hlt | Hge];
        cbn [negb andb orb fst snd] in *.
      * destruct (negb (detach_kernel_driver_ret device =? LIBUSB_ERROR_NOT_FOUND)
                  && negb (detach_kernel_driver_ret device =? LIBUSB_ERROR_NOT_SUPPORTED));
          cbn [negb andb orb fst snd] in *.
        -- clear Hf.
           state_cbv. rewrite ?count_event_snoc, ?interrupt_writes_snoc, ?app_nil_r.
           cbn [is_UsbOpen is_UsbClose is_DetectCallback].
           repeat split; try reflexivity; lia.
        -- destruct (Z.eqb_spec (claim_interface_ret device) 0);
             cbn [negb andb orb fst snd] in *; [discriminate Hf |]. clear Hf.
           state_cbv. rewrite ?count_event_snoc, ?interrupt_writes_snoc, ?app_nil_r.
           cbn [is_UsbOpen is_UsbClose is_DetectCallback].
           repeat split; try reflexivity; try assumption; lia.
      * destruct (Z.eqb_spec (claim_interface_ret device) 0);
          cbn [negb andb orb fst snd] in *; [discriminate Hf |]. clear Hf.
        state_cbv. rewrite ?count_event_snoc, ?interrupt_writes_snoc, ?app_nil_r.
        cbn [is_UsbOpen is_UsbClose is_DetectCallback].
        repeat split; try reflexivity; try assumption; lia.
  - destruct (Z.eqb_spec (claim_interface_ret device) 0);
      cbn [negb andb orb fst snd] in *; [discriminate Hf |]. clear Hf.
    state_cbv. rewrite ?count_event_snoc, ?interrupt_writes_snoc, ?app_nil_r.
    cbn [is_UsbOpen is_UsbClose is_DetectCallback].
    repeat split; try reflexivity; try assumption; lia.
Qed.

(** Under the contract of libusb the code of a failed probe is negative. *)
Lemma probe_error_negative apple device :
  libusb_codes_ok device -> probe_error apple device <> 0 -> probe_error apple device < 0.
Proof.
  intros (Ho & Hd & Hc). unfold probe_error.
  destruct (negb (open_ret device =? 0)); [lia |].
  destruct (detach_fails apple device); lia.
Qed.

(** X1: [CheckDeviceAccess] accepts a device exactly when its descriptor
    reads and carries the adapter's vendor and product ids, [libusb_open]
    succeeds, detaching the kernel driver does not fail and the interface is
    claimed; the answer does not depend on the state of the driver.  When it
    accepts, the handle is the device's, the status is left as it was for
    [AddGCAdapter] to set, and the device has been opened once and not
    closed. *)
Theorem CheckDeviceAccess_accepts_exactly apple device s :
  LIBUSB_ERROR_ACCESS <> 0 ->
  fst (CheckDeviceAccess apple device s)
  = is_adapter device && (open_ret device =? 0)
    && negb (detach_fails apple device) && (claim_interface_ret device =? 0)
  /\ (fst (CheckDeviceAccess apple device s) = true ->
      let s1 := snd (CheckDeviceAccess apple device s) in
      s_handle s1 = Some (dev_id device)
      /\ s_status s1 = s_status s
      /\ count_event is_UsbOpen (s_trace s1) = S (count_event is_UsbOpen (s_trace s))
      /\ count_event is_UsbClose (s_trace s1) = count_event is_UsbClose (s_trace s)).
Proof.
  intros Hacc. split; [by apply CheckDeviceAccess_result |].
  intros Hok s1. subst s1.
  destruct (CheckDeviceAccess apple device s) as [ok s1] eqn:E.
  cbn [fst snd] in *. subst ok.
  destruct (CheckDeviceAccess_success _ _ _ _ E) as (Hh & _ & _).
  destruct (CheckDeviceAccess_success_state _ _ _ _ E) as (Hs & _ & _ & Ho & Hc & _).
  done.
Qed.

(** X2: when the probe of a device that is the adapter fails, [s_status]
    holds the code of the libusb call that failed, which is negative, and
    [IsDetected] answers [false] with the message of that code; a handle
    opened by the probe has been closed again, no handle is left open, nothing
    was written to an endpoint, and tracked types and staged rumble bytes are
    as before. *)
Theorem CheckDeviceAccess_failure_reported apple device s :
  LIBUSB_ERROR_ACCESS <> 0 ->
  libusb_codes_ok device ->
  is_adapter device = true ->
  s_handle s = None ->
  fst (CheckDeviceAccess apple device s) = false ->
  let s' := snd (CheckDeviceAccess apple device s) in
  s_status s' = probe_error apple device
  /\ probe_error apple device < 0
  /\ IsDetected true s' = (false, Some (Some (probe_error apple device)))
  /\ s_handle s' = None
  /\ (count_event is_UsbOpen (s_trace s') - count_event is_UsbOpen (s_trace s)
      = count_event is_UsbClose (s_trace s') - count_event is_UsbClose (s_trace s))%nat
  /\ interrupt_writes (s_trace s') = interrupt_writes (s_trace s)
  /\ s_controller_type s' = s_controller_type s
  /\ s_controller_rumble s' = s_controller_rumble s.
Proof.
  intros Hacc Hcodes Had Hh Hf s'.
  destruct (CheckDeviceAccess_failure_state apple device s Hacc Had Hf)
    as (Hs & Hne & Hh' & Ho & Hc & _ & Hw & Ht & Hr & _).
  fold s' in Hs, Hh', Ho, Hc, Hw, Ht, Hr.
  pose proof (probe_error_negative apple device Hcodes Hne) as Hneg.
  repeat split; try assumption.
  - unfold IsDetected. rewrite Hs.
    destruct (Z.leb_spec 0 (probe_error apple device)); [lia | reflexivity].
  - rewrite Hh'. by destruct (open_ret device =? 0).
  - lia.
Qed.

End ProbeOutcomes.

(** The adapter is free and every libusb call on it succeeds. *)
Lemma CheckDeviceAccess_accepts_exactly_witness :
  @CheckDeviceAccess dolphin_headers false adapter_device configured_without_session
  = (true, emit ClaimInterface (emit ControlTransfer (set_handle (Some 1%nat)
             (emit (UsbOpen 1) configured_without_session))))
  /\ s_status (snd (@CheckDeviceAccess dolphin_headers false adapter_device
                      configured_without_session)) = NO_ADAPTER_DETECTED.
Proof.
  split; [reflexivity |].
  apply (proj2 (@CheckDeviceAccess_accepts_exactly dolphin_headers false adapter_device
                  configured_without_session ltac:(simpl; lia)));
    reflexivity.
Defined.

(** Another program holds the interface of the adapter: the probe ends with
    [LIBUSB_ERROR_BUSY] (-6) in the status. *)
Lemma CheckDeviceAccess_failure_reported_witness :
  let s' := snd (@CheckDeviceAccess dolphin_headers false busy_adapter_device
                   configured_without_session) in
  s_status s' = -6 /\ IsDetected true s' = (false, Some (Some (-6))) /\ s_handle s' = None.
Proof.
  pose proof (@CheckDeviceAccess_failure_reported dolphin_headers false busy_adapter_device
                configured_without_session ltac:(simpl; lia)
                ltac:(unfold libusb_codes_ok; simpl; lia)
                ltac:(reflexivity) ltac:(reflexivity) ltac:(reflexivity))
    as (Hs & _ & Hd & Hh & _).
  exact (conj Hs (conj Hd Hh)).
Defined.

(** ** Endpoints *)

Section Endpoints.
Context `{H : Headers}.

Lemma foldl_concat {A B} (f : A -> B -> A) (l : list (list B)) (a : A) :
  foldl f a (concat l) = foldl (fun a x => foldl f a x) a l.
Proof.
  revert a. induction l as [| x l IH]; intros a; simpl; [reflexivity |].
  by rewrite foldl_app, IH.
Qed.

(** The three loops visit the addresses of the descriptor one after another. *)
Lemma resolve_endpoints_flat device s :
  resolve_endpoints device s
  = foldl (fun s bEndpointAddress =>
             if negb (Z.land bEndpointAddress LIBUSB_ENDPOINT_IN =? 0)
             then set_endpoint_in bEndpointAddress s
             else set_endpoint_out bEndpointAddress s)
          s (endpoint_addresses device).
Proof. unfold resolve_endpoints, endpoint_addresses. by rewrite !foldl_concat. Qed.

Lemma resolve_endpoints_last device s :
  s_endpoint_out (resolve_endpoints device s)
  = default (s_endpoint_out s) (last (out_endpoints device))
  /\ s_endpoint_in (resolve_endpoints device s)
     = default (s_endpoint_in s) (last (in_endpoints device)).
Proof.
  rewrite resolve_endpoints_flat. unfold out_endpoints, in_endpoints.
  induction (endpoint_addresses device) as [| a l IH] using rev_ind; [done |].
  rewrite foldl_snoc, !filter_app, !last_app, !filter_singleton by exact [].
  destruct IH as [IHo IHi].
  destruct (Z.eqb_spec (Z.land a LIBUSB_ENDPOINT_IN) 0) as [E | E]; cbn [negb].
  - rewrite decide_True by done. rewrite (decide_False (P := _ <> 0)) by (intros ?; done).
    split; [reflexivity | exact IHi].
  - rewrite decide_False by done. rewrite (decide_True (P := _ <> 0)) by done.
    split; [exact IHo | reflexivity].
Qed.

Lemma AddGCAdapter_endpoint_fields device s :
  s_endpoint_out (AddGCAdapter device s) = s_endpoint_out (resolve_endpoints device s)
  /\ s_endpoint_in (AddGCAdapter device s) = s_endpoint_in (resolve_endpoints device s).
Proof. unfold AddGCAdapter, ResetRumbleLockNeeded. by case_ifs. Qed.

(** X3: [AddGCAdapter] leaves in [s_endpoint_out] the last address of the
    configuration descriptor whose direction bit is clear, and in
    [s_endpoint_in] the last whose direction bit is set; a variable for which
    the descriptor has no address keeps its former value.  Everything
    [AddGCAdapter] writes goes to that output endpoint, and it writes at least
    the init payload.  When the descriptor has an output endpoint, the
    address written to is one of the descriptor's and is not an input
    address. *)
Theorem AddGCAdapter_selects_endpoints device s :
  rumble_ok s ->
  let s' := AddGCAdapter device s in
  s_endpoint_out s' = default (s_endpoint_out s) (last (out_endpoints device))
  /\ s_endpoint_in s' = default (s_endpoint_in s) (last (in_endpoints device))
  /\ (exists payloads,
        payloads <> []
        /\ interrupt_writes (s_trace s')
           = interrupt_writes (s_trace s) ++ map (fun p => (s_endpoint_out s', p)) payloads)
  /\ (out_endpoints device <> [] ->
      Z.land (s_endpoint_out s') LIBUSB_ENDPOINT_IN = 0
      /\ s_endpoint_out s' ∈ endpoint_addresses device).
Proof.
  intros Hok s'.
  destruct (resolve_endpoints_last device s) as [Ho Hi].
  destruct (AddGCAdapter_endpoint_fields device s) as [Eo Ei]. fold s' in Eo, Ei.
  assert (Hout : s_endpoint_out s' = default (s_endpoint_out s) (last (out_endpoints device)))
    by congruence.
  split; [exact Hout | split; [congruence | split]].
  - destruct (AddGCAdapter_writes device s Hok) as (_ & rumbles & Hw & Hall).
    fold s' in Hw, Hall.
    exists (init_payload :: map snd rumbles). split; [discriminate |].
    rewrite Hw. f_equal. cbn [map]. f_equal.
    clear Hw. induction Hall as [| w l Hw Hall IH]; [reflexivity |].
    cbn [map]. rewrite <- IH. f_equal.
    destruct Hw as (a & b & c & d & _ & _ & _ & _ & ->). reflexivity.
  - intros Hne. apply last_is_Some in Hne as [a Ha].
    rewrite Hout, Ha. cbn [default].
    apply last_Some_elem_of in Ha. unfold out_endpoints in Ha.
    by apply list_elem_of_filter in Ha.
Qed.

End Endpoints.

(** The adapter's descriptor, [0x81] in and [0x02] out, on a state whose
    endpoint variables are still zero. *)
Lemma AddGCAdapter_selects_endpoints_witness :
  s_endpoint_out (@AddGCAdapter dolphin_headers adapter_device initial_state) = 0x02
  /\ s_endpoint_in (@AddGCAdapter dolphin_headers adapter_device initial_state) = 0x81.
Proof.
  pose proof (@AddGCAdapter_selects_endpoints dolphin_headers adapter_device initial_state
                ltac:(split; [reflexivity | repeat constructor; unfold is_u8; lia]))
    as (Ho & Hi & _).
  exact (conj Ho Hi).
Defined.

(** ** Setup and the scan thread *)

Section SetupProperties.
Context `{H : Headers}.

Lemma Setup_unfold apple devices s :
  Setup apple devices s =
    let s' := GetDeviceList (Setup_callback apple) devices (Setup_begin s) in
    if negb (s_status s' =? ADAPTER_DETECTED) && negb (s_status s =? s_status s')
       && s_detect_callback s'
    then emit DetectCallback s'
    else s'.
Proof. reflexivity. Qed.

Lemma Setup_begin_fields s :
  s_status (Setup_begin s) = (if s_status s <? 0 then NO_ADAPTER_DETECTED else s_status s)
  /\ s_handle (Setup_begin s) = s_handle s
  /\ s_trace (Setup_begin s) = s_trace s
  /\ s_detect_callback (Setup_begin s) = s_detect_callback s
  /\ s_controller_type (Setup_begin s) = fill ControllerType.None (s_controller_type s)
  /\ s_controller_rumble (Setup_begin s) = fill 0 (s_controller_rumble s).
Proof. unfold Setup_begin. by destruct (s_status s <? 0). Qed.

(** Devices that are not the adapter are passed over. *)
Lemma GetDeviceList_skip apple others devices s :
  Forall (fun d => is_adapter d = false) others ->
  GetDeviceList (Setup_callback apple) (others ++ devices) s
  = GetDeviceList (Setup_callback apple) devices s.
Proof.
  induction 1 as [| d others Hd _ IH]; [reflexivity |].
  cbn [app GetDeviceList]. unfold Setup_callback at 1.
  by rewrite CheckDeviceAccess_not_adapter.
Qed.

Lemma GetDeviceList_no_adapter apple others s :
  Forall (fun d => is_adapter d = false) others ->
  GetDeviceList (Setup_callback apple) others s = s.
Proof.
  intros Hna. rewrite <- (app_nil_r others). by rewrite GetDeviceList_skip.
Qed.

(** X4: on a bus without the adapter [Setup] opens nothing and leaves the
    handle as it was; it marks every port disconnected and clears the staged
    rumble bytes; a status that held an error code becomes "not detected",
    and only in that case the registered callback, if any, is run, once. *)
Theorem Setup_without_adapter apple devices s :
  Forall (fun d => is_adapter d = false) devices ->
  let s' := Setup apple devices s in
  s_status s' = (if s_status s <? 0 then NO_ADAPTER_DETECTED else s_status s)
  /\ s_trace s'
     = s_trace s ++ (if (s_status s <? 0) && s_detect_callback s then [DetectCallback] else [])
  /\ s_controller_type s' = fill ControllerType.None (s_controller_type s)
  /\ s_controller_rumble s' = fill 0 (s_controller_rumble s)
  /\ s_handle s' = s_handle s.
Proof.
  intros Hna s'. subst s'. rewrite Setup_unfold, GetDeviceList_no_adapter by done.
  cbv zeta. destruct (Setup_begin_fields s) as (Hs & Hh & Ht & Hc & Hty & Hr).
  rewrite Hs, Hc.
  destruct (Z.ltb_spec (s_status s) 0) as [Hneg | Hpos].
  - change (NO_ADAPTER_DETECTED =? ADAPTER_DETECTED) with false.
    destruct (Z.eqb_spec (s_status s) NO_ADAPTER_DETECTED) as [E | _];
      [unfold NO_ADAPTER_DETECTED in E; lia |].
    cbn [negb andb]. destruct (s_detect_callback s).
    + change (s_trace (emit DetectCallback ?x)) with (s_trace x ++ [DetectCallback]).
      rewrite Ht. by repeat split.
    + rewrite app_nil_r. by repeat split.
  - rewrite Z.eqb_refl, andb_false_r. cbn [andb]. rewrite app_nil_r. by repeat split.
Qed.

(** [Setup] on a bus whose only adapter cannot be claimed. *)
Lemma Setup_failed_probe apple others device others' s :
  LIBUSB_ERROR_ACCESS <> 0 ->
  libusb_codes_ok device ->
  Forall (fun d => is_adapter d = false) others ->
  Forall (fun d => is_adapter d = false) others' ->
  is_adapter device = true ->
  fst (CheckDeviceAccess apple device s) = false ->
  let s' := Setup apple (others ++ device :: others') s in
  s_status s' = probe_error apple device
  /\ s_detect_callback s' = s_detect_callback s
  /\ s_handle s' = (if open_ret device =? 0 then None else s_handle s)
  /\ count_event is_DetectCallback (s_trace s')
     = (count_event is_DetectCallback (s_trace s)
        + (if s_detect_callback s && negb (s_status s =? probe_error apple device)%Z
           then 1 else 0))%nat.
Proof.
  intros Hacc Hcodes Hna Hna' Had Hf s'. subst s'.
  rewrite Setup_unfold, GetDeviceList_skip by done. cbn [GetDeviceList].
  assert (Hf' : fst (CheckDeviceAccess apple device (Setup_begin s)) = false).
  { rewrite CheckDeviceAccess_result by done.
    by rewrite <- (CheckDeviceAccess_result apple device s). }
  destruct (CheckDeviceAccess_failure_state apple device (Setup_begin s) Hacc Had Hf')
    as (Hs & Hne & Hh & _ & _ & Hcnt & _ & _ & _ & Hcb).
  pose proof (probe_error_negative apple device Hcodes Hne) as Hneg.
  destruct (CheckDeviceAccess apple device (Setup_begin s)) as [ok s2] eqn:E.
  cbn [fst snd] in *. subst ok.
  assert (Ecb : Setup_callback apple device (Setup_begin s) = (true, s2)).
  { unfold Setup_callback. by rewrite E. }
  rewrite Ecb, GetDeviceList_no_adapter by done. cbv zeta.
  destruct (Setup_begin_fields s) as (_ & Hh0 & Ht0 & Hc0 & _).
  assert (Hcb' : s_detect_callback s2 = s_detect_callback s) by congruence.
  rewrite Hs, Hcb'.
  destruct (Z.eqb_spec (probe_error apple device) ADAPTER_DETECTED) as [Ed | _];
    [unfold ADAPTER_DETECTED in Ed; lia |].
  cbn [negb andb].
  rewrite (andb_comm (s_detect_callback s)).
  destruct (negb (s_status s =? probe_error apple device) && s_detect_callback s).
  - change (s_trace (emit DetectCallback s2)) with (s_trace s2 ++ [DetectCallback]).
    rewrite count_event_snoc. cbn [is_DetectCallback].
    rewrite Hcnt, Ht0.
    split; [exact Hs | split; [exact Hcb' | split; [| reflexivity]]].
    change (s_handle (emit DetectCallback s2)) with (s_handle s2). by rewrite Hh, Hh0.
  - rewrite Hcnt, Ht0, Nat.add_0_r.
    split; [exact Hs | split; [exact Hcb' | split; [| reflexivity]]].
    by rewrite Hh, Hh0.
Qed.

(** X5: while the only adapter of the bus cannot be claimed, every pass of
    [Setup] ends with the libusb error code in the status, which [IsDetected]
    reports, and leaves no handle open; the first pass runs the registered
    callback once (when the status was not that code already), and a pass
    that follows with the same outcome does not run it again. *)
Theorem Setup_failed_probe_notifies_once apple others device others' s :
  LIBUSB_ERROR_ACCESS <> 0 ->
  libusb_codes_ok device ->
  Forall (fun d => is_adapter d = false) others ->
  Forall (fun d => is_adapter d = false) others' ->
  is_adapter device = true ->
  fst (CheckDeviceAccess apple device s) = false ->
  s_handle s = None ->
  let bus := others ++ device :: others' in
  let s1 := Setup apple bus s in
  let s2 := Setup apple bus s1 in
  IsDetected true s1 = (false, Some (Some (probe_error apple device)))
  /\ s_handle s1 = None
  /\ count_event is_DetectCallback (s_trace s1)
     = (count_event is_DetectCallback (s_trace s)
        + (if s_detect_callback s && negb (s_status s =? probe_error apple device)%Z
           then 1 else 0))%nat
  /\ s_status s2 = s_status s1
  /\ s_handle s2 = None
  /\ count_event is_DetectCallback (s_trace s2) = count_event is_DetectCallback (s_trace s1).
Proof.
  intros Hacc Hcodes Hna Hna' Had Hf Hh bus s1 s2.
  destruct (Setup_failed_probe apple others device others' s Hacc Hcodes Hna Hna' Had Hf)
    as (Hs1 & Hc1 & Hh1 & Hn1).
  fold bus in Hs1, Hc1, Hh1, Hn1. fold s1 in Hs1, Hc1, Hh1, Hn1.
  assert (Hf1 : fst (CheckDeviceAccess apple device s1) = false).
  { rewrite CheckDeviceAccess_result by done.
    by rewrite <- (CheckDeviceAccess_result apple device s). }
  destruct (Setup_failed_probe apple others device others' s1 Hacc Hcodes Hna Hna' Had Hf1)
    as (Hs2 & Hc2 & Hh2 & Hn2).
  fold bus in Hs2, Hc2, Hh2, Hn2. fold s2 in Hs2, Hc2, Hh2, Hn2.
  assert (Hnull1 : s_handle s1 = None).
  { rewrite Hh1, Hh. by destruct (open_ret device =? 0). }
  assert (Hneg : probe_error apple device < 0).
  { apply (probe_error_negative apple device Hcodes).
    by destruct (CheckDeviceAccess_failure_state apple device s Hacc Had Hf) as (_ & ? & _). }
  repeat split.
  - unfold IsDetected. rewrite Hs1.
    destruct (Z.leb_spec 0 (probe_error apple device)); [lia | reflexivity].
  - exact Hnull1.
  - exact Hn1.
  - congruence.
  - rewrite Hh2, Hnull1. by destruct (open_ret device =? 0).
  - rewrite Hn2, Hs1, Z.eqb_refl, andb_false_r. lia.
Qed.

(** X6: a pass of the scan thread with no session open, on a bus where
    devices that are not the adapter come before an adapter that can be
    claimed, claims that adapter: the devices before it are passed over, the
    devices after it are not probed, [AddGCAdapter] runs on it, and the
    handle is the device's with the status "detected", which [IsDetected]
    reports without a message.  A pass that follows finds the session open
    and changes nothing, whatever is on the bus. *)
Theorem ScanThreadFunc_claims_once apple others device rest s s1 :
  Forall (fun d => is_adapter d = false) others ->
  s_handle s = None ->
  CheckDeviceAccess apple device (Setup_begin s) = (true, s1) ->
  let s' := ScanThreadFunc_iteration apple (others ++ device :: rest) s in
  s' = AddGCAdapter device s1
  /\ s_handle s' = Some (dev_id device)
  /\ IsDetected true s' = (true, Some None)
  /\ forall apple' devices, ScanThreadFunc_iteration apple' devices s' = s'.
Proof.
  intros Hna Hh Hclaim s'.
  assert (Es : s' = AddGCAdapter device s1).
  { subst s'. unfold ScanThreadFunc_iteration. rewrite Hh. cbn [is_nullptr].
    rewrite <- (Setup_claims_first_adapter apple device rest s s1 Hclaim).
    rewrite !Setup_unfold. by rewrite GetDeviceList_skip. }
  destruct (claim_coherent _ _ _ _ Hclaim) as [Hco Hopen].
  assert (Hst : s_status s' = ADAPTER_DETECTED).
  { rewrite Es. by apply Hco. }
  assert (Hh' : s_handle s' = Some (dev_id device)).
  { rewrite Es.
    destruct (CheckDeviceAccess_success _ _ _ _ Hclaim) as (Hh1 & _ & _).
    pose proof (resolve_endpoints_frame device s1) as Hr.
    assert (Hhr : s_handle (resolve_endpoints device s1) = s_handle s1)
      by exact (f_equal s_handle Hr).
    rewrite <- Hh1, <- Hhr. unfold AddGCAdapter, ResetRumbleLockNeeded. by case_ifs. }
  split; [exact Es | split; [exact Hh' | split]].
  - unfold IsDetected. by rewrite Hst.
  - intros apple' devices. unfold ScanThreadFunc_iteration. by rewrite Hh'.
Qed.

(** The enumeration keeps handle and status together. *)
Lemma GetDeviceList_coherent apple devices s :
  LIBUSB_ERROR_ACCESS <> 0 ->
  Forall libusb_codes_ok devices ->
  s_handle s = None -> s_status s <> ADAPTER_DETECTED ->
  coherent (GetDeviceList (Setup_callback apple) devices s).
Proof.
  intros Hacc Hcodes. revert s.
  induction Hcodes as [| d devices Hd _ IH]; intros s Hh Hs.
  - unfold coherent. cbn [GetDeviceList]. rewrite Hh. by split.
  - cbn [GetDeviceList]. unfold Setup_callback at 1.
    destruct (CheckDeviceAccess apple d s) as [ok s2] eqn:E.
    destruct ok.
    + by apply (claim_coherent apple d s s2).
    + destruct (is_adapter d) eqn:Had.
      * assert (Hf : fst (CheckDeviceAccess apple d s) = false) by (by rewrite E).
        destruct (CheckDeviceAccess_failure_state apple d s Hacc Had Hf)
          as (Hs2 & Hne & Hh2 & _).
        rewrite E in Hs2, Hh2. cbn [snd] in Hs2, Hh2.
        pose proof (probe_error_negative apple d Hd Hne) as Hneg.
        apply IH.
        -- rewrite Hh2, Hh. by destruct (open_ret d =? 0).
        -- rewrite Hs2. unfold ADAPTER_DETECTED. lia.
      * rewrite CheckDeviceAccess_not_adapter in E by done.
        inversion E; subst s2. by apply IH.
Qed.

(** X7: whatever is on the bus, as long as libusb keeps to its return
    codes, a pass of the scan thread keeps the handle open exactly when the
    status is "detected": a failed probe leaves neither a handle nor the
    status "detected" behind, and a claimed adapter leaves both. *)
Theorem ScanThreadFunc_keeps_coherence apple devices s :
  LIBUSB_ERROR_ACCESS <> 0 ->
  Forall libusb_codes_ok devices ->
  coherent s ->
  coherent (ScanThreadFunc_iteration apple devices s).
Proof.
  intros Hacc Hcodes Hco. unfold ScanThreadFunc_iteration.
  destruct (s_handle s) as [h |] eqn:Hh; cbn [is_nullptr]; [exact Hco |].
  assert (Hs : s_status s <> ADAPTER_DETECTED).
  { intros Hs. apply Hco in Hs. by rewrite Hh in Hs. }
  rewrite Setup_unfold. cbv zeta.
  destruct (Setup_begin_fields s) as (Hs0 & Hh0 & _).
  assert (Hco' : coherent (GetDeviceList (Setup_callback apple) devices (Setup_begin s))).
  { apply GetDeviceList_coherent; [done | done | congruence |].
    rewrite Hs0. destruct (s_status s <? 0); [discriminate | exact Hs]. }
  destruct (_ && _); [| exact Hco'].
  by apply (coherent_same (GetDeviceList (Setup_callback apple) devices (Setup_begin s))).
Qed.

End SetupProperties.

(** A mouse alone on the bus, after a probe that had failed with -3. *)
Lemma Setup_without_adapter_witness :
  let s' := @Setup dolphin_headers false [other_vendor_device] failed_probe_state in
  s_status s' = NO_ADAPTER_DETECTED /\ s_trace s' = [DetectCallback].
Proof.
  pose proof (@Setup_without_adapter dolphin_headers false [other_vendor_device]
                failed_probe_state ltac:(repeat constructor))
    as (Hs & Ht & _).
  exact (conj Hs Ht).
Defined.

(** A mouse and the adapter, whose interface another program holds. *)
Lemma Setup_failed_probe_notifies_once_witness :
  let bus := [other_vendor_device; busy_adapter_device] in
  let s1 := @Setup dolphin_headers false bus configured_without_session in
  let s2 := @Setup dolphin_headers false bus s1 in
  IsDetected true s1 = (false, Some (Some (-6)))
  /\ count_event is_DetectCallback (s_trace s1) = 1%nat
  /\ count_event is_DetectCallback (s_trace s2) = 1%nat.
Proof.
  pose proof (@Setup_failed_probe_notifies_once dolphin_headers false
                [other_vendor_device] busy_adapter_device [] configured_without_session
                ltac:(simpl; lia) ltac:(unfold libusb_codes_ok; simpl; lia)
                ltac:(repeat constructor) ltac:(constructor)
                ltac:(reflexivity) ltac:(reflexivity) ltac:(reflexivity))
    as (Hd & _ & Hn1 & _ & _ & Hn2).
  split; [exact Hd | split; [exact Hn1 |]].
  etransitivity; [exact Hn2 | exact Hn1].
Defined.

(** A mouse, then the adapter, then a second adapter. *)
Lemma ScanThreadFunc_claims_once_witness :
  let s' := @ScanThreadFunc_iteration dolphin_headers false
              [other_vendor_device; adapter_device; busy_adapter_device]
              configured_without_session in
  s_handle s' = Some 1%nat /\ IsDetected true s' = (true, Some None).
Proof.
  pose proof (@ScanThreadFunc_claims_once dolphin_headers false
                [other_vendor_device] adapter_device [busy_adapter_device]
                configured_without_session _
                ltac:(repeat constructor) ltac:(reflexivity) ltac:(reflexivity))
    as (_ & Hh & Hd & _).
  exact (conj Hh Hd).
Defined.

(** The adapter behind a busy one: the scan pass ends with a session. *)
Lemma ScanThreadFunc_keeps_coherence_witness :
  coherent (@ScanThreadFunc_iteration dolphin_headers false
              [busy_adapter_device; adapter_device] configured_without_session).
Proof.
  apply (@ScanThreadFunc_keeps_coherence dolphin_headers false
           [busy_adapter_device; adapter_device] configured_without_session).
  - simpl. lia.
  - repeat constructor; simpl; lia.
  - unfold coherent. simpl. split; [by intros Hx | discriminate].
Defined.

(** ** Detection status over a session *)

Section SessionStatus.
Context `{H : Headers}.

Lemma CheckDeviceAccess_init_mutex apple device s :
  s_init_mutex (snd (CheckDeviceAccess apple device s)) = s_init_mutex s.
Proof. unfold CheckDeviceAccess. by case_ifs. Qed.

Lemma AddGCAdapter_init_mutex device s :
  s_init_mutex (AddGCAdapter device s) = s_init_mutex s.
Proof.
  pose proof (resolve_endpoints_frame device s) as Hr.
  assert (Hm : s_init_mutex (resolve_endpoints device s) = s_init_mutex s)
    by exact (f_equal s_init_mutex Hr).
  rewrite <- Hm. unfold AddGCAdapter, ResetRumbleLockNeeded. by case_ifs.
Qed.

(** X8: [IsDetected] follows the session.  Once [CheckDeviceAccess] has
    claimed the adapter and [AddGCAdapter] has run, it answers [true]; after
    a [Reset] with [s_init_mutex] free it answers [false], and it still does
    after an [Init] that follows; in each case the message it stores, when
    asked for one, is the null pointer. *)
Theorem IsDetected_follows_session apple device (error_message : bool) env s s1 :
  s_init_mutex s = false ->
  CheckDeviceAccess apple device s = (true, s1) ->
  let opened := AddGCAdapter device s1 in
  let no_message : option (option Z) := if error_message then Some None else None in
  IsDetected error_message opened = (true, no_message)
  /\ IsDetected error_message (Reset opened) = (false, no_message)
  /\ IsDetected error_message (Init env (Reset opened)) = (false, no_message).
Proof.
  intros Hm Hclaim opened no_message.
  destruct (claim_coherent _ _ _ _ Hclaim) as [Hco Hopen]. fold opened in Hco, Hopen.
  assert (Hs : s_status opened = ADAPTER_DETECTED) by (by apply Hco).
  assert (Hm' : s_init_mutex opened = false).
  { subst opened. rewrite AddGCAdapter_init_mutex.
    pose proof (CheckDeviceAccess_init_mutex apple device s) as Hx.
    rewrite Hclaim in Hx. cbn [snd] in Hx. congruence. }
  destruct (Reset_detected opened Hm' Hs) as (_ & _ & _ & Hs2 & Hh2 & _).
  assert (Hs3 : s_status (Init env (Reset opened)) = NO_ADAPTER_DETECTED).
  { unfold Init, StartScanThread. rewrite Hh2. cbn [is_nullptr negb].
    case_ifs; first [exact Hs2 | reflexivity]. }
  unfold IsDetected. rewrite Hs, Hs2, Hs3. done.
Qed.

End SessionStatus.

Lemma IsDetected_follows_session_witness :
  let opened :=
    @AddGCAdapter dolphin_headers adapter_device
      (snd (@CheckDeviceAccess dolphin_headers false adapter_device
              configured_without_session)) in
  IsDetected true opened = (true, Some None)
  /\ IsDetected true (Reset opened) = (false, Some None).
Proof.
  pose proof (@IsDetected_follows_session dolphin_headers false adapter_device true
                (running_env 0) configured_without_session _
                ltac:(reflexivity) ltac:(reflexivity))
    as (Ho & Hr & _).
  exact (conj Ho Hr).
Defined.

(** ** The origin flag and [ResetDeviceType] *)

Section OriginFlag.
Context `{H : Headers}.

Lemma DeviceConnected_tracked chan s :
  DeviceConnected chan s = negb (s_controller_type s !!! chan =? ControllerType.None).
Proof. reflexivity. Qed.

(** X9: [ResetDeviceType] re-arms the origin request of a port.  After
    [Input] has decoded a controller on the port, the port counts as
    connected and a further [Input] over the same payload does not raise the
    origin flag; after [ResetDeviceType] the port counts as disconnected, the
    other ports are as before, and the next [Input] over the same payload
    raises the origin flag once and brings the state back to what it was. *)
Theorem ResetDeviceType_rearms_origin wants_determinism chan s :
  pad_masks_ok = true ->
  adapter_active s -> payload_valid s = true ->
  (chan < length (s_controller_type s))%nat ->
  decoded_type chan s <> ControllerType.None ->
  let s1 := snd (Input wants_determinism chan s) in
  let s2 := ResetDeviceType chan s1 in
  DeviceConnected chan s1 = true
  /\ pressed PAD_GET_ORIGIN (fst (Input wants_determinism chan s1)) = false
  /\ DeviceConnected chan s2 = false
  /\ (forall chan', chan' <> chan -> DeviceConnected chan' s2 = DeviceConnected chan' s1)
  /\ pressed PAD_GET_ORIGIN (fst (Input wants_determinism chan s2)) = true
  /\ snd (Input wants_determinism chan s2) = s1.
Proof.
  intros Hok Hact Hv Hlen Hty s1 s2.
  assert (Hnz : (decoded_type chan s =? ControllerType.None) = false)
    by (by apply Z.eqb_neq).
  assert (Es1 : s1 = set_controller_type
                       (<[chan := decoded_type chan s]> (s_controller_type s)) s).
  { subst s1. by rewrite (Input_active wants_determinism chan s Hact Hv Hlen). }
  assert (Ht1 : s_controller_type s1 = <[chan := decoded_type chan s]> (s_controller_type s))
    by (by rewrite Es1).
  assert (Ht2 : s_controller_type s2
                = <[chan := ControllerType.None]> (s_controller_type s)).
  { subst s2. unfold ResetDeviceType.
    change (s_controller_type (set_controller_type ?l s1)) with l.
    rewrite Ht1. by rewrite list_insert_insert_eq. }
  assert (Hact2 : adapter_active s2) by (subst s2; rewrite Es1; exact Hact).
  assert (Hv2 : payload_valid s2 = true) by (rewrite <- Hv; subst s2; by rewrite Es1).
  assert (Hlen2 : (chan < length (s_controller_type s2))%nat)
    by (by rewrite Ht2, length_insert).
  assert (Hd2 : decoded_type chan s2 = decoded_type chan s) by (subst s2; by rewrite Es1).
  split; [| split; [| split; [| split; [| split]]]].
  - rewrite DeviceConnected_tracked, Ht1.
    unfold ControllerType.t in *. rewrite list_lookup_total_insert_eq by done.
    by rewrite Hnz.
  - rewrite Es1. rewrite (Input_active_again wants_determinism chan s Hact Hv Hlen).
    cbn [fst]. rewrite Hnz. cbn [negb].
    by destruct (connected_pad_flags chan false (s_controller_payload s) Hok)
      as (_ & _ & _ & _ & _ & _ & _ & _ & _ & _ & _ & _ & Ho & _).
  - rewrite DeviceConnected_tracked, Ht2.
    unfold ControllerType.t in *. by rewrite list_lookup_total_insert_eq.
  - intros chan' Hne. rewrite !DeviceConnected_tracked, Ht1, Ht2.
    unfold ControllerType.t in *. by rewrite !list_lookup_total_insert_ne.
  - rewrite (Input_active wants_determinism chan s2 Hact2 Hv2 Hlen2). cbn [fst].
    rewrite Hd2, Hnz. cbn [negb andb]. rewrite Ht2.
    unfold ControllerType.t in *. rewrite list_lookup_total_insert_eq by done.
    change (ControllerType.None =? ControllerType.None) with true.
    by destruct (connected_pad_flags chan true (s_controller_payload s2) Hok)
      as (_ & _ & _ & _ & _ & _ & _ & _ & _ & _ & _ & _ & Ho & _).
  - rewrite (Input_active wants_determinism chan s2 Hact2 Hv2 Hlen2). cbn [snd].
    rewrite Hd2, Ht2, list_insert_insert_eq. subst s2. unfold ResetDeviceType.
    rewrite Es1. reflexivity.
Qed.

End OriginFlag.

Lemma ResetDeviceType_rearms_origin_witness :
  let s1 := snd (@Input dolphin_headers false 0 wired_A_session) in
  let s2 := ResetDeviceType 0 s1 in
  DeviceConnected 0 s2 = false
  /\ pressed (@PAD_GET_ORIGIN dolphin_headers) (fst (@Input dolphin_headers false 0 s2)) = true.
Proof.
  pose proof (@ResetDeviceType_rearms_origin dolphin_headers false 0%nat wired_A_session
                ltac:(reflexivity)
                ltac:(split; [reflexivity | split; [discriminate | reflexivity]])
                ltac:(reflexivity) ltac:(simpl; lia) ltac:(vm_compute; lia))
    as (_ & _ & Hd & _ & Ho & _).
  exact (conj Hd Ho).
Defined.

(** ** Rumble: reset, staging and the write thread *)

Section RumbleProperties.
Context `{H : Headers}.

Lemma fill_four {A} (v : A) (l : list A) :
  length l = MAX_SI_CHANNELS -> fill v l = [v; v; v; v].
Proof.
  unfold MAX_SI_CHANNELS.
  destruct l as [| ? [| ? [| ? [| ? [| ? ?]]]]]; intros Hl; try discriminate Hl.
  reflexivity.
Qed.

(** X10: with a session open and [s_init_mutex] free, [ResetRumble] clears
    the four staged bytes and itself writes one payload, [0x11] followed by
    four zero bytes, to the output endpoint, without signalling the write
    thread; a stop command for any port that follows finds its byte staged
    and does nothing. *)
Theorem ResetRumble_clears_rumble s :
  adapter_active s -> s_init_mutex s = false ->
  length (s_controller_rumble s) = MAX_SI_CHANNELS ->
  let s' := ResetRumble s in
  s_controller_rumble s' = [0; 0; 0; 0]
  /\ s_trace s' = s_trace s ++ [InterruptTransferOut (s_endpoint_out s) [0x11; 0; 0; 0; 0]]
  /\ s_rumble_data_available s' = s_rumble_data_available s
  /\ forall chan, (chan < MAX_SI_CHANNELS)%nat -> Output chan 0 s' = s'.
Proof.
  intros (HU & Hh & Hs) Hm Hlen s'.
  assert (Es : s' = emit (InterruptTransferOut (s_endpoint_out s) [0x11; 0; 0; 0; 0])
                      (set_controller_rumble [0; 0; 0; 0] s)).
  { subst s'. unfold ResetRumble, ResetRumbleLockNeeded. rewrite Hm, HU, Hs.
    destruct (s_handle s); [| done]. cbn [negb orb is_nullptr Z.eqb].
    change (ADAPTER_DETECTED =? ADAPTER_DETECTED) with true. cbn [negb]. cbv zeta.
    unfold rumble_payload.
    change (s_controller_rumble (set_controller_rumble ?l s)) with l.
    by rewrite (fill_four 0 _ Hlen). }
  split; [by rewrite Es | split; [by rewrite Es | split; [by rewrite Es |]]].
  intros chan Hc. apply Output_skipped. right. right. right. left.
  rewrite Es. change (s_controller_rumble (emit ?e (set_controller_rumble ?l s))) with l.
  unfold MAX_SI_CHANNELS in Hc.
  destruct chan as [| [| [| [| chan]]]]; [reflexivity .. | lia].
Qed.

Lemma Output_frame chan rumble_command s :
  let s' := Output chan rumble_command s in
  s_config_si_device_type s' = s_config_si_device_type s
  /\ s_config_rumble_enabled s' = s_config_rumble_enabled s
  /\ s_handle s' = s_handle s
  /\ s_adapter_thread_running s' = s_adapter_thread_running s
  /\ s_controller_type s' = s_controller_type s
  /\ s_endpoint_out s' = s_endpoint_out s
  /\ length (s_controller_rumble s') = length (s_controller_rumble s)
  /\ interrupt_writes (s_trace s') = interrupt_writes (s_trace s).
Proof.
  intros s'. subst s'. unfold Output. case_ifs; try done.
  repeat split.
  - cbn. by rewrite length_insert.
  - change (s_trace (rumble_data_available_Set ?x)) with (s_trace s ++ [RumbleDataAvailable]).
    by rewrite interrupt_writes_snoc, app_nil_r.
Qed.

Lemma Output_all_frame commands s :
  let s' := Output_all commands s in
  s_config_si_device_type s' = s_config_si_device_type s
  /\ s_config_rumble_enabled s' = s_config_rumble_enabled s
  /\ s_handle s' = s_handle s
  /\ s_adapter_thread_running s' = s_adapter_thread_running s
  /\ s_controller_type s' = s_controller_type s
  /\ s_endpoint_out s' = s_endpoint_out s
  /\ length (s_controller_rumble s') = length (s_controller_rumble s)
  /\ interrupt_writes (s_trace s') = interrupt_writes (s_trace s).
Proof.
  unfold Output_all. cbv zeta.
  induction commands as [| c commands IH] using rev_ind; [done |].
  rewrite foldl_snoc.
  destruct IH as (I1 & I2 & I3 & I4 & I5 & I6 & I7 & I8).
  destruct (Output_frame c.1 c.2 (foldl (fun s command => Output command.1 command.2 s)
                                        s commands))
    as (O1 & O2 & O3 & O4 & O5 & O6 & O7 & O8).
  repeat split; congruence.
Qed.

(** X11: [Output] never writes to the adapter itself, and commands are
    coalesced.  After any series of [Output] calls that ends with a command
    for a port whose guards hold (adapter in use, rumble enabled for the
    port, session open, tracked type not wireless), the byte staged for the
    port is that last command, and the next pass of the write thread sends a
    single payload, to the output endpoint, that carries it; the pass
    consumes the signal. *)
Theorem Output_commands_coalesce commands chan rumble_command s :
  UseAdapter s = true -> s_handle s <> None ->
  s_adapter_thread_running s = true ->
  s_config_rumble_enabled s !!! chan = true ->
  s_controller_type s !!! chan <> ControllerType.Wireless ->
  (chan < MAX_SI_CHANNELS)%nat ->
  length (s_controller_rumble s) = MAX_SI_CHANNELS ->
  let s1 := Output chan rumble_command (Output_all commands s) in
  let s2 := snd (Write_iteration s1) in
  interrupt_writes (s_trace s1) = interrupt_writes (s_trace s)
  /\ s_controller_rumble s1 !!! chan = rumble_command
  /\ interrupt_writes (s_trace s2)
     = interrupt_writes (s_trace s) ++ [(s_endpoint_out s, rumble_payload s1)]
  /\ rumble_payload s1 !!! S chan = rumble_command
  /\ s_rumble_data_available s2 = false.
Proof.
  intros HU Hh Hrun Hen Hty Hc Hlen s1 s2.
  set (s0 := Output_all commands s) in *.
  destruct (Output_all_frame commands s) as (I1 & I2 & I3 & I4 & I5 & I6 & I7 & I8).
  fold s0 in I1, I2, I3, I4, I5, I6, I7, I8.
  destruct (Output_frame chan rumble_command s0) as (O1 & O2 & O3 & O4 & O5 & O6 & O7 & O8).
  fold s1 in O1, O2, O3, O4, O5, O6, O7, O8.
  assert (Hstaged : s_controller_rumble s1 !!! chan = rumble_command).
  { destruct (Z.eq_dec rumble_command (s_controller_rumble s0 !!! chan)) as [E | E].
    - subst s1. rewrite Output_skipped by (right; right; right; by left). by rewrite E.
    - subst s1. rewrite Output_staged; try done.
      + change (s_controller_rumble (rumble_data_available_Set (set_controller_rumble ?l s0)))
          with l.
        apply list_lookup_total_insert_eq. rewrite I7, Hlen. exact Hc.
      + unfold UseAdapter. rewrite I1. exact HU.
      + by rewrite I2.
      + by rewrite I3.
      + by rewrite I5. }
  split; [congruence | split; [exact Hstaged | split; [| split]]].
  - subst s2. unfold Write_iteration.
    change (s_adapter_thread_running (set_rumble_data_available false s1))
      with (s_adapter_thread_running s1).
    rewrite O4, I4, Hrun. cbn [negb snd].
    change (s_trace (emit ?e (set_rumble_data_available false s1))) with (s_trace s1 ++ [e]).
    rewrite interrupt_writes_snoc.
    change (s_endpoint_out (set_rumble_data_available false s1)) with (s_endpoint_out s1).
    change (rumble_payload (set_rumble_data_available false s1)) with (rumble_payload s1).
    rewrite O8, I8, O6, I6. reflexivity.
  - rewrite <- Hstaged. unfold rumble_payload. unfold MAX_SI_CHANNELS in Hc.
    destruct chan as [| [| [| [| chan]]]]; [reflexivity .. | lia].
  - subst s2. unfold Write_iteration. by destruct (negb _).
Qed.


End RumbleProperties.

Lemma ResetRumble_clears_rumble_witness :
  interrupt_writes (s_trace (@ResetRumble dolphin_headers wired_A_session))
  = [(0x02, [0x11; 0; 0; 0; 0])].
Proof.
  pose proof (@ResetRumble_clears_rumble dolphin_headers wired_A_session
                ltac:(split; [reflexivity | split; [discriminate | reflexivity]])
                ltac:(reflexivity) ltac:(reflexivity))
    as (_ & Ht & _).
  exact (f_equal interrupt_writes Ht).
Defined.

(** Three commands for port 0 before the write thread runs: one payload,
    carrying the last. *)
Lemma Output_commands_coalesce_witness :
  let s1 := @Output dolphin_headers 0 1
              (@Output_all dolphin_headers [(0%nat, 1); (0%nat, 0)] wired_A_session) in
  interrupt_writes (s_trace (snd (Write_iteration s1))) = [(0x02, [0x11; 1; 0; 0; 0])].
Proof.
  pose proof (@Output_commands_coalesce dolphin_headers [(0%nat, 1); (0%nat, 0)] 0%nat 1
                wired_A_session
                ltac:(reflexivity) ltac:(discriminate) ltac:(reflexivity)
                ltac:(reflexivity) ltac:(discriminate)
                ltac:(unfold MAX_SI_CHANNELS; lia) ltac:(reflexivity))
    as (_ & _ & Hw & _).
  exact Hw.
Defined.


(** ** Reads and polls *)

Section ReadProperties.
Context `{H : Headers}.

(** X13: a transfer of another size than 37 hides the input but not the
    controllers.  After a read that reports another size, [Input] returns
    the neutral pad state and changes nothing, and a port that was connected
    still counts as connected; when the next read delivers a full payload
    with a controller on that port, [Input] decodes it without raising the
    origin flag. *)
Theorem Read_short_transfer_keeps_ports wants_determinism chan received payload_size
        received' s :
  pad_masks_ok = true ->
  adapter_active s ->
  (chan < length (s_controller_type s))%nat ->
  DeviceConnected chan s = true ->
  payload_size <> CONTROLER_INPUT_PAYLOAD_EXPECTED_SIZE ->
  received' !!! 0%nat = LIBUSB_DT_HID ->
  u8 (Z.shiftr (received' !!! (1 + 9 * chan)%nat) 4) <> ControllerType.None ->
  let s1 := Read_iteration received payload_size s in
  let s2 := Read_iteration received' CONTROLER_INPUT_PAYLOAD_EXPECTED_SIZE
              (snd (Input wants_determinism chan s1)) in
  Input wants_determinism chan s1 = (GCPadStatus_default, s1)
  /\ DeviceConnected chan s1 = true
  /\ fst (Input wants_determinism chan s2) = connected_pad chan false received'
  /\ pressed PAD_GET_ORIGIN (fst (Input wants_determinism chan s2)) = false.
Proof.
  intros Hok Hact Hlen Hconn Hsz Hhid Hty s1 s2.
  assert (E1 : Input wants_determinism chan s1 = (GCPadStatus_default, s1)).
  { apply Input_inactive. right. right. right. unfold payload_valid.
    change (s_controller_payload_size s1) with payload_size.
    by destruct (Z.eqb_spec payload_size CONTROLER_INPUT_PAYLOAD_EXPECTED_SIZE). }
  assert (E2 : s2 = Read_iteration received' CONTROLER_INPUT_PAYLOAD_EXPECTED_SIZE s1).
  { subst s2. by rewrite E1. }
  assert (E3 : fst (Input wants_determinism chan s2) = connected_pad chan false received').
  { rewrite E2.
    rewrite Input_active.
    - cbn [fst].
      change (decoded_type chan (Read_iteration received' _ s1))
        with (u8 (Z.shiftr (received' !!! (1 + 9 * chan)%nat) 4)).
      apply Z.eqb_neq in Hty. rewrite Hty. cbn [negb andb].
      change (s_controller_type (Read_iteration received' _ s1)) with (s_controller_type s).
      rewrite DeviceConnected_tracked in Hconn. apply negb_true_iff in Hconn.
      rewrite Hconn. reflexivity.
    - exact Hact.
    - unfold payload_valid.
      change (s_controller_payload (Read_iteration received' _ s1)) with received'.
      rewrite Hhid, !Z.eqb_refl. reflexivity.
    - exact Hlen. }
  split; [exact E1 | split; [exact Hconn | split; [exact E3 |]]].
  rewrite E3.
  by destruct (connected_pad_flags chan false received' Hok)
    as (_ & _ & _ & _ & _ & _ & _ & _ & _ & _ & _ & _ & Ho & _).
Qed.


(** X15: the tracked type of a port is the high nibble of the first byte of
    its record, whatever its value: after a decoding [Input] the port counts
    as connected exactly when that byte is 16 or more, so also for nibbles
    that name no controller type, and the tracked value is below 16. *)
Theorem Input_tracks_type_nibble wants_determinism chan s :
  state_wf s -> adapter_active s -> payload_valid s = true ->
  (chan < MAX_SI_CHANNELS)%nat ->
  let s1 := snd (Input wants_determinism chan s) in
  let b := s_controller_payload s !!! (1 + 9 * chan)%nat in
  s_controller_type s1 !!! chan = b / 16
  /\ 0 <= s_controller_type s1 !!! chan < 16
  /\ DeviceConnected chan s1 = (16 <=? b).
Proof.
  intros Hwf Hact Hv Hc s1 b.
  assert (Hlen : (chan < length (s_controller_type s))%nat)
    by (by rewrite (wf_type_length s Hwf)).
  assert (Hb : is_u8 b).
  { apply (Forall_lookup_total_1 _ _ _ (wf_payload_u8 s Hwf)).
    rewrite (wf_payload_length s Hwf). unfold MAX_SI_CHANNELS in Hc. lia. }
  unfold is_u8 in Hb.
  assert (Ht : s_controller_type s1 !!! chan = b / 16).
  { subst s1. rewrite (Input_active wants_determinism chan s Hact Hv Hlen). cbn [snd].
    change (s_controller_type (set_controller_type ?l s)) with l.
    unfold ControllerType.t in *. rewrite list_lookup_total_insert_eq by done.
    unfold decoded_type. fold b. rewrite Z.shiftr_div_pow2 by lia.
    change (2 ^ 4) with 16. unfold u8. apply Z.mod_small.
    split; [apply Z.div_pos; lia | apply Z.div_lt_upper_bound; lia]. }
  assert (Hr : 0 <= b / 16 < 16).
  { split; [apply Z.div_pos; lia | apply Z.div_lt_upper_bound; lia]. }
  split; [exact Ht | split; [by rewrite Ht |]].
  rewrite DeviceConnected_tracked. unfold ControllerType.t in *. rewrite Ht.
  unfold ControllerType.None.
  destruct (Z.leb_spec 16 b) as [Hge | Hlt]; destruct (Z.eqb_spec (b / 16) 0) as [E | E];
    cbn [negb]; try reflexivity; exfalso.
  - assert (1 <= b / 16) by (apply Z.div_le_lower_bound; lia). lia.
  - apply E. apply Z.div_small. lia.
Qed.

End ReadProperties.

(** A transfer of 12 bytes in a session where port 0 is tracked as wired,
    followed by a full payload. *)
Lemma Read_short_transfer_keeps_ports_witness :
  let s1 := Read_iteration (replicate 37 0) 12 (tracked_session false) in
  @Input dolphin_headers false 0 s1 = (GCPadStatus_default, s1)
  /\ DeviceConnected 0 s1 = true.
Proof.
  pose proof (@Read_short_transfer_keeps_ports dolphin_headers false 0%nat (replicate 37 0) 12
                (make_payload wired_A_port empty_port empty_port empty_port)
                (tracked_session false)
                ltac:(reflexivity)
                ltac:(split; [reflexivity | split; [discriminate | reflexivity]])
                ltac:(simpl; lia) ltac:(reflexivity) ltac:(discriminate)
                ltac:(reflexivity) ltac:(vm_compute; discriminate))
    as (Hi & Hc & _).
  exact (conj Hi Hc).
Defined.


Lemma Input_tracks_type_nibble_witness :
  s_controller_type (snd (@Input dolphin_headers false 0 wired_A_session)) !!! 0%nat = 1
  /\ DeviceConnected 0 (snd (@Input dolphin_headers false 0 wired_A_session)) = true.
Proof.
  pose proof (@Input_tracks_type_nibble dolphin_headers false 0%nat wired_A_session
                ltac:(solve_state_wf)
                ltac:(split; [reflexivity | split; [discriminate | reflexivity]])
                ltac:(reflexivity) ltac:(unfold MAX_SI_CHANNELS; lia))
    as (Ht & _ & Hc).
  exact (conj Ht Hc).
Defined.

(** ** Init, once more *)

Section InitAgain.
Context `{H : Headers}.

Lemma RefreshConfig_fields env s :
  RefreshConfig env s
  = set_config_rumble_enabled (config_rumble_snapshot env (s_config_rumble_enabled s))
      (set_config_si_device_type (config_si_snapshot env (s_config_si_device_type s)) s).
Proof. reflexivity. Qed.

Lemma config_si_snapshot_idem env l :
  config_si_snapshot env (config_si_snapshot env l) = config_si_snapshot env l.
Proof. destruct l as [| ? [| ? [| ? [| ? [| ? ?]]]]]; reflexivity. Qed.

Lemma config_rumble_snapshot_idem env l :
  config_rumble_snapshot env (config_rumble_snapshot env l) = config_rumble_snapshot env l.
Proof. destruct l as [| ? [| ? [| ? [| ? [| ? ?]]]]]; reflexivity. Qed.

Lemma config_si_snapshot_full env l :
  length l = MAX_SI_CHANNELS ->
  config_si_snapshot env l = map (config_si_device env) (seq 0 MAX_SI_CHANNELS).
Proof.
  destruct l as [| ? [| ? [| ? [| ? [| ? ?]]]]]; intros Hl; try discriminate Hl. reflexivity.
Qed.

Lemma config_rumble_snapshot_full env l :
  length l = MAX_SI_CHANNELS ->
  config_rumble_snapshot env l = map (config_adapter_rumble env) (seq 0 MAX_SI_CHANNELS).
Proof.
  destruct l as [| ? [| ? [| ? [| ? [| ? ?]]]]]; intros Hl; try discriminate Hl. reflexivity.
Qed.

(** The state [Init] produces when it goes through, field by field. *)
Lemma Init_result env s :
  s_handle s = None -> init_rate_limited env s = false ->
  let uses := existsb (fun device_type => device_type =? SIDEVICE_WIIU_ADAPTER)
                      (config_si_snapshot env (s_config_si_device_type s)) in
  Init env s =
    {| s_status := NO_ADAPTER_DETECTED;
       s_handle := None;
       s_controller_type := s_controller_type s;
       s_controller_rumble := s_controller_rumble s;
       s_controller_payload := s_controller_payload s;
       s_controller_payload_swap := s_controller_payload_swap s;
       s_controller_payload_size := s_controller_payload_size s;
       s_adapter_thread_running := s_adapter_thread_running s;
       s_rumble_data_available := s_rumble_data_available s;
       s_init_mutex := s_init_mutex s;
       s_adapter_detect_thread_running :=
         s_adapter_detect_thread_running s || (uses && context_valid env);
       s_detect_callback := s_detect_callback s;
       s_libusb_context := Some (context_valid env);
       s_endpoint_in := s_endpoint_in s;
       s_endpoint_out := s_endpoint_out s;
       s_last_init := if core_active (core_state env) then ticks env else s_last_init s;
       s_config_callback_id :=
         match s_config_callback_id s with
         | Some id => Some id
         | None => Some (new_callback_id env)
         end;
       s_config_si_device_type := config_si_snapshot env (s_config_si_device_type s);
       s_config_rumble_enabled := config_rumble_snapshot env (s_config_rumble_enabled s);
       s_trace :=
         (s_trace s
          ++ (if is_nullptr (s_config_callback_id s) then [AddConfigChangedCallback] else []))
         ++ (if uses && context_valid env && negb (s_adapter_detect_thread_running s)
             then [ThreadStart ScanThread] else []) |}.
Proof.
  intros Hh Hl uses. rewrite (Init_no_session env s Hh). cbv zeta.
  change (init_rate_limited env (set_libusb_context (Some (context_valid env)) s))
    with (init_rate_limited env s).
  rewrite Hl. unfold UseAdapter, StartScanThread, context_IsValid.
  rewrite !RefreshConfig_fields.
  destruct s as [st hd ct cr cp cw sz tr da im dr cb lc ei eo li ci sd re tc].
  change (hd = None) in Hh. subst hd. subst uses.
  cbv beta iota zeta delta
      [set_status set_handle set_controller_type set_controller_rumble
       set_controller_payload set_adapter_thread_running set_rumble_data_available
       set_adapter_detect_thread_running set_detect_callback set_libusb_context
       set_endpoint_in set_endpoint_out set_last_init set_config_callback_id
       set_config_si_device_type set_config_rumble_enabled emit is_nullptr
       s_status s_handle s_controller_type s_controller_rumble s_controller_payload
       s_controller_payload_swap s_controller_payload_size s_adapter_thread_running
       s_rumble_data_available s_init_mutex s_adapter_detect_thread_running
       s_detect_callback s_libusb_context s_endpoint_in s_endpoint_out s_last_init
       s_config_callback_id s_config_si_device_type s_config_rumble_enabled s_trace].
  destruct (core_active (core_state env)), ci as [id |], dr, (context_valid env),
    (existsb _ (config_si_snapshot env sd));
    cbv beta iota zeta delta
      [set_status set_handle set_controller_type set_controller_rumble
       set_controller_payload set_adapter_thread_running set_rumble_data_available
       set_adapter_detect_thread_running set_detect_callback set_libusb_context
       set_endpoint_in set_endpoint_out set_last_init set_config_callback_id
       set_config_si_device_type set_config_rumble_enabled emit is_nullptr negb andb orb
       s_status s_handle s_controller_type s_controller_rumble s_controller_payload
       s_controller_payload_swap s_controller_payload_size s_adapter_thread_running
       s_rumble_data_available s_init_mutex s_adapter_detect_thread_running
       s_detect_callback s_libusb_context s_endpoint_in s_endpoint_out s_last_init
       s_config_callback_id s_config_si_device_type s_config_rumble_enabled s_trace];
    rewrite ?app_nil_r; reflexivity.
Qed.

Lemma Init_limited env s :
  s_handle s = None -> init_rate_limited env s = true ->
  Init env s = set_libusb_context (Some (context_valid env)) s.
Proof.
  intros Hh Hl. rewrite (Init_no_session env s Hh). cbv zeta.
  change (init_rate_limited env (set_libusb_context (Some (context_valid env)) s))
    with (init_rate_limited env s).
  by rewrite Hl.
Qed.

(** X16: [Init] is idempotent for a given answer of the emulator: a second
    call that reads the same core state, tick count, context validity and
    configuration leaves the state as the first left it, whether or not the
    core is running and whether or not the first call was rate limited.  So
    it does not subscribe to the configuration a second time and does not
    start a second scan thread. *)
Theorem Init_twice_same_answers env s :
  Init env (Init env s) = Init env s.
Proof.
  destruct (s_handle s) as [h |] eqn:Hh.
  { assert (E : Init env s = s) by (unfold Init; by rewrite Hh). by rewrite !E. }
  destruct (init_rate_limited env s) eqn:Hl.
  { rewrite (Init_limited env s Hh Hl).
    by rewrite (Init_limited env (set_libusb_context (Some (context_valid env)) s) Hh Hl). }
  pose proof (Init_result env s Hh Hl) as E. cbv zeta in E.
  set (r := Init env s) in *.
  assert (Hhr : s_handle r = None) by (by rewrite E).
  destruct (init_rate_limited env r) eqn:Hlr.
  { rewrite (Init_limited env r Hhr Hlr). by rewrite E. }
  rewrite (Init_result env r Hhr Hlr). cbv zeta.
  clear Hhr Hlr Hl. clearbody r. subst r.
  destruct s as [st hd ct cr cp cw sz tr da im dr cb lc ei eo li ci sd re tc].
  cbv beta iota zeta delta
      [s_status s_handle s_controller_type s_controller_rumble s_controller_payload
       s_controller_payload_swap s_controller_payload_size s_adapter_thread_running
       s_rumble_data_available s_init_mutex s_adapter_detect_thread_running
       s_detect_callback s_libusb_context s_endpoint_in s_endpoint_out s_last_init
       s_config_callback_id s_config_si_device_type s_config_rumble_enabled s_trace].
  rewrite config_si_snapshot_idem, config_rumble_snapshot_idem.
  destruct (core_active (core_state env)), ci as [id |], dr, (context_valid env),
    (existsb _ (config_si_snapshot env sd));
    cbn [negb andb orb is_nullptr app]; rewrite ?app_nil_r; reflexivity.
Qed.

Lemma existsb_map {A B} (f : A -> B) (p : B -> bool) (l : list A) :
  existsb p (map f l) = existsb (fun x => p (f x)) l.
Proof. induction l as [| x l IH]; simpl; [reflexivity | by rewrite IH]. Qed.

(** X17: what an [Init] that goes through leaves.  With no session open and
    the rate limit not reached, the two configuration arrays hold what the
    store answers for ports 0 to 3, the status is "not detected", the
    configuration callback is subscribed exactly when none was, and the scan
    thread is started exactly when the store assigns the adapter to some
    port, the new context is valid and the thread is not running already. *)
Theorem Init_refreshes_and_starts_scan env s :
  s_handle s = None -> init_rate_limited env s = false ->
  length (s_config_si_device_type s) = MAX_SI_CHANNELS ->
  length (s_config_rumble_enabled s) = MAX_SI_CHANNELS ->
  let s' := Init env s in
  s_config_si_device_type s' = map (config_si_device env) (seq 0 MAX_SI_CHANNELS)
  /\ s_config_rumble_enabled s' = map (config_adapter_rumble env) (seq 0 MAX_SI_CHANNELS)
  /\ UseAdapter s' = config_uses_adapter env
  /\ s_status s' = NO_ADAPTER_DETECTED
  /\ count_event is_AddConfigChangedCallback (s_trace s')
     = (count_event is_AddConfigChangedCallback (s_trace s)
        + (if is_nullptr (s_config_callback_id s) then 1 else 0))%nat
  /\ s_config_callback_id s' <> None
  /\ count_event is_ThreadStart_ScanThread (s_trace s')
     = (count_event is_ThreadStart_ScanThread (s_trace s)
        + (if config_uses_adapter env && context_valid env
              && negb (s_adapter_detect_thread_running s)
           then 1 else 0))%nat
  /\ s_adapter_detect_thread_running s'
     = s_adapter_detect_thread_running s || (config_uses_adapter env && context_valid env).
Proof.
  intros Hh Hl Hsd Hre s'.
  pose proof (Init_result env s Hh Hl) as E. cbv zeta in E. fold s' in E.
  assert (Hu : existsb (fun device_type => device_type =? SIDEVICE_WIIU_ADAPTER)
                 (config_si_snapshot env (s_config_si_device_type s))
               = config_uses_adapter env).
  { rewrite (config_si_snapshot_full env _ Hsd). by rewrite existsb_map. }
  rewrite Hu in E.
  assert (Hc : forall p, count_event p (s_trace s')
     = (count_event p (s_trace s)
        + (if is_nullptr (s_config_callback_id s) then if p AddConfigChangedCallback then 1 else 0
           else 0)
        + (if config_uses_adapter env && context_valid env
              && negb (s_adapter_detect_thread_running s)
           then if p (ThreadStart ScanThread) then 1 else 0 else 0))%nat).
  { intros p. rewrite E. cbn [s_trace]. unfold count_event.
    rewrite !filter_app, !length_app.
    destruct (is_nullptr _), (_ && _ && _); rewrite ?filter_cons, ?filter_nil;
      repeat match goal with
             | |- context [decide ?P] => destruct (decide P)
             end;
      repeat match goal with
             | Hx : ?a = true |- _ => rewrite Hx
             | Hx : ?a <> true |- _ => apply not_true_is_false in Hx; rewrite Hx
             end; cbn [length]; lia. }
  repeat split.
  - rewrite E. cbn [s_config_si_device_type]. by apply config_si_snapshot_full.
  - rewrite E. cbn [s_config_rumble_enabled]. by apply config_rumble_snapshot_full.
  - unfold UseAdapter. rewrite E. cbn [s_config_si_device_type]. exact Hu.
  - by rewrite E.
  - rewrite Hc. cbn [is_AddConfigChangedCallback].
    destruct (is_nullptr _), (_ && _ && _); lia.
  - rewrite E. cbn [s_config_callback_id]. by destruct (s_config_callback_id s).
  - rewrite Hc. cbn [is_ThreadStart_ScanThread].
    destruct (is_nullptr _), (_ && _ && _); lia.
  - by rewrite E.
Qed.

End InitAgain.

(** The emulator not started, port 0 assigned to the adapter in the store. *)
Lemma Init_refreshes_and_starts_scan_witness :
  let s' := @Init dolphin_headers starting_env initial_state in
  s_config_si_device_type s' = [12; 0; 0; 0]
  /\ count_event is_ThreadStart_ScanThread (s_trace s') = 1%nat.
Proof.
  pose proof (@Init_refreshes_and_starts_scan dolphin_headers starting_env initial_state
                ltac:(reflexivity) ltac:(reflexivity) ltac:(reflexivity) ltac:(reflexivity))
    as (Hsd & _ & _ & _ & _ & _ & Hn & _).
  exact (conj Hsd Hn).
Defined.

(** ** Hotplug events *)

Section Hotplug.
Context `{H : Headers}.

Lemma on_statics_id (f : State -> State) d : f (statics d) = statics d -> on_statics f d = d.
Proof. destruct d as [s he hp calls]. unfold on_statics. cbn. by intros ->. Qed.

Lemma HotplugCallback_ignored_left dev d :
  0 <= s_status (statics d) ->
  s_handle (statics d) <> Some dev \/ s_init_mutex (statics d) = true ->
  HotplugCallback dev LIBUSB_HOTPLUG_EVENT_DEVICE_LEFT d = d.
Proof.
  intros Hs Hg. unfold HotplugCallback.
  assert (E : (if negb (is_nullptr (s_handle (statics d)))
                  && handle_is_device (statics d) dev
               then on_statics Reset d else d) = d).
  { destruct (negb _ && _) eqn:Hc; [| reflexivity].
    apply on_statics_id. destruct Hg as [Hg | Hg].
    - exfalso. apply Hg. apply andb_true_iff in Hc as [_ Hc].
      unfold handle_is_device in Hc. destruct (s_handle (statics d)); [| done].
      by apply Nat.eqb_eq in Hc as ->.
    - apply Reset_skipped. by left. }
  rewrite E. by destruct (Z.ltb_spec (s_status (statics d)) 0); [lia |].
Qed.

(** X18: when libusb reports that the device of the open session has left,
    and [s_init_mutex] is free, [HotplugCallback] does what [Reset] does and
    nothing else: the handle is closed, every port is disconnected,
    [IsDetected] answers [false] without a message, and the callback has
    been run once by [Reset], not a second time for the status.  The same
    event reported again changes nothing. *)
Theorem HotplugCallback_closes_session dev d :
  s_handle (statics d) = Some dev -> s_init_mutex (statics d) = false ->
  s_status (statics d) = ADAPTER_DETECTED ->
  let d' := HotplugCallback dev LIBUSB_HOTPLUG_EVENT_DEVICE_LEFT d in
  d' = on_statics Reset d
  /\ s_handle (statics d') = None
  /\ IsDetected true (statics d') = (false, Some None)
  /\ s_controller_type (statics d') = fill ControllerType.None (s_controller_type (statics d))
  /\ count_event is_DetectCallback (s_trace (statics d'))
     = (count_event is_DetectCallback (s_trace (statics d))
        + (if s_detect_callback (statics d) then 1 else 0))%nat
  /\ HotplugCallback dev LIBUSB_HOTPLUG_EVENT_DEVICE_LEFT d' = d'.
Proof.
  intros Hh Hm Hs d'.
  destruct (Reset_detected (statics d) Hm Hs) as (Hn & _ & Ht & Hs' & Hh' & _).
  assert (E : d' = on_statics Reset d).
  { subst d'. unfold HotplugCallback, handle_is_device. rewrite Hh, Nat.eqb_refl.
    cbn [is_nullptr negb andb]. cbn [statics on_statics]. by rewrite Hs'. }
  assert (Es : statics d' = Reset (statics d)) by (by rewrite E).
  split; [exact E | rewrite Es].
  split; [exact Hh' | split; [| split; [exact Ht | split; [exact Hn |]]]].
  - unfold IsDetected. by rewrite Hs'.
  - apply HotplugCallback_ignored_left.
    + rewrite Es, Hs'. unfold NO_ADAPTER_DETECTED. lia.
    + left. by rewrite Es, Hh'.
Qed.

(** X19: the events [HotplugCallback] ignores.  It changes nothing when a
    device arrives while a session is open, and nothing when a device leaves
    while the status holds no error code and either the device is not the
    one of the open session or another thread holds [s_init_mutex]; in that
    last case the session of the device that has left stays open. *)
Theorem HotplugCallback_ignored dev event d :
  match event with
  | LIBUSB_HOTPLUG_EVENT_DEVICE_ARRIVED => s_handle (statics d) <> None
  | LIBUSB_HOTPLUG_EVENT_DEVICE_LEFT =>
      0 <= s_status (statics d)
      /\ (s_handle (statics d) <> Some dev \/ s_init_mutex (statics d) = true)
  end ->
  HotplugCallback dev event d = d.
Proof.
  destruct event.
  - intros Hh. unfold HotplugCallback. by destruct (s_handle (statics d)).
  - intros [Hs Hg]. by apply HotplugCallback_ignored_left.
Qed.

(** X20: when a device leaves while no session is open and the status holds
    the error code of a failed probe, [HotplugCallback] sets the status back
    to "not detected" and runs the registered callback, if any, once;
    [IsDetected] then answers [false] without a message, and the same event
    reported again changes nothing. *)
Theorem HotplugCallback_clears_error dev d :
  s_handle (statics d) = None -> s_status (statics d) < 0 ->
  let d' := HotplugCallback dev LIBUSB_HOTPLUG_EVENT_DEVICE_LEFT d in
  s_status (statics d') = NO_ADAPTER_DETECTED
  /\ IsDetected true (statics d') = (false, Some None)
  /\ s_trace (statics d')
     = s_trace (statics d) ++ (if s_detect_callback (statics d) then [DetectCallback] else [])
  /\ s_handle (statics d') = None
  /\ HotplugCallback dev LIBUSB_HOTPLUG_EVENT_DEVICE_LEFT d' = d'.
Proof.
  intros Hh Hs d'.
  assert (E : statics d'
              = (if s_detect_callback (statics d)
                 then emit DetectCallback (set_status NO_ADAPTER_DETECTED (statics d))
                 else set_status NO_ADAPTER_DETECTED (statics d))).
  { subst d'. unfold HotplugCallback. rewrite Hh. cbn [is_nullptr negb andb].
    destruct (Z.ltb_spec (s_status (statics d)) 0); [| lia].
    cbn [statics on_statics].
    change (s_detect_callback (set_status NO_ADAPTER_DETECTED (statics d)))
      with (s_detect_callback (statics d)).
    by destruct (s_detect_callback (statics d)). }
  assert (Hs' : s_status (statics d') = NO_ADAPTER_DETECTED).
  { rewrite E. by destruct (s_detect_callback (statics d)). }
  assert (Hh' : s_handle (statics d') = None).
  { rewrite E. by destruct (s_detect_callback (statics d)). }
  split; [exact Hs' | split; [| split; [| split; [exact Hh' |]]]].
  - unfold IsDetected. by rewrite Hs'.
  - rewrite E. destruct (s_detect_callback (statics d)); [reflexivity |].
    by rewrite app_nil_r.
  - apply (HotplugCallback_ignored_left dev d'); [by rewrite Hs' | left; by rewrite Hh'].
Qed.

End Hotplug.

(** The adapter of the running session is unplugged. *)
Lemma HotplugCallback_closes_session_witness :
  let d' := HotplugCallback 1 LIBUSB_HOTPLUG_EVENT_DEVICE_LEFT running_driver in
  s_handle (statics d') = None /\ IsDetected true (statics d') = (false, Some None).
Proof.
  pose proof (HotplugCallback_closes_session 1%nat running_driver
                ltac:(reflexivity) ltac:(reflexivity) ltac:(reflexivity))
    as (_ & Hh & Hd & _).
  exact (conj Hh Hd).
Defined.

(** Another adapter (device 9) is unplugged while the session on device 1
    is open. *)
Lemma HotplugCallback_ignored_witness :
  HotplugCallback 9 LIBUSB_HOTPLUG_EVENT_DEVICE_LEFT running_driver = running_driver.
Proof.
  apply (HotplugCallback_ignored 9%nat LIBUSB_HOTPLUG_EVENT_DEVICE_LEFT running_driver).
  split; [simpl; unfold ADAPTER_DETECTED; lia | left; discriminate].
Defined.

(** The adapter whose probe had failed is unplugged. *)
Lemma HotplugCallback_clears_error_witness :
  let d' := HotplugCallback 2 LIBUSB_HOTPLUG_EVENT_DEVICE_LEFT failed_probe_driver in
  IsDetected true (statics failed_probe_driver) = (false, Some (Some (-3)))
  /\ IsDetected true (statics d') = (false, Some None)
  /\ s_trace (statics d') = [DetectCallback].
Proof.
  pose proof (HotplugCallback_clears_error 2%nat failed_probe_driver
                ltac:(reflexivity) ltac:(simpl; lia))
    as (_ & Hd & Ht & _).
  exact (conj eq_refl (conj Hd Ht)).
Defined.

(** ** Shutdown *)

Section ShutdownProperties.
Context `{H : Headers}.

Lemma StopScanThread_fields d :
  statics (StopScanThread d)
  = (if s_adapter_detect_thread_running (statics d)
     then emit (ThreadJoin ScanThread)
            (set_adapter_detect_thread_running false (statics d))
     else statics d)
  /\ s_calls (StopScanThread d) = s_calls d
  /\ s_libusb_hotplug_enabled (StopScanThread d) = s_libusb_hotplug_enabled d
  /\ s_hotplug_event (StopScanThread d)
     = (if s_adapter_detect_thread_running (statics d)
        then negb (s_libusb_hotplug_enabled d) else s_hotplug_event d).
Proof.
  unfold StopScanThread. destruct (s_adapter_detect_thread_running (statics d)); [| done].
  destruct d as [s he hp calls]. by destruct hp.
Qed.

(** What [Reset] never touches. *)
Lemma Reset_lifecycle_frame s :
  s_adapter_detect_thread_running (Reset s) = s_adapter_detect_thread_running s
  /\ s_libusb_context (Reset s) = s_libusb_context s
  /\ s_config_callback_id (Reset s) = s_config_callback_id s
  /\ s_last_init (Reset s) = s_last_init s
  /\ s_init_mutex (Reset s) = s_init_mutex s.
Proof.
  destruct (s_init_mutex s) eqn:Hm; [by rewrite Reset_skipped by (by left) |].
  destruct (Z.eq_dec (s_status s) ADAPTER_DETECTED) as [Hs | Hs];
    [| by rewrite Reset_skipped by (by right)].
  unfold Reset, Write_iteration. rewrite Hm, Hs, Z.eqb_refl. cbn [negb].
  destruct s as [st hd ct cr cp cw sz tr da im dr cb lc ei eo li ci sd re tc].
  change (im = false) in Hm. subst im.
  destruct tr, hd, cb; state_cbv; cbn [snd]; state_cbv; done.
Qed.

Lemma set_config_callback_id_None s :
  s_config_callback_id s = None -> set_config_callback_id None s = s.
Proof. destruct s. cbn. by intros ->. Qed.

(** The statics after [Shutdown], as a composition. *)
Lemma Shutdown_statics d :
  statics (Shutdown d)
  = set_config_callback_id None
      (set_status NO_ADAPTER_DETECTED
         (set_libusb_context None (Reset (statics (StopScanThread d))))).
Proof.
  unfold Shutdown. cbv zeta.
  set (d1 := StopScanThread d).
  set (d2 := if context_IsValid (statics d1) && s_libusb_hotplug_enabled d1
             then call HotplugDeregisterCallback d1 else d1).
  assert (E2 : statics d2 = statics d1) by (subst d2; by destruct (_ && _)).
  cbn [statics on_statics]. rewrite E2.
  change (s_config_callback_id (set_status ?a (set_libusb_context ?b ?x)))
    with (s_config_callback_id x).
  destruct (s_config_callback_id (Reset (statics d1))) as [id |] eqn:Eid.
  - cbn [statics on_statics call]. by rewrite E2.
  - cbn [statics on_statics]. rewrite E2. symmetry.
    by apply set_config_callback_id_None.
Qed.

Lemma Shutdown_calls d :
  s_calls (Shutdown d)
  = (s_calls d
     ++ (if context_IsValid (statics d) && s_libusb_hotplug_enabled d
         then [HotplugDeregisterCallback] else []))
    ++ match s_config_callback_id (statics d) with
       | Some id => [RemoveConfigChangedCallback id]
       | None => []
       end.
Proof.
  destruct (StopScanThread_fields d) as (Es & Ec & Ehp & _).
  destruct (Reset_lifecycle_frame (statics (StopScanThread d))) as (_ & _ & Eci & _).
  assert (Eci' : s_config_callback_id (statics (StopScanThread d))
                 = s_config_callback_id (statics d)).
  { rewrite Es. by destruct (s_adapter_detect_thread_running (statics d)). }
  assert (Ectx : context_IsValid (statics (StopScanThread d)) = context_IsValid (statics d)).
  { unfold context_IsValid. rewrite Es.
    by destruct (s_adapter_detect_thread_running (statics d)). }
  unfold Shutdown. cbv zeta.
  set (d1 := StopScanThread d) in *.
  rewrite Ectx, Ehp.
  set (d2 := if context_IsValid (statics d) && s_libusb_hotplug_enabled d
             then call HotplugDeregisterCallback d1 else d1).
  assert (E2 : statics d2 = statics d1) by (subst d2; by destruct (_ && _)).
  assert (C2 : s_calls d2
               = s_calls d ++ (if context_IsValid (statics d) && s_libusb_hotplug_enabled d
                               then [HotplugDeregisterCallback] else [])).
  { subst d2. destruct (_ && _); cbn [s_calls call]; rewrite Ec; [reflexivity |].
    by rewrite app_nil_r. }
  cbn [statics on_statics]. rewrite E2.
  change (s_config_callback_id (set_status ?a (set_libusb_context ?b ?x)))
    with (s_config_callback_id x).
  rewrite Eci, Eci'.
  destruct (s_config_callback_id (statics d)) as [id |].
  - cbn [s_calls call on_statics]. by rewrite C2.
  - cbn [s_calls on_statics]. by rewrite C2, app_nil_r.
Qed.

(** The handle after [Reset] on a coherent state whose mutex is free. *)
Lemma Reset_closes_coherent s :
  s_init_mutex s = false -> coherent s ->
  s_handle (Reset s) = None
  /\ interrupt_writes (s_trace (Reset s)) = interrupt_writes (s_trace s).
Proof.
  intros Hm Hco.
  destruct (Z.eq_dec (s_status s) ADAPTER_DETECTED) as [Hs | Hs].
  - by destruct (Reset_detected s Hm Hs) as (_ & Hw & _ & _ & Hh & _).
  - rewrite Reset_skipped by (by right). split; [| reflexivity].
    destruct (s_handle s) eqn:Hh; [| reflexivity].
    exfalso. apply Hs, Hco. by rewrite Hh.
Qed.

Lemma Shutdown_stopped d :
  s_init_mutex (statics d) = false -> coherent (statics d) ->
  let s1 := statics (StopScanThread d) in
  s_init_mutex s1 = false /\ coherent s1
  /\ s_adapter_detect_thread_running s1 = false
  /\ s_last_init s1 = s_last_init (statics d)
  /\ interrupt_writes (s_trace s1) = interrupt_writes (s_trace (statics d)).
Proof.
  intros Hm Hco s1. subst s1.
  destruct (StopScanThread_fields d) as (Es & _). rewrite Es.
  destruct (s_adapter_detect_thread_running (statics d)) eqn:Hr.
  - split; [exact Hm | split; [exact Hco | split; [reflexivity | split; [reflexivity |]]]].
    change (s_trace (emit ?e (set_adapter_detect_thread_running false ?x)))
      with (s_trace x ++ [e]).
    by rewrite interrupt_writes_snoc, app_nil_r.
  - split; [exact Hm | split; [exact Hco | split; [exact Hr | split; reflexivity]]].
Qed.

(** X21: [Shutdown], called with a libusb context in place, [s_init_mutex]
    free and handle and status in agreement, leaves no handle, the status
    "not detected", no context, no configuration subscription and no scan
    thread; it deregisters the hotplug callback exactly when the context was
    valid and hotplug detection in use, removes the configuration callback
    exactly when one was subscribed, in that order, and writes nothing to the
    adapter: no rumble payload is sent before the handle is closed. *)
Theorem Shutdown_closes_everything d :
  s_libusb_context (statics d) <> None ->
  s_init_mutex (statics d) = false -> coherent (statics d) ->
  let d' := Shutdown d in
  s_handle (statics d') = None
  /\ s_status (statics d') = NO_ADAPTER_DETECTED
  /\ s_libusb_context (statics d') = None
  /\ s_config_callback_id (statics d') = None
  /\ s_adapter_detect_thread_running (statics d') = false
  /\ interrupt_writes (s_trace (statics d')) = interrupt_writes (s_trace (statics d))
  /\ s_calls d'
     = (s_calls d
        ++ (if context_IsValid (statics d) && s_libusb_hotplug_enabled d
            then [HotplugDeregisterCallback] else []))
       ++ match s_config_callback_id (statics d) with
          | Some id => [RemoveConfigChangedCallback id]
          | None => []
          end.
Proof.
  intros _ Hm Hco d'.
  destruct (Shutdown_stopped d Hm Hco) as (Hm1 & Hco1 & Hr1 & _ & Hw1).
  destruct (Reset_closes_coherent _ Hm1 Hco1) as (Hh2 & Hw2).
  destruct (Reset_lifecycle_frame (statics (StopScanThread d))) as (Hr2 & _).
  subst d'. rewrite Shutdown_statics, Shutdown_calls.
  split; [exact Hh2 |]. do 3 (split; [reflexivity |]).
  split; [exact (eq_trans Hr2 Hr1) |].
  split; [exact (eq_trans Hw2 Hw1) | reflexivity].
Qed.

(** What the statics are when [StopScanThread] returns. *)
Lemma StopScanThread_statics d :
  let s1 := statics (StopScanThread d) in
  s_init_mutex s1 = s_init_mutex (statics d)
  /\ s_handle s1 = s_handle (statics d)
  /\ s_status s1 = s_status (statics d)
  /\ s_adapter_detect_thread_running s1 = false
  /\ s_last_init s1 = s_last_init (statics d).
Proof.
  intros s1. subst s1. destruct (StopScanThread_fields d) as (Es & _). rewrite Es.
  by destruct (s_adapter_detect_thread_running (statics d)) eqn:Hr.
Qed.

(** [Reset] opens no handle. *)
Lemma Reset_keeps_closed s : s_handle s = None -> s_handle (Reset s) = None.
Proof.
  destruct (s_init_mutex s) eqn:Hm; [by rewrite Reset_skipped by (by left) |].
  destruct (Z.eq_dec (s_status s) ADAPTER_DETECTED) as [Hs | Hs];
    [| by rewrite Reset_skipped by (by right)].
  intros _. by destruct (Reset_detected s Hm Hs) as (_ & _ & _ & _ & Hh & _).
Qed.

(** X22: [Init] after a [Shutdown] that was called with a libusb context in
    place.  [Shutdown] keeps the tick count the rate limit compares with.
    When [Shutdown] leaves no handle (there was none, or the status was
    "detected" and its [Reset] found [s_init_mutex] free): if the limit is
    not reached, the [Init] that follows subscribes to the configuration
    again, makes a new context, and runs the scan thread exactly when the
    store assigns the adapter to some port and the new context is valid; if
    the limit is reached, which takes a running core, that [Init] makes a
    new context and nothing else: no subscription and no scan thread.  When
    a handle was open and the [Reset] of [Shutdown] did not run (another
    thread held [s_init_mutex], or the status was not "detected"), the
    handle stays open and the [Init] that follows returns at its first
    guard: no context, no subscription and no scan thread. *)
Theorem Init_after_Shutdown env d :
  s_libusb_context (statics d) <> None ->
  let s0 := statics (Shutdown d) in
  let s' := Init env s0 in
  (s_handle (statics d) = None
   \/ (s_init_mutex (statics d) = false /\ s_status (statics d) = ADAPTER_DETECTED) ->
   (init_rate_limited env (statics d) = false ->
    s_config_callback_id s' = Some (new_callback_id env)
    /\ s_trace s'
       = (s_trace s0 ++ [AddConfigChangedCallback])
         ++ (if UseAdapter s' && context_valid env then [ThreadStart ScanThread] else [])
    /\ s_adapter_detect_thread_running s' = UseAdapter s' && context_valid env
    /\ s_libusb_context s' = Some (context_valid env))
   /\ (init_rate_limited env (statics d) = true ->
       s' = set_libusb_context (Some (context_valid env)) s0
       /\ s_config_callback_id s' = None
       /\ s_adapter_detect_thread_running s' = false))
  /\ (s_handle (statics d) <> None ->
      s_init_mutex (statics d) = true \/ s_status (statics d) <> ADAPTER_DETECTED ->
      s_handle s0 = s_handle (statics d)
      /\ s' = s0
      /\ s_config_callback_id s' = None
      /\ s_libusb_context s' = None
      /\ s_adapter_detect_thread_running s' = false).
Proof.
  intros _ s0 s'.
  destruct (StopScanThread_statics d) as (Hm1 & Hh1 & Hs1 & Hr1 & Hl1).
  destruct (Reset_lifecycle_frame (statics (StopScanThread d))) as (Hr2 & _ & _ & Hl2 & _).
  assert (E0 : s0 = set_config_callback_id None
                      (set_status NO_ADAPTER_DETECTED
                         (set_libusb_context None (Reset (statics (StopScanThread d))))))
    by apply Shutdown_statics.
  assert (Hc0 : s_config_callback_id s0 = None) by (by rewrite E0).
  assert (Hr0 : s_adapter_detect_thread_running s0 = false)
    by (rewrite E0; exact (eq_trans Hr2 Hr1)).
  assert (Hl0 : init_rate_limited env s0 = init_rate_limited env (statics d)).
  { unfold init_rate_limited. f_equal. f_equal. f_equal. f_equal.
    rewrite E0. exact (eq_trans Hl2 Hl1). }
  split.
  - intros Hclosed.
    assert (Hh0 : s_handle s0 = None).
    { rewrite E0.
      change (s_handle (Reset (statics (StopScanThread d))) = None).
      destruct Hclosed as [Hn | [Hm Hs]].
      - apply Reset_keeps_closed. congruence.
      - assert (Hm' : s_init_mutex (statics (StopScanThread d)) = false) by congruence.
        assert (Hs' : s_status (statics (StopScanThread d)) = ADAPTER_DETECTED)
          by congruence.
        by destruct (Reset_detected _ Hm' Hs') as (_ & _ & _ & _ & Hh & _). }
    split; intros Hl; rewrite <- Hl0 in Hl.
    + pose proof (Init_result env s0 Hh0 Hl) as E. cbv zeta in E. fold s' in E.
      rewrite Hc0, Hr0 in E. cbn [is_nullptr negb orb] in E. rewrite andb_true_r in E.
      assert (HU : UseAdapter s'
                   = existsb (fun device_type => device_type =? SIDEVICE_WIIU_ADAPTER)
                       (config_si_snapshot env (s_config_si_device_type s0))).
      { unfold UseAdapter. by rewrite E. }
      rewrite HU. rewrite E. by repeat split.
    + subst s'. rewrite (Init_limited env s0 Hh0 Hl). by repeat split.
  - intros Hopen Hskip.
    assert (Er : Reset (statics (StopScanThread d)) = statics (StopScanThread d)).
    { apply Reset_skipped. destruct Hskip as [Hm | Hs]; [left | right]; congruence. }
    assert (Hh0 : s_handle s0 = s_handle (statics d)).
    { rewrite E0.
      change (s_handle (Reset (statics (StopScanThread d))) = s_handle (statics d)).
      by rewrite Er. }
    assert (Ei : s' = s0).
    { subst s'. unfold Init. rewrite Hh0.
      by destruct (s_handle (statics d)). }
    split; [exact Hh0 |]. split; [exact Ei |]. rewrite Ei.
    split; [exact Hc0 |]. split; [by rewrite E0 | exact Hr0].
Qed.

End ShutdownProperties.

Lemma Shutdown_closes_everything_witness :
  let d' := Shutdown running_driver in
  s_handle (statics d') = None
  /\ s_calls d' = [HotplugRegisterCallback; HotplugDeregisterCallback;
                   RemoveConfigChangedCallback 0].
Proof.
  pose proof (Shutdown_closes_everything running_driver
                ltac:(discriminate) ltac:(reflexivity)
                ltac:(split; [reflexivity | discriminate]))
    as (Hh & _ & _ & _ & _ & _ & Hc).
  exact (conj Hh Hc).
Defined.

(** The emulator is stopped and started again: once with [s_init_mutex]
    free, once while another thread holds it. *)
Lemma Init_after_Shutdown_witness :
  let s' := @Init dolphin_headers starting_env (statics (Shutdown running_driver)) in
  let s'' := @Init dolphin_headers starting_env (statics (Shutdown contended_driver)) in
  (s_config_callback_id s' = Some 4%nat /\ s_adapter_detect_thread_running s' = true)
  /\ (s_handle s'' = Some 1%nat /\ s_config_callback_id s'' = None
      /\ s_libusb_context s'' = None).
Proof.
  pose proof (proj1 (proj1 (@Init_after_Shutdown dolphin_headers starting_env running_driver
                              ltac:(discriminate))
                       ltac:(right; split; reflexivity))
                ltac:(reflexivity))
    as (Hc & _ & Hr & _).
  pose proof (proj2 (@Init_after_Shutdown dolphin_headers starting_env contended_driver
                       ltac:(discriminate))
                ltac:(discriminate) ltac:(left; reflexivity))
    as (Hh & Ei & Hc' & Hx & _).
  split; [exact (conj Hc Hr) |].
  split; [| exact (conj Hc' Hx)].
  rewrite Ei. exact Hh.
Defined.

(** ** Sessions keep handle and status together *)

Section RunInvariant.
Context `{H : Headers}.

(** X23: along any run of an open session (passes of the read and write
    threads, [Input], [Output], [ResetRumble], [ResetDeviceType], [Init] and
    [Reset], in any order) the handle is open exactly when the status is
    "detected"; so [IsDetected] answers [true] exactly while a handle is
    open. *)
Theorem session_run_keeps_coherence s s' :
  session_run s s' -> coherent s ->
  coherent s' /\ (fst (IsDetected false s') = true <-> s_handle s' <> None).
Proof.
  intros Hrun Hco.
  assert (Hco' : coherent s').
  { induction Hrun as [s | s1 s2 s3 Hrun IH Hstep]; [exact Hco |].
    by apply (session_step_coherent s2 s3 Hstep), IH. }
  split; [exact Hco' |]. unfold IsDetected.
  destruct (Z.leb_spec 0 (s_status s')) as [Hpos | Hneg]; cbn [fst].
  - rewrite Z.eqb_eq. symmetry. exact Hco'.
  - split; [discriminate |]. intros Hh. apply Hco' in Hh.
    unfold ADAPTER_DETECTED in Hh. lia.
Qed.

End RunInvariant.

(** A poll, a rumble command and a reset on the claimed session. *)
Lemma session_run_keeps_coherence_witness :
  coherent (Reset (@Output dolphin_headers 0 1
                     (snd (@Input dolphin_headers false 0 wired_A_session)))).
Proof.
  refine (proj1 (@session_run_keeps_coherence dolphin_headers wired_A_session _ _ _)).
  - eapply run_step; [eapply run_step; [eapply run_step; [apply run_refl |] |] |].
    + apply (step_Input _ false 0%nat).
    + apply (step_Output _ 0%nat 1). unfold is_u8. lia.
    + apply step_Reset.
  - split; [reflexivity | discriminate].
Defined.

(** ** The Android build: a payload of another size *)

Section AndroidInput.
Context `{H : Headers}.

(** X24: in the Android build one payload of another size than 37 ends the
    session for [Input].  The call that finds it returns the neutral pad
    state and runs [Reset]: the adapter is no longer detected and every port
    is disconnected.  Every later call, for any port, returns the neutral pad
    state and changes nothing, whatever the read thread delivers, until
    [Setup] runs again. *)
Theorem Android_short_payload_ends_session wants_determinism chan (s : Android.State) :
  Android.UseAdapter s = true -> Android.s_detected s = true -> Android.s_fd s <> 0 ->
  Android.s_controller_payload_size s <> CONTROLER_INPUT_PAYLOAD_EXPECTED_SIZE ->
  let s1 := snd (Android.Input wants_determinism chan s) in
  Android.Input wants_determinism chan s = (GCPadStatus_default, Android.Reset s)
  /\ Android.s_detected s1 = false
  /\ (forall chan', (chan' < length (Android.s_controller_type s))%nat ->
      Android.DeviceConnected chan' s1 = false)
  /\ (forall wants_determinism' chan' payload size,
        Android.Input wants_determinism' chan'
          {| Android.s_detected := Android.s_detected s1;
             Android.s_fd := Android.s_fd s1;
             Android.s_controller_type := Android.s_controller_type s1;
             Android.s_controller_rumble := Android.s_controller_rumble s1;
             Android.s_controller_payload := payload;
             Android.s_controller_payload_size := size;
             Android.s_read_adapter_thread_running :=
               Android.s_read_adapter_thread_running s1;
             Android.s_config_si_device_type := Android.s_config_si_device_type s1;
             Android.s_trace := Android.s_trace s1 |}
        = (GCPadStatus_default,
           {| Android.s_detected := Android.s_detected s1;
              Android.s_fd := Android.s_fd s1;
              Android.s_controller_type := Android.s_controller_type s1;
              Android.s_controller_rumble := Android.s_controller_rumble s1;
              Android.s_controller_payload := payload;
              Android.s_controller_payload_size := size;
              Android.s_read_adapter_thread_running :=
                Android.s_read_adapter_thread_running s1;
              Android.s_config_si_device_type := Android.s_config_si_device_type s1;
              Android.s_trace := Android.s_trace s1 |})).
Proof.
  intros HU Hd Hfd Hsz s1.
  assert (E : Android.Input wants_determinism chan s = (GCPadStatus_default, Android.Reset s)).
  { unfold Android.Input. rewrite HU, Hd. cbn [negb orb].
    destruct (Z.eqb_spec (Android.s_fd s) 0); [done |].
    by destruct (Z.eqb_spec (Android.s_controller_payload_size s)
                   CONTROLER_INPUT_PAYLOAD_EXPECTED_SIZE). }
  assert (E1 : s1 = Android.Reset s) by (subst s1; by rewrite E).
  assert (Hd1 : Android.s_detected s1 = false).
  { rewrite E1. unfold Android.Reset. rewrite Hd. cbn [negb].
    by destruct (Android.s_read_adapter_thread_running s). }
  assert (Ht1 : Android.s_controller_type s1
                = fill ControllerType.None (Android.s_controller_type s)).
  { rewrite E1. unfold Android.Reset. rewrite Hd. cbn [negb].
    by destruct (Android.s_read_adapter_thread_running s). }
  split; [exact E | split; [exact Hd1 | split]].
  - intros chan' Hc. unfold Android.DeviceConnected. rewrite Ht1.
    unfold ControllerType.t in *. by rewrite fill_lookup_total.
  - intros wants_determinism' chan' payload size. unfold Android.Input.
    cbn [Android.s_detected Android.s_fd Android.s_config_si_device_type Android.UseAdapter].
    rewrite Hd1. cbn [negb orb]. by destruct (negb _).
Qed.

End AndroidInput.

Lemma Android_short_payload_ends_session_witness :
  let s1 := snd (@Android.Input dolphin_headers false 0 (Android.two_wired_session 12)) in
  Android.s_detected s1 = false /\ Android.DeviceConnected 1 s1 = false.
Proof.
  pose proof (@Android_short_payload_ends_session dolphin_headers false 0%nat
                (Android.two_wired_session 12)
                ltac:(reflexivity) ltac:(reflexivity) ltac:(discriminate)
                ltac:(discriminate))
    as (_ & Hd & Hc & _).
  exact (conj Hd (Hc 1%nat ltac:(simpl; lia))).
Defined.

(** ** The detection callback *)

Section Callback.
Context `{H : Headers}.

Ltac count_callbacks :=
  split; [reflexivity |];
  intros Hcb; try discriminate Hcb;
  rewrite ?count_event_snoc; cbn [is_DetectCallback]; lia.

(** No step of a session changes the registered callback, and no step runs
    one when none is registered. *)
Lemma session_step_callback s s' :
  session_step s s' ->
  s_detect_callback s' = s_detect_callback s
  /\ (s_detect_callback s = false ->
      count_event is_DetectCallback (s_trace s')
      = count_event is_DetectCallback (s_trace s)).
Proof.
  intros Hstep. destruct Hstep.
  - unfold Write_iteration.
    destruct s as [st hd ct cr cp cw sz tr da im dr cb lc ei eo li ci sd re tc].
    state_cbv. destruct tr; cbn [snd]; state_cbv; count_callbacks.
  - by split.
  - destruct (Input_state wants_determinism chan s) as [-> | ->]; by split.
  - unfold Output.
    destruct s as [st hd ct cr cp cw sz tr da im dr cb lc ei eo li ci sd re tc].
    case_ifs; state_cbv; count_callbacks.
  - unfold ResetRumble, ResetRumbleLockNeeded.
    destruct s as [st hd ct cr cp cw sz tr da im dr cb lc ei eo li ci sd re tc].
    case_ifs; state_cbv; count_callbacks.
  - by split.
  - unfold Init, StartScanThread.
    destruct s as [st hd ct cr cp cw sz tr da im dr cb lc ei eo li ci sd re tc].
    case_ifs; state_cbv; count_callbacks.
  - destruct (s_init_mutex s) eqn:Hm; [by rewrite Reset_skipped by (by left) |].
    destruct (Z.eq_dec (s_status s) ADAPTER_DETECTED) as [Hs | Hs];
      [| by rewrite Reset_skipped by (by right)].
    unfold Reset, Write_iteration. rewrite Hm, Hs, Z.eqb_refl. cbn [negb].
    destruct s as [st hd ct cr cp cw sz tr da im dr cb lc ei eo li ci sd re tc].
    destruct tr, hd, cb; state_cbv; cbn [snd]; state_cbv; count_callbacks.
Qed.

(** X25: with no callback registered ([SetAdapterCallback] given an empty
    function) nothing a session does runs one: along any run the callback
    stays unregistered and the number of callback runs stays what it was. *)
Theorem session_without_callback_runs_none s s' :
  session_run (SetAdapterCallback false s) s' ->
  s_detect_callback s' = false
  /\ count_event is_DetectCallback (s_trace s') = count_event is_DetectCallback (s_trace s).
Proof.
  intros Hrun.
  remember (SetAdapterCallback false s) as s0 eqn:E0.
  induction Hrun as [s1 | s1 s2 s3 Hrun IH Hstep].
  - by rewrite E0.
  - destruct (IH E0) as [Hcb Hn].
    destruct (session_step_callback s2 s3 Hstep) as [Hcb' Hn'].
    split; [congruence |]. rewrite Hn' by exact Hcb. exact Hn.
Qed.


End Callback.

(** No callback registered: a poll, a rumble command and a reset. *)
Lemma session_without_callback_runs_none_witness :
  count_event is_DetectCallback
    (s_trace (Reset (@Output dolphin_headers 0 1
                       (snd (@Input dolphin_headers false 0
                               (SetAdapterCallback false wired_A_session))))))
  = 0%nat.
Proof.
  refine (proj2 (@session_without_callback_runs_none dolphin_headers wired_A_session _ _)).
  eapply run_step; [eapply run_step; [eapply run_step; [apply run_refl |] |] |].
  - apply (step_Input _ false 0%nat).
  - apply (step_Output _ 0%nat 1). unfold is_u8. lia.
  - apply step_Reset.
Defined.

